(** * NeuroScroll: metrics engine, classifier bands and analysis scheduler

    A shallow embedding of [metrics-engine.ts], [ai-classifier.ts] and
    [ai-scheduler.ts].  JavaScript numbers are IEEE-754 binary64 values, which
    is what Rocq's primitive [float] computes with, so arithmetic, comparisons,
    [NaN] and the infinities behave here as they do in the engine.  Counters
    that the code only ever produces as array lengths or loop indices are
    kept as [nat] or [Z]. *)

From Stdlib Require Import ZArith List Bool Floats Uint63 Lia.
From stdpp Require Import gmap strings list sorting.

Local Open Scope Z_scope.

(* Decimal literals such as 0.3 denote the nearest binary64 value, as in
   JavaScript. *)
Set Warnings "-inexact-float".

(** ** JavaScript numbers *)

Definition nat2float (n : nat) : float := of_uint63 (Uint63.of_Z (Z.of_nat n)).

(** [isFinite(x)] *)
Definition isFinite (x : float) : bool := PrimFloat.is_finite x.

(** Truthiness of a number: every number but [0], [-0] and [NaN]. *)
Definition truthy (x : float) : bool := negb (PrimFloat.is_nan x || PrimFloat.is_zero x).

(** Truthiness of an optional numeric field ([undefined] is falsy). *)
Definition truthy_opt (o : option float) : bool :=
  match o with Some x => truthy x | None => false end.

(** [o || 0] for an optional numeric field. *)
Definition or_zero (o : option float) : float :=
  match o with
  | Some x => if truthy x then x else 0%float
  | None => 0%float
  end.

(** [x || 0] for a number. *)
Definition num_or_zero (x : float) : float := if truthy x then x else 0%float.

Definition gtb (a b : float) : bool := PrimFloat.ltb b a.
Definition geb (a b : float) : bool := PrimFloat.leb b a.

Definition is_neg_zero (x : float) : bool :=
  match PrimFloat.classify x with NZero => true | _ => false end.

(** [Math.max(a, b)]: [NaN] is contagious and [+0] is larger than [-0]. *)
Definition Math_max (a b : float) : float :=
  if PrimFloat.is_nan a || PrimFloat.is_nan b then nan
  else if PrimFloat.ltb a b then b
  else if PrimFloat.ltb b a then a
  else if is_neg_zero a then b else a.

(** [Math.min(a, b)]: [NaN] is contagious and [-0] is smaller than [+0]. *)
Definition Math_min (a b : float) : float :=
  if PrimFloat.is_nan a || PrimFloat.is_nan b then nan
  else if PrimFloat.ltb a b then a
  else if PrimFloat.ltb b a then b
  else if is_neg_zero a then a else b.

Definition Math_abs (x : float) : float := PrimFloat.abs x.
Definition Math_sqrt (x : float) : float := PrimFloat.sqrt x.

(** ** Arrays *)

(** [Array.prototype.sort(cmp)]: the sort is stable, and for a consistent
    comparator its result is the stable sorted arrangement, which insertion
    from the right computes: an element moves past exactly the elements that
    compare strictly below it. *)
Fixpoint sort_insert {A} (cmp : A -> A -> Z) (x : A) (l : list A) : list A :=
  match l with
  | [] => [x]
  | y :: l' => if 0 <? cmp x y then y :: sort_insert cmp x l' else x :: l
  end.

Definition js_sort {A} (cmp : A -> A -> Z) (l : list A) : list A :=
  fold_right (sort_insert cmp) [] l.

(** [l.slice(start, stop)] for [0 <= start <= stop]. *)
Definition slice {A} (start stop : nat) (l : list A) : list A :=
  firstn (stop - start) (skipn start l).

(** ** Data model ([types/index.ts]) *)

Inductive Action := enter | leave | replay | scroll.

Definition Action_eqb (a b : Action) : bool :=
  match a, b with
  | enter, enter | leave, leave | replay, replay | scroll, scroll => true
  | _, _ => false
  end.

Inductive ScrollDirection := up | down.

Record Metadata := {
  md_scrollSpeed : option float;
  md_dwellTime : option float;
  md_videoOrder : option float;
  md_scrollDirection : option ScrollDirection;
  md_scrollDistance : option float
}.

Record VideoInteraction := {
  vi_id : string;
  vi_videoId : string;
  vi_sessionId : string;
  vi_timestamp : float;
  vi_action : Action;
  vi_metadata : Metadata
}.

Record FatiguePoint := {
  fp_videoOrder : nat;
  fp_dwellTime : float;
  fp_timestamp : float
}.

Record BingeBurst := {
  bb_startIndex : Z;
  bb_endIndex : Z;
  bb_length : nat;
  bb_averageDwellTime : float;
  bb_timestamp : float
}.

Inductive HealthClassification := healthy | doomscroll | unknown.

Inductive SessionArchetype :=
  explorer | sampler | doomscroller | unknown_archetype.

Record ComputedMetrics := {
  cm_dopamineSpikeIndex : float;
  cm_attentionSpan : float;
  cm_replaySensitivity : nat;
  cm_sessionLength : float;
  cm_fatiguePoints : list FatiguePoint;
  cm_circadianDrift : bool;
  cm_healthClassification : HealthClassification;
  cm_confidence : float;
  cm_timestamp : float;
  cm_scrollMomentum : float;
  cm_rewardVariability : float;
  cm_bingeBursts : list BingeBurst;
  cm_engagementHalfLife : nat;
  cm_cognitiveLoad : float;
  cm_habitStrength : float;
  cm_noveltyBias : float;
  cm_sessionArchetype : SessionArchetype
}.

Record ViewingSession := {
  vs_id : string;
  vs_startTime : float;
  vs_endTime : option float;
  vs_isActive : bool;
  vs_videoCount : float;
  vs_totalDwellTime : float;
  vs_interactions : list VideoInteraction
}.

(** An element of an [interactions] array as a caller may hand it over:
    [null] or [undefined], or an object whose [metadata] may be missing
    ([None]); its other fields have their declared types. *)
Inductive InteractionArg :=
  | InteractionNullish
  | InteractionObject (id videoId sessionId : string) (timestamp : float)
      (action : Action) (metadata : option Metadata).

(** A session object whose [interactions] array holds such elements. *)
Record SessionObject := {
  so_id : string;
  so_startTime : float;
  so_endTime : option float;
  so_isActive : bool;
  so_videoCount : float;
  so_totalDwellTime : float;
  so_interactions : list InteractionArg
}.

(** What a caller can hand to [computeMetrics]: [null]/[undefined], an object
    whose [interactions] field is not an array, a session record of the
    declared type, or a session object whose array may hold malformed
    elements. *)
Inductive SessionArg :=
  | SessionNullish
  | SessionNoArray
  | SessionRecord (s : ViewingSession)
  | SessionUntyped (s : SessionObject).

(** The readings of [Date.now()] taken by one [computeMetrics] call: the one
    of [calculateSessionLength] and the one stored in [timestamp]. *)
Record Clock := { clk_length : float; clk_stamp : float }.

Definition isEnter (i : VideoInteraction) : bool := Action_eqb (vi_action i) enter.
Definition isReplay (i : VideoInteraction) : bool := Action_eqb (vi_action i) replay.
Definition isScroll (i : VideoInteraction) : bool := Action_eqb (vi_action i) scroll.

(** [i.action === 'leave' && i.metadata.dwellTime] *)
Definition isLeaveWithDwell (i : VideoInteraction) : bool :=
  Action_eqb (vi_action i) leave && truthy_opt (md_dwellTime (vi_metadata i)).

(** [i.metadata.dwellTime!] *)
Definition dwellOf (i : VideoInteraction) : float :=
  match md_dwellTime (vi_metadata i) with Some d => d | None => nan end.

(** ** MetricsEngine ([metrics-engine.ts])

    The interactions of a session record have the declared type
    [VideoInteraction].  On such values no function of the engine throws, so
    the [try]/[catch] blocks of the individual functions have nothing to
    catch and are left out.  What reaches the [catch] block of
    [computeMetrics] is kept: its own [throw], and the TypeError that the
    unguarded reads of [generateFatiguePoints] raise on a malformed element
    of the array. *)

Section MetricsEngine.

(** [new Date(t).getHours()]: the local hour of a time value, which depends
    on the host's time zone; [NaN] for an invalid date. *)
Variable getHours : float -> float.

(** [Math.pow], which ECMAScript leaves implementation-approximated. *)
Variable Math_pow : float -> float -> float.

Definition sumDwell (leaveEvents : list VideoInteraction) : float :=
  fold_left
    (fun sum interaction =>
       let dwellTime := or_zero (md_dwellTime (vi_metadata interaction)) in
       (sum + (if gtb dwellTime 0 then dwellTime else 0))%float)
    leaveEvents 0%float.

Definition calculateDopamineSpikeIndex (interactions : list VideoInteraction) : float :=
  if (length interactions =? 0)%nat then 0%float
  else
    let enterEvents := List.filter isEnter interactions in
    let leaveEvents := List.filter isLeaveWithDwell interactions in
    if (length enterEvents =? 0)%nat || (length leaveEvents =? 0)%nat then 0%float
    else
      let totalDwellTime := sumDwell leaveEvents in
      let averageDwellTime := (totalDwellTime / nat2float (length leaveEvents))%float in
      if PrimFloat.eqb averageDwellTime 0 || negb (isFinite averageDwellTime) then 0%float
      else
        let result := (nat2float (length enterEvents) / (averageDwellTime / 1000))%float in
        if isFinite result then Math_max 0 result else 0%float.

(** [time > 0 && isFinite(time)] *)
Definition positiveFinite (time : float) : bool := gtb time 0 && isFinite time.

(** The smoothing loop of [calculateAttentionSpan]; [None] is the early
    [return 0] on a non-finite intermediate value. *)
Fixpoint ewma_loop (alpha ewma : float) (rest : list float) : option float :=
  match rest with
  | [] => Some ewma
  | d :: rest' =>
      let ewma' := (alpha * d + (1 - alpha) * ewma)%float in
      if isFinite ewma' then ewma_loop alpha ewma' rest' else None
  end.

Definition calculateAttentionSpan (interactions : list VideoInteraction) : float :=
  if (length interactions =? 0)%nat then 0%float
  else
    let dwellTimes :=
      List.filter positiveFinite
        (map dwellOf (List.filter isLeaveWithDwell interactions)) in
    match dwellTimes with
    | [] => 0%float
    | first :: rest =>
        match ewma_loop 0.3%float first rest with
        | None => 0%float
        | Some ewma =>
            let result := (ewma / 1000)%float in
            if isFinite result then Math_max 0 result else 0%float
        end
    end.

Definition calculateReplaySensitivity (interactions : list VideoInteraction) : nat :=
  length (List.filter isReplay interactions).

(** [!session.endTime] holds for a missing, zero or [NaN] end time. *)
Definition calculateSessionLength (now : float) (session : ViewingSession) : float :=
  match vs_endTime session with
  | Some endTime =>
      if truthy endTime then ((endTime - vs_startTime session) / 60000)%float
      else ((now - vs_startTime session) / 60000)%float
  | None => ((now - vs_startTime session) / 60000)%float
  end.

(** The first loop of [generateFatiguePoints]: the [Map] from video id to the
    order of its first [enter], with the running counter. *)
Definition trackVideoOrder (interactions : list VideoInteraction) : gmap string nat * nat :=
  fold_left
    (fun (acc : gmap string nat * nat) interaction =>
       let '(videoSequence, videoOrder) := acc in
       match videoSequence !! vi_videoId interaction with
       | Some _ => acc
       | None => (<[vi_videoId interaction := videoOrder]> videoSequence, S videoOrder)
       end)
    (List.filter isEnter interactions) (∅, 0%nat).

(** The second loop: a point is pushed for a [leave] with a dwell time whose
    video has an order. *)
Definition pushFatiguePoint (videoSequence : gmap string nat)
    (fatiguePoints : list FatiguePoint) (interaction : VideoInteraction) : list FatiguePoint :=
  match videoSequence !! vi_videoId interaction with
  | Some order =>
      fatiguePoints ++
        [ {| fp_videoOrder := order;
             fp_dwellTime := (dwellOf interaction / 1000)%float;
             fp_timestamp := vi_timestamp interaction |} ]
  | None => fatiguePoints
  end.

Definition byVideoOrder (a b : FatiguePoint) : Z :=
  Z.of_nat (fp_videoOrder a) - Z.of_nat (fp_videoOrder b).

Definition generateFatiguePoints (interactions : list VideoInteraction) : list FatiguePoint :=
  let videoSequence := fst (trackVideoOrder interactions) in
  let fatiguePoints :=
    fold_left (pushFatiguePoint videoSequence)
      (List.filter isLeaveWithDwell interactions) [] in
  js_sort byVideoOrder fatiguePoints.

Definition inDriftWindow (hour : float) : bool := geb hour 23 || PrimFloat.ltb hour 6.

Definition detectCircadianDrift (startTime sessionLengthMinutes : float) : bool :=
  let startHour := getHours startTime in
  let endHour := getHours (startTime + sessionLengthMinutes * 60000)%float in
  let isStartInDriftWindow := inDriftWindow startHour in
  let isEndInDriftWindow := inDriftWindow endHour in
  let spansCircadianWindow := geb startHour 23 && PrimFloat.ltb endHour 6 in
  isStartInDriftWindow || isEndInDriftWindow || spansCircadianWindow.

Definition calculateFatigueSlope (fatiguePoints : list FatiguePoint) : float :=
  if (length fatiguePoints <? 2)%nat then 0%float
  else
    let n := nat2float (length fatiguePoints) in
    let X p := nat2float (fp_videoOrder p) in
    let sumX := fold_left (fun sum p => (sum + X p)%float) fatiguePoints 0%float in
    let sumY := fold_left (fun sum p => (sum + fp_dwellTime p)%float) fatiguePoints 0%float in
    let sumXY := fold_left (fun sum p => (sum + X p * fp_dwellTime p)%float) fatiguePoints 0%float in
    let sumXX := fold_left (fun sum p => (sum + X p * X p)%float) fatiguePoints 0%float in
    let slope := ((n * sumXY - sumX * sumY) / (n * sumXX - sumX * sumX))%float in
    if PrimFloat.is_nan slope then 0%float else slope.

Definition countTrue (flags : list bool) : nat := length (List.filter (fun b => b) flags).

Definition analyzeSessionHealth (metrics : ComputedMetrics) : HealthClassification :=
  let hasModerateAttentionSpan :=
    gtb (cm_attentionSpan metrics) 10 && PrimFloat.ltb (cm_attentionSpan metrics) 120 in
  let hasLowDopamineSpike := PrimFloat.ltb (cm_dopamineSpikeIndex metrics) 2 in
  let hasLowReplayRate := (cm_replaySensitivity metrics <? 5)%nat in
  let hasReasonableLength := PrimFloat.ltb (cm_sessionLength metrics) 60 in
  let noCircadianDrift := negb (cm_circadianDrift metrics) in
  let healthyIndicators :=
    countTrue [hasModerateAttentionSpan; hasLowDopamineSpike; hasLowReplayRate;
               hasReasonableLength; noCircadianDrift] in
  let hasShortAttentionSpan := PrimFloat.ltb (cm_attentionSpan metrics) 5 in
  let hasHighDopamineSpike := gtb (cm_dopamineSpikeIndex metrics) 5 in
  let hasHighReplayRate := (10 <? cm_replaySensitivity metrics)%nat in
  let hasLongSession := gtb (cm_sessionLength metrics) 120 in
  let hasCircadianDrift := cm_circadianDrift metrics in
  let doomscrollIndicators :=
    countTrue [hasShortAttentionSpan; hasHighDopamineSpike; hasHighReplayRate;
               hasLongSession; hasCircadianDrift] in
  if (3 <=? healthyIndicators)%nat then healthy
  else if (3 <=? doomscrollIndicators)%nat then doomscroll
  else unknown.

Definition extractDwellTimes (interactions : list VideoInteraction) : list float :=
  List.filter positiveFinite
    (map (fun i => (dwellOf i / 1000)%float) (List.filter isLeaveWithDwell interactions)).

Definition clamp01 (x : float) : float := Math_max 0 (Math_min 1 x).

Definition calculateScrollMomentum (interactions : list VideoInteraction) : float :=
  let dwellTimes := extractDwellTimes interactions in
  if (length dwellTimes =? 0)%nat then 0%float
  else
    let quickSkips := length (List.filter (fun time => PrimFloat.ltb time 3) dwellTimes) in
    let momentum := (nat2float quickSkips / nat2float (length dwellTimes))%float in
    if isFinite momentum then clamp01 momentum else 0%float.

Definition sumFloats (l : list float) : float :=
  fold_left (fun sum time => (sum + time)%float) l 0%float.

Definition variance (dwellTimes : list float) (mean : float) : float :=
  (fold_left (fun sum time => (sum + Math_pow (time - mean) 2)%float) dwellTimes 0
   / nat2float (length dwellTimes))%float.

Definition calculateRewardVariability (dwellTimes : list float) : float :=
  if (length dwellTimes <? 2)%nat then 0%float
  else
    let mean := (sumFloats dwellTimes / nat2float (length dwellTimes))%float in
    let standardDeviation := Math_sqrt (variance dwellTimes mean) in
    if isFinite standardDeviation then standardDeviation else 0%float.

(** One element of the [dwellTimes] array of [detectBingeBursts]. *)
Record DwellItem := {
  di_index : nat;
  di_dwellTime : float;
  di_timestamp : float
}.

Definition dwellItems (interactions : list VideoInteraction) : list DwellItem :=
  imap (fun index i =>
          {| di_index := index;
             di_dwellTime := (dwellOf i / 1000)%float;
             di_timestamp := vi_timestamp i |})
       (List.filter isLeaveWithDwell interactions).

(** The variables of the detection loop. *)
Record BurstScan := {
  bursts : list BingeBurst;
  burstStart : Z;
  burstDwellTimes : list float;
  burstTimestamps : list float
}.

Definition mkBurst (burstStart : Z) (burstDwellTimes burstTimestamps : list float) : BingeBurst :=
  let averageDwellTime :=
    (sumFloats burstDwellTimes / nat2float (length burstDwellTimes))%float in
  {| bb_startIndex := burstStart;
     bb_endIndex := burstStart + Z.of_nat (length burstDwellTimes) - 1;
     bb_length := length burstDwellTimes;
     bb_averageDwellTime := averageDwellTime;
     bb_timestamp := hd 0%float burstTimestamps |}.

(** [if (burstStart !== -1 && burstDwellTimes.length >= 5) bursts.push(...)] *)
Definition closeBurst (st : BurstScan) : list BingeBurst :=
  if negb (burstStart st =? -1) && (5 <=? length (burstDwellTimes st))%nat
  then bursts st ++ [mkBurst (burstStart st) (burstDwellTimes st) (burstTimestamps st)]
  else bursts st.

(** One iteration of the loop, at index [i] on [item]. *)
Definition burstStep (st : BurstScan) (i : nat) (item : DwellItem) : BurstScan :=
  if PrimFloat.ltb (di_dwellTime item) 5 then
    if burstStart st =? -1 then
      {| bursts := bursts st;
         burstStart := Z.of_nat i;
         burstDwellTimes := [di_dwellTime item];
         burstTimestamps := [di_timestamp item] |}
    else
      {| bursts := bursts st;
         burstStart := burstStart st;
         burstDwellTimes := burstDwellTimes st ++ [di_dwellTime item];
         burstTimestamps := burstTimestamps st ++ [di_timestamp item] |}
  else
    {| bursts := closeBurst st;
       burstStart := -1;
       burstDwellTimes := [];
       burstTimestamps := [] |}.

Fixpoint burstLoop (st : BurstScan) (i : nat) (items : list DwellItem) : BurstScan :=
  match items with
  | [] => st
  | item :: items' => burstLoop (burstStep st i item) (S i) items'
  end.

Definition burstInit : BurstScan :=
  {| bursts := []; burstStart := -1; burstDwellTimes := []; burstTimestamps := [] |}.

Definition detectBingeBursts (interactions : list VideoInteraction) : list BingeBurst :=
  closeBurst (burstLoop burstInit 0 (dwellItems interactions)).

Definition sumPointDwell (points : list FatiguePoint) : float :=
  fold_left (fun sum point => (sum + fp_dwellTime point)%float) points 0%float.

Definition videoOrderAt (sortedPoints : list FatiguePoint) (i : nat) : nat :=
  match sortedPoints !! i with Some p => fp_videoOrder p | None => 0%nat end.

(** The moving average that the loop of [calculateEngagementHalfLife]
    computes at index [i]. *)
Definition currentAttention (sortedPoints : list FatiguePoint) (i : nat) : float :=
  let windowSize := Nat.min 3 (i + 1) in
  let windowStart := Z.to_nat (Z.max 0 (Z.of_nat i - Z.of_nat windowSize + 1)) in
  (sumPointDwell (slice windowStart (i + 1) sortedPoints) / nat2float windowSize)%float.

(** [for (let i = ...; i < sortedPoints.length; i++)], with [remaining] the
    number of iterations left; [None] when the loop runs to its end. *)
Fixpoint halfLifeLoop (sortedPoints : list FatiguePoint) (halfAttention : float)
    (i remaining : nat) : option nat :=
  match remaining with
  | O => None
  | S remaining' =>
      if PrimFloat.leb (currentAttention sortedPoints i) halfAttention
      then Some (videoOrderAt sortedPoints i)
      else halfLifeLoop sortedPoints halfAttention (S i) remaining'
  end.

Definition calculateEngagementHalfLife (fatiguePoints : list FatiguePoint) : nat :=
  if (length fatiguePoints <? 3)%nat then 0%nat
  else
    let sortedPoints := js_sort byVideoOrder fatiguePoints in
    let initialAttention := (sumPointDwell (slice 0 3 sortedPoints) / 3)%float in
    let halfAttention := (initialAttention / 2)%float in
    match halfLifeLoop sortedPoints halfAttention 3 (length sortedPoints - 3) with
    | Some order => order
    | None => videoOrderAt sortedPoints (length sortedPoints - 1)
    end.

Definition classifySessionArchetype (metrics : ComputedMetrics) : SessionArchetype :=
  let attentionSpan := cm_attentionSpan metrics in
  let scrollMomentum := cm_scrollMomentum metrics in
  if PrimFloat.ltb (cm_sessionLength metrics) 0.5 || PrimFloat.eqb attentionSpan 0
  then unknown_archetype
  else
    let highAttention := gtb attentionSpan 15 in
    let moderateAttention := gtb attentionSpan 8 && PrimFloat.leb attentionSpan 15 in
    let lowAttention := PrimFloat.leb attentionSpan 8 in
    let lowMomentum := PrimFloat.ltb scrollMomentum 0.3 in
    let moderateMomentum := geb scrollMomentum 0.3 && PrimFloat.ltb scrollMomentum 0.6 in
    let highMomentum := geb scrollMomentum 0.6 in
    let manyBursts := (2 <=? length (cm_bingeBursts metrics))%nat in
    if highAttention && lowMomentum then explorer
    else if lowAttention && (highMomentum || manyBursts) then doomscroller
    else if moderateAttention && moderateMomentum then sampler
    else if highMomentum || manyBursts then doomscroller
    else if highAttention then explorer
    else sampler.

(** [i.action === 'leave' && i.metadata?.dwellTime && i.metadata.dwellTime < 2000] *)
Definition isRapidTransition (i : VideoInteraction) : bool :=
  isLeaveWithDwell i && PrimFloat.ltb (dwellOf i) 2000.

Definition calculateCognitiveLoad (interactions : list VideoInteraction) : float :=
  if (length interactions =? 0)%nat then 0%float
  else
    let scrollEvents := length (List.filter isScroll interactions) in
    let rapidTransitions := length (List.filter isRapidTransition interactions) in
    let cognitiveStressors := (scrollEvents + rapidTransitions)%nat in
    let cognitiveLoad := (nat2float cognitiveStressors / nat2float (length interactions))%float in
    if isFinite cognitiveLoad then clamp01 cognitiveLoad else 0%float.

Definition calculateHabitStrength (interactions : list VideoInteraction) : float :=
  let dwellTimes := extractDwellTimes interactions in
  if (length dwellTimes <? 3)%nat then 0%float
  else
    let mean := (sumFloats dwellTimes / nat2float (length dwellTimes))%float in
    let variance := variance dwellTimes mean in
    if PrimFloat.eqb mean 0 then 0%float
    else
      let coefficientOfVariation := (Math_sqrt variance / mean)%float in
      let habitStrength := Math_max 0 (1 - coefficientOfVariation)%float in
      if isFinite habitStrength then Math_min 1 habitStrength else 0%float.

Definition calculateNoveltyBias (interactions : list VideoInteraction) : float :=
  let videoInteractions := List.filter isEnter interactions in
  if (length videoInteractions =? 0)%nat then 0%float
  else
    let uniqueVideos := size (list_to_set (map vi_videoId videoInteractions) : gset string) in
    let noveltyBias := (nat2float uniqueVideos / nat2float (length videoInteractions))%float in
    if isFinite noveltyBias then clamp01 noveltyBias else 0%float.

Definition withHealth (h : HealthClassification) (m : ComputedMetrics) : ComputedMetrics :=
  {| cm_dopamineSpikeIndex := cm_dopamineSpikeIndex m;
     cm_attentionSpan := cm_attentionSpan m;
     cm_replaySensitivity := cm_replaySensitivity m;
     cm_sessionLength := cm_sessionLength m;
     cm_fatiguePoints := cm_fatiguePoints m;
     cm_circadianDrift := cm_circadianDrift m;
     cm_healthClassification := h;
     cm_confidence := cm_confidence m;
     cm_timestamp := cm_timestamp m;
     cm_scrollMomentum := cm_scrollMomentum m;
     cm_rewardVariability := cm_rewardVariability m;
     cm_bingeBursts := cm_bingeBursts m;
     cm_engagementHalfLife := cm_engagementHalfLife m;
     cm_cognitiveLoad := cm_cognitiveLoad m;
     cm_habitStrength := cm_habitStrength m;
     cm_noveltyBias := cm_noveltyBias m;
     cm_sessionArchetype := cm_sessionArchetype m |}.

Definition withArchetype (a : SessionArchetype) (m : ComputedMetrics) : ComputedMetrics :=
  {| cm_dopamineSpikeIndex := cm_dopamineSpikeIndex m;
     cm_attentionSpan := cm_attentionSpan m;
     cm_replaySensitivity := cm_replaySensitivity m;
     cm_sessionLength := cm_sessionLength m;
     cm_fatiguePoints := cm_fatiguePoints m;
     cm_circadianDrift := cm_circadianDrift m;
     cm_healthClassification := cm_healthClassification m;
     cm_confidence := cm_confidence m;
     cm_timestamp := cm_timestamp m;
     cm_scrollMomentum := cm_scrollMomentum m;
     cm_rewardVariability := cm_rewardVariability m;
     cm_bingeBursts := cm_bingeBursts m;
     cm_engagementHalfLife := cm_engagementHalfLife m;
     cm_cognitiveLoad := cm_cognitiveLoad m;
     cm_habitStrength := cm_habitStrength m;
     cm_noveltyBias := cm_noveltyBias m;
     cm_sessionArchetype := a |}.

(** The object returned from the [catch] block of [computeMetrics]. *)
Definition safeDefaultMetrics (stamp : float) : ComputedMetrics :=
  {| cm_dopamineSpikeIndex := 0;
     cm_attentionSpan := 0;
     cm_replaySensitivity := 0;
     cm_sessionLength := 0;
     cm_fatiguePoints := [];
     cm_circadianDrift := false;
     cm_healthClassification := unknown;
     cm_confidence := 0;
     cm_timestamp := stamp;
     cm_scrollMomentum := 0;
     cm_rewardVariability := 0;
     cm_bingeBursts := [];
     cm_engagementHalfLife := 0;
     cm_cognitiveLoad := 0;
     cm_habitStrength := 0;
     cm_noveltyBias := 0;
     cm_sessionArchetype := unknown_archetype |}.

(** The statements of the [try] block of [computeMetrics] after its guard,
    on a session of the declared type. *)
Definition computeMetrics_record (clock : Clock) (session : ViewingSession)
  : ComputedMetrics :=
  let interactions := vs_interactions session in
  let sessionLength := calculateSessionLength (clk_length clock) session in
  let fatiguePoints := generateFatiguePoints interactions in
  let dwellTimes := extractDwellTimes interactions in
  let metrics :=
    {| cm_dopamineSpikeIndex := calculateDopamineSpikeIndex interactions;
       cm_attentionSpan := calculateAttentionSpan interactions;
       cm_replaySensitivity := calculateReplaySensitivity interactions;
       cm_sessionLength := sessionLength;
       cm_fatiguePoints := fatiguePoints;
       cm_circadianDrift := detectCircadianDrift (vs_startTime session) sessionLength;
       cm_healthClassification := unknown;
       cm_confidence := 0.8;
       cm_timestamp := clk_stamp clock;
       cm_scrollMomentum := calculateScrollMomentum interactions;
       cm_rewardVariability := calculateRewardVariability dwellTimes;
       cm_bingeBursts := detectBingeBursts interactions;
       cm_engagementHalfLife := calculateEngagementHalfLife fatiguePoints;
       cm_cognitiveLoad := calculateCognitiveLoad interactions;
       cm_habitStrength := calculateHabitStrength interactions;
       cm_noveltyBias := calculateNoveltyBias interactions;
       cm_sessionArchetype := unknown_archetype |} in
  let metrics := withHealth (analyzeSessionHealth metrics) metrics in
  withArchetype (classifySessionArchetype metrics) metrics.

(** [i.action === a] in a callback without a guard (the first filter of
    [generateFatiguePoints]): a TypeError, [None], on a nullish element. *)
Definition actionIs (a : Action) (element : InteractionArg) : option bool :=
  match element with
  | InteractionNullish => None
  | InteractionObject _ _ _ _ action _ => Some (Action_eqb action a)
  end.

(** [i.action === 'leave' && i.metadata.dwellTime], the second filter of
    [generateFatiguePoints]: a TypeError on a nullish element and on a
    [leave] whose [metadata] is missing. *)
Definition leaveWithDwell (element : InteractionArg) : option bool :=
  match element with
  | InteractionNullish => None
  | InteractionObject _ _ _ _ action metadata =>
      if Action_eqb action leave then
        match metadata with
        | Some md => Some (truthy_opt (md_dwellTime md))
        | None => None
        end
      else Some false
  end.

(** [Array.prototype.filter] with a callback that may throw; the first
    exception ends the call. *)
Fixpoint filterOrThrow {A} (test : A -> option bool) (l : list A) : option (list A) :=
  match l with
  | [] => Some []
  | x :: l' =>
      match test x with
      | None => None
      | Some keep =>
          match filterOrThrow test l' with
          | None => None
          | Some kept => Some (if keep then x :: kept else kept)
          end
      end
  end.

Definition absentMetadata : Metadata :=
  {| md_scrollSpeed := None; md_dwellTime := None; md_videoOrder := None;
     md_scrollDirection := None; md_scrollDistance := None |}.

(** An element as the guarded reads of the engine see it: every read of
    [metadata] other than the one of [leaveWithDwell] goes through [?.] or
    follows a filter that found a dwell time, so a missing [metadata] reads
    as one whose fields are [undefined]. *)
Definition typedInteraction (element : InteractionArg) : option VideoInteraction :=
  match element with
  | InteractionNullish => None
  | InteractionObject id videoId sessionId timestamp action metadata =>
      Some {| vi_id := id; vi_videoId := videoId; vi_sessionId := sessionId;
              vi_timestamp := timestamp; vi_action := action;
              vi_metadata := default absentMetadata metadata |}
  end.

Definition typedSession (s : SessionObject) (interactions : list VideoInteraction)
  : ViewingSession :=
  {| vs_id := so_id s;
     vs_startTime := so_startTime s;
     vs_endTime := so_endTime s;
     vs_isActive := so_isActive s;
     vs_videoCount := so_videoCount s;
     vs_totalDwellTime := so_totalDwellTime s;
     vs_interactions := interactions |}.

(** The [try] block of [computeMetrics]; [None] is an exception in it: the
    [throw new Error('Invalid session data')] of the guard, or the TypeError
    of one of the two filters of [generateFatiguePoints], the first function
    to read the elements of the array. *)
Definition computeMetrics_try (clock : Clock) (arg : SessionArg) : option ComputedMetrics :=
  match arg with
  | SessionNullish | SessionNoArray => None
  | SessionRecord session => Some (computeMetrics_record clock session)
  | SessionUntyped s =>
      match filterOrThrow (actionIs enter) (so_interactions s) with
      | None => None
      | Some _ =>
          match filterOrThrow leaveWithDwell (so_interactions s) with
          | None => None
          | Some _ =>
              match mapM typedInteraction (so_interactions s) with
              | None => None
              | Some interactions =>
                  Some (computeMetrics_record clock (typedSession s interactions))
              end
          end
      end
  end.

Definition computeMetrics (clock : Clock) (arg : SessionArg) : ComputedMetrics :=
  match computeMetrics_try clock arg with
  | Some metrics => metrics
  | None => safeDefaultMetrics (clk_stamp clock)
  end.

End MetricsEngine.

(** ** AIClassifier ([ai-classifier.ts]) *)

Record SessionFeatures := {
  sf_sessionLength : float;
  sf_attentionSpan : float;
  sf_dopamineSpikeIndex : float;
  sf_replaySensitivity : float;
  sf_fatigueSlope : float;
  sf_circadianDrift : float;
  sf_videoCount : float;
  sf_timeOfDay : float;
  sf_scrollMomentum : float;
  sf_rewardVariability : float;
  sf_bingeBursts : float;
  sf_engagementHalfLife : float
}.

Record AIClassificationResult := {
  ar_classification : HealthClassification;
  ar_confidence : float;
  ar_features : SessionFeatures;
  ar_modelVersion : string
}.

(** A [tf.LayersModel], seen through the one use the classifier makes of it:
    [predict] on a tensor of feature rows followed by [data()].  [None] is a
    throw or a rejection. *)
Record LayersModel := { predictData : list (list float) -> option (list float) }.

(** How building a model with TensorFlow ends: the model is assigned to
    [this.model] and all goes well, it is assigned and a later step throws,
    or the construction itself throws. *)
Inductive Built :=
  | BuiltOk (m : LayersModel)
  | BuiltThenThrows (m : LayersModel)
  | BuildThrows.

(** What TensorFlow answers during [initialize]. *)
Record TfHost := {
  tf_loadLayersModel : option LayersModel;
  tf_createAndTrain : Built;
  tf_createFallback : Built
}.

(** The static fields of the class. *)
Record AIClassifier := {
  model : option LayersModel;
  isLoading : bool
}.

Definition modelVersion : string := "1.0.0".

Section Classifier.

Variable getHours : float -> float.

Definition extractFeatures (session : ViewingSession) (metrics : ComputedMetrics)
  : SessionFeatures :=
  let fatigueSlope := calculateFatigueSlope (cm_fatiguePoints metrics) in
  {| sf_sessionLength := cm_sessionLength metrics;
     sf_attentionSpan := cm_attentionSpan metrics;
     sf_dopamineSpikeIndex := cm_dopamineSpikeIndex metrics;
     sf_replaySensitivity := nat2float (cm_replaySensitivity metrics);
     sf_fatigueSlope := fatigueSlope;
     sf_circadianDrift := if cm_circadianDrift metrics then 1 else 0;
     sf_videoCount := vs_videoCount session;
     sf_timeOfDay := getHours (vs_startTime session);
     sf_scrollMomentum := num_or_zero (cm_scrollMomentum metrics);
     sf_rewardVariability := num_or_zero (cm_rewardVariability metrics);
     sf_bingeBursts := nat2float (length (cm_bingeBursts metrics));
     sf_engagementHalfLife := nat2float (cm_engagementHalfLife metrics) |}.

Definition normalizeFeatures (features : SessionFeatures) : list float :=
  [ Math_min (sf_sessionLength features / 200) 1;
    Math_min (sf_attentionSpan features / 100) 1;
    Math_min (sf_dopamineSpikeIndex features / 10) 1;
    Math_min (sf_replaySensitivity features / 20) 1;
    Math_max 0 (Math_min ((sf_fatigueSlope features + 2) / 4) 1);
    sf_circadianDrift features;
    Math_min (sf_videoCount features / 400) 1;
    (sf_timeOfDay features / 24)%float;
    Math_min (sf_scrollMomentum features) 1;
    Math_min (sf_rewardVariability features / 40) 1;
    Math_min (sf_bingeBursts features / 10) 1;
    Math_min (sf_engagementHalfLife features / 50) 1 ].

(** [initialize()]: the state it leaves and whether it returns ([true]) or
    throws ([false]); [isLoading] is reset by the [finally] block. *)
Definition createFallbackModel (host : TfHost) (current : option LayersModel)
  : AIClassifier * bool :=
  match tf_createFallback host with
  | BuiltOk m => ({| model := Some m; isLoading := false |}, true)
  | BuiltThenThrows m => ({| model := Some m; isLoading := false |}, false)
  | BuildThrows => ({| model := current; isLoading := false |}, false)
  end.

Definition initialize (host : TfHost) (st : AIClassifier) : AIClassifier * bool :=
  if bool_decide (is_Some (model st)) || isLoading st then (st, true)
  else
    match tf_loadLayersModel host with
    | Some m => ({| model := Some m; isLoading := false |}, true)
    | None =>
        match tf_createAndTrain host with
        | BuiltOk m => ({| model := Some m; isLoading := false |}, true)
        | BuiltThenThrows m => createFallbackModel host (Some m)
        | BuildThrows => createFallbackModel host None
        end
    end.

(** The band of a model output; an index past the end of the prediction data
    reads [undefined], which compares like [NaN]. *)
Definition bandOf (confidence : float) : HealthClassification :=
  if gtb confidence 0.7 then doomscroll
  else if PrimFloat.ltb confidence 0.3 then healthy
  else unknown.

Definition bandConfidence (classification : HealthClassification) (confidence : float) : float :=
  match classification with
  | unknown => 0.5%float
  | _ => (Math_abs (confidence - 0.5) * 2)%float
  end.

Definition fallbackResult (session : ViewingSession) (metrics : ComputedMetrics)
  : AIClassificationResult :=
  {| ar_classification := cm_healthClassification metrics;
     ar_confidence := 0.3;
     ar_features := extractFeatures session metrics;
     ar_modelVersion := "fallback" |}.

(** The [try] block of [classifySession] once initialisation has been
    attempted; [None] is any throw inside it. *)
Definition classifySession_try (st : AIClassifier) (session : ViewingSession)
    (metrics : ComputedMetrics) : option AIClassificationResult :=
  match model st with
  | None => None
  | Some m =>
      let features := extractFeatures session metrics in
      let normalizedFeatures := normalizeFeatures features in
      match predictData m [normalizedFeatures] with
      | None => None
      | Some predictionData =>
          let confidence := nth 0 predictionData nan in
          let classification := bandOf confidence in
          Some {| ar_classification := classification;
                  ar_confidence := bandConfidence classification confidence;
                  ar_features := features;
                  ar_modelVersion := modelVersion |}
      end
  end.

Definition classifySession (host : TfHost) (st : AIClassifier)
    (session : ViewingSession) (metrics : ComputedMetrics)
  : AIClassifier * AIClassificationResult :=
  let '(st1, returned) :=
    if bool_decide (is_Some (model st)) then (st, true) else initialize host st in
  if returned then
    match classifySession_try st1 session metrics with
    | Some result => (st1, result)
    | None => (st1, fallbackResult session metrics)
    end
  else (st1, fallbackResult session metrics).

(** [classifySessions]; the result is [None] when the promise rejects, which
    only the unguarded [initialize()] call can cause. *)
Definition classifySessions (host : TfHost) (st : AIClassifier)
    (sessions : list (ViewingSession * ComputedMetrics))
  : AIClassifier * option (list AIClassificationResult) :=
  let '(st1, returned) :=
    if bool_decide (is_Some (model st)) then (st, true) else initialize host st in
  let fallbacks := map (fun sm => fallbackResult (fst sm) (snd sm)) sessions in
  if returned then
    match model st1 with
    | None => (st1, Some fallbacks)
    | Some m =>
        if (length sessions =? 0)%nat then (st1, Some fallbacks)
        else
          let allFeatures :=
            map (fun sm => normalizeFeatures (extractFeatures (fst sm) (snd sm))) sessions in
          match predictData m allFeatures with
          | None => (st1, Some fallbacks)
          | Some predictionData =>
              (st1,
               Some (imap (fun index sm =>
                             let confidence := nth index predictionData nan in
                             let classification := bandOf confidence in
                             {| ar_classification := classification;
                                ar_confidence := bandConfidence classification confidence;
                                ar_features := extractFeatures (fst sm) (snd sm);
                                ar_modelVersion := modelVersion |})
                          sessions))
          end
    end
  else (st1, None).

End Classifier.

(** ** AIScheduler ([ai-scheduler.ts])

    The scheduler is modelled by its fields and the operations on them.  The
    classifier appears through what it answers to one batch
    ([ClassifierReplies]), so that a classification may fail whatever the
    implementation of the classifier; a callback is taken to return normally
    without calling the scheduler.  [processQueue] is asynchronous: it is
    split at its [await] into [processQueue_begin] and [processQueue_resume],
    between which other calls may run. *)

Inductive Priority := high | normal | low.

Record ScheduledAnalysis := {
  sa_sessionId : string;
  sa_session : ViewingSession;
  sa_metrics : ComputedMetrics;
  sa_priority : Priority;
  sa_timestamp : Z;
  sa_retryCount : nat
}.

Record AnalysisResult := {
  res_sessionId : string;
  res_result : AIClassificationResult;
  res_processingTime : float;
  res_success : bool;
  res_error : option string
}.

(** A registered callback is an opaque function of the caller; it is known
    here by a name, and calling it is recorded in the scheduler's trace. *)
Definition Callback := nat.

(** The fields of the scheduler, the batch a suspended [processQueue] holds
    across its [await] ([inFlight]), and the calls made to callbacks so far
    ([delivered]). *)
Record AIScheduler := {
  analysisQueue : list ScheduledAnalysis;
  isProcessing : bool;
  callbacks : gmap string Callback;
  inFlight : option (list ScheduledAnalysis);
  delivered : list (Callback * AnalysisResult)
}.

Definition maxRetries : nat := 3.
Definition batchSize : nat := 5.

Definition newScheduler : AIScheduler :=
  {| analysisQueue := []; isProcessing := false; callbacks := ∅;
     inFlight := None; delivered := [] |}.

Definition priorityOrder (p : Priority) : Z :=
  match p with high => 0 | normal => 1 | low => 2 end.

(** The comparator of [sortQueue]. *)
Definition compareAnalyses (a b : ScheduledAnalysis) : Z :=
  let priorityDiff := priorityOrder (sa_priority a) - priorityOrder (sa_priority b) in
  if negb (priorityDiff =? 0) then priorityDiff
  else sa_timestamp a - sa_timestamp b.

Definition sortQueue (queue : list ScheduledAnalysis) : list ScheduledAnalysis :=
  js_sort compareAnalyses queue.

Definition otherSession (sessionId : string) (a : ScheduledAnalysis) : bool :=
  negb (String.eqb (sa_sessionId a) sessionId).

Definition scheduleAnalysis (now : Z) (session : ViewingSession) (metrics : ComputedMetrics)
    (priority : Priority) (callback : option Callback) (st : AIScheduler) : AIScheduler :=
  let analysis :=
    {| sa_sessionId := vs_id session; sa_session := session; sa_metrics := metrics;
       sa_priority := priority; sa_timestamp := now; sa_retryCount := 0 |} in
  let queue := List.filter (otherSession (vs_id session)) (analysisQueue st) in
  let queue := queue ++ [analysis] in
  {| analysisQueue := sortQueue queue;
     isProcessing := isProcessing st;
     callbacks :=
       match callback with
       | Some cb => <[vs_id session := cb]> (callbacks st)
       | None => callbacks st
       end;
     inFlight := inFlight st;
     delivered := delivered st |}.

Definition scheduleRealTimeAnalysis (now : Z) (session : ViewingSession)
    (metrics : ComputedMetrics) (callback : option Callback) (st : AIScheduler) : AIScheduler :=
  scheduleAnalysis now session metrics high callback st.

(** [processQueue] up to its [await]: nothing when a batch is in progress or
    the queue is empty, else the first [batchSize] entries are spliced out. *)
Definition processQueue_begin (st : AIScheduler) : AIScheduler :=
  if isProcessing st || (length (analysisQueue st) =? 0)%nat then st
  else
    {| analysisQueue := skipn batchSize (analysisQueue st);
       isProcessing := true;
       callbacks := callbacks st;
       inFlight := Some (firstn batchSize (analysisQueue st));
       delivered := delivered st |}.

(** One element of the array [processBatch] resolves to. *)
Inductive BatchResult :=
  | BatchSuccess (result : AIClassificationResult) (processingTime : float)
  | BatchFailure (error : string).

(** What the classifier answers to one [processBatch]: the batch call
    resolves to classifications (after [totalProcessingTime] ms) or rejects,
    and in the second case each individual call resolves (after a measured
    time) or rejects with a message. *)
Record ClassifierReplies := {
  batchReply : option (list AIClassificationResult * float);
  singleReply : ScheduledAnalysis -> (AIClassificationResult * float) + string
}.

Definition processBatch (replies : ClassifierReplies) (batch : list ScheduledAnalysis)
  : list BatchResult :=
  match batchReply replies with
  | Some (classifications, totalProcessingTime) =>
      let avgProcessingTime := (totalProcessingTime / nat2float (length batch))%float in
      map (fun classification => BatchSuccess classification avgProcessingTime) classifications
  | None =>
      map (fun analysis =>
             match singleReply replies analysis with
             | inl (result, processingTime) => BatchSuccess result processingTime
             | inr message => BatchFailure message
             end)
          batch
  end.

(** [error || 'Max retries exceeded'] *)
Definition errorOrDefault (error : option string) : string :=
  match error with
  | Some e => if String.eqb e "" then "Max retries exceeded" else e
  | None => "Max retries exceeded"
  end.

Section Scheduler.

Variable getHours : float -> float.

Definition failedResult (analysis : ScheduledAnalysis) (error : option string) : AnalysisResult :=
  {| res_sessionId := sa_sessionId analysis;
     res_result :=
       {| ar_classification := unknown;
          ar_confidence := 0;
          ar_features := extractFeatures getHours (sa_session analysis) (sa_metrics analysis);
          ar_modelVersion := "failed" |};
     res_processingTime := 0;
     res_success := false;
     res_error := Some (errorOrDefault error) |}.

(** [handleFailure(analysis, error)], with [now] the reading of [Date.now()]. *)
Definition handleFailure (now : Z) (analysis : ScheduledAnalysis) (error : option string)
    (st : AIScheduler) : AIScheduler :=
  let retryCount := S (sa_retryCount analysis) in
  if (retryCount <=? maxRetries)%nat then
    let analysis' :=
      {| sa_sessionId := sa_sessionId analysis;
         sa_session := sa_session analysis;
         sa_metrics := sa_metrics analysis;
         sa_priority := low;
         sa_timestamp := now + Z.of_nat retryCount * 2000;
         sa_retryCount := retryCount |} in
    {| analysisQueue := sortQueue (analysisQueue st ++ [analysis']);
       isProcessing := isProcessing st;
       callbacks := callbacks st;
       inFlight := inFlight st;
       delivered := delivered st |}
  else
    match callbacks st !! sa_sessionId analysis with
    | Some callback =>
        {| analysisQueue := analysisQueue st;
           isProcessing := isProcessing st;
           callbacks := delete (sa_sessionId analysis) (callbacks st);
           inFlight := inFlight st;
           delivered := delivered st ++ [(callback, failedResult analysis error)] |}
    | None => st
    end.

(** The body of [results.forEach], on the entry [analysis = batch[index]]. *)
Definition handleResult (now : Z) (analysis : ScheduledAnalysis) (result : BatchResult)
    (st : AIScheduler) : AIScheduler :=
  match result with
  | BatchSuccess classification processingTime =>
      match callbacks st !! sa_sessionId analysis with
      | Some callback =>
          {| analysisQueue := analysisQueue st;
             isProcessing := isProcessing st;
             callbacks := delete (sa_sessionId analysis) (callbacks st);
             inFlight := inFlight st;
             delivered :=
               delivered st ++
                 [(callback,
                   {| res_sessionId := sa_sessionId analysis;
                      res_result := classification;
                      res_processingTime := processingTime;
                      res_success := true;
                      res_error := None |})] |}
      | None => st
      end
  | BatchFailure error => handleFailure now analysis (Some error) st
  end.

(** [results.forEach((result, index) => ...)] from [index] on; reading
    [batch[index]] past the end of the batch throws, which ends the loop. *)
Fixpoint handleResults (clock : nat -> Z) (batch : list ScheduledAnalysis)
    (index : nat) (results : list BatchResult) (st : AIScheduler) : AIScheduler :=
  match results with
  | [] => st
  | result :: results' =>
      match batch !! index with
      | Some analysis =>
          handleResults clock batch (S index) results'
            (handleResult (clock index) analysis result st)
      | None => st
      end
  end.

(** [processQueue] from its [await] to its end: the results are handled and
    the [finally] block releases [isProcessing]. *)
Definition processQueue_resume (replies : ClassifierReplies) (clock : nat -> Z)
    (st : AIScheduler) : AIScheduler :=
  match inFlight st with
  | None => st
  | Some batch =>
      let st' := handleResults clock batch 0 (processBatch replies batch) st in
      {| analysisQueue := analysisQueue st';
         isProcessing := false;
         callbacks := callbacks st';
         inFlight := None;
         delivered := delivered st' |}
  end.

Definition clearQueue (st : AIScheduler) : AIScheduler :=
  {| analysisQueue := []; isProcessing := isProcessing st; callbacks := ∅;
     inFlight := inFlight st; delivered := delivered st |}.

Definition clearSessionAnalysis (sessionId : string) (st : AIScheduler) : AIScheduler :=
  {| analysisQueue := List.filter (otherSession sessionId) (analysisQueue st);
     isProcessing := isProcessing st;
     callbacks := delete sessionId (callbacks st);
     inFlight := inFlight st;
     delivered := delivered st |}.

(** The operations that reach a scheduler.  A tick of the timer runs
    [processQueue] up to its [await]; [OpSettle] is the later moment at which
    the classifier has answered and the rest of [processQueue] runs.  Calls
    of the other methods may fall between the two. *)
Inductive Op :=
  | OpSchedule (now : Z) (session : ViewingSession) (metrics : ComputedMetrics)
      (priority : Priority) (callback : option Callback)
  | OpTick
  | OpSettle (replies : ClassifierReplies) (clock : nat -> Z)
  | OpClearSession (sessionId : string)
  | OpClearQueue.

Definition step (st : AIScheduler) (op : Op) : AIScheduler :=
  match op with
  | OpSchedule now session metrics priority callback =>
      scheduleAnalysis now session metrics priority callback st
  | OpTick => processQueue_begin st
  | OpSettle replies clock => processQueue_resume replies clock st
  | OpClearSession sessionId => clearSessionAnalysis sessionId st
  | OpClearQueue => clearQueue st
  end.

Definition run (st : AIScheduler) (ops : list Op) : AIScheduler := fold_left step ops st.

(** A whole [processQueue] whose [await] nothing interleaves with. *)
Definition processQueue (replies : ClassifierReplies) (clock : nat -> Z)
    (st : AIScheduler) : AIScheduler :=
  let st' := processQueue_begin st in
  if isProcessing st then st' else processQueue_resume replies clock st'.

End Scheduler.

(** ** The properties, in the words of the specification *)

(** *** Sessions without interactions *)

(** What the rule table of [analyzeSessionHealth] gives when attention span,
    dopamine spike index and replay count are all 0. *)
Definition emptySessionHealth (sessionLength : float) (circadianDrift : bool)
  : HealthClassification :=
  if PrimFloat.ltb sessionLength 60 || negb circadianDrift then healthy
  else if PrimFloat.ltb 120 sessionLength then doomscroll
  else unknown.

(** *** Malformed input *)

(** The all-zero metrics object, made at time [stamp]: every number 0, every
    list empty, no circadian drift, health classification and archetype
    unknown. *)
Definition allZeroMetrics (stamp : float) : ComputedMetrics :=
  {| cm_dopamineSpikeIndex := 0;
     cm_attentionSpan := 0;
     cm_replaySensitivity := 0;
     cm_sessionLength := 0;
     cm_fatiguePoints := [];
     cm_circadianDrift := false;
     cm_healthClassification := unknown;
     cm_confidence := 0;
     cm_timestamp := stamp;
     cm_scrollMomentum := 0;
     cm_rewardVariability := 0;
     cm_bingeBursts := [];
     cm_engagementHalfLife := 0;
     cm_cognitiveLoad := 0;
     cm_habitStrength := 0;
     cm_noveltyBias := 0;
     cm_sessionArchetype := unknown_archetype |}.

(** An element that is [null] or [undefined], or a [leave] without
    [metadata]. *)
Definition malformedElement (element : InteractionArg) : Prop :=
  match element with
  | InteractionNullish => True
  | InteractionObject _ _ _ _ action metadata => action = leave /\ metadata = None
  end.

(** No session, no array of interactions, or an array that holds a malformed
    element. *)
Definition malformed (arg : SessionArg) : Prop :=
  match arg with
  | SessionNullish | SessionNoArray => True
  | SessionRecord _ => False
  | SessionUntyped s => Exists malformedElement (so_interactions s)
  end.

(** A typed interaction and a typed session, seen as untyped values. *)
Definition asElement (i : VideoInteraction) : InteractionArg :=
  InteractionObject (vi_id i) (vi_videoId i) (vi_sessionId i) (vi_timestamp i)
    (vi_action i) (Some (vi_metadata i)).

Definition asObject (session : ViewingSession) : SessionObject :=
  {| so_id := vs_id session;
     so_startTime := vs_startTime session;
     so_endTime := vs_endTime session;
     so_isActive := vs_isActive session;
     so_videoCount := vs_videoCount session;
     so_totalDwellTime := vs_totalDwellTime session;
     so_interactions := map asElement (vs_interactions session) |}.

(** *** Fatigue points *)

(** The 0-based order in which a video was first entered: the number of
    distinct videos entered before its first [enter]; [None] for a video
    that is never entered. *)
Definition firstEnterOrder (interactions : list VideoInteraction) (video : string)
  : option nat :=
  let entered := map vi_videoId (List.filter isEnter interactions) in
  match list_find (fun v => v = video) entered with
  | Some (k, _) => Some (size (list_to_set (take k entered) : gset string))
  | None => None
  end.

(** The point of one [leave] interaction, when its video was entered. *)
Definition fatiguePointOf (interactions : list VideoInteraction) (i : VideoInteraction)
  : option FatiguePoint :=
  match firstEnterOrder interactions (vi_videoId i) with
  | Some order =>
      Some {| fp_videoOrder := order;
              fp_dwellTime := (dwellOf i / 1000)%float;
              fp_timestamp := vi_timestamp i |}
  | None => None
  end.

Definition ascendingVideoOrder (a b : FatiguePoint) : Prop :=
  (fp_videoOrder a <= fp_videoOrder b)%nat.

(** *** Binge bursts *)

Definition isShort (item : DwellItem) : bool := PrimFloat.ltb (di_dwellTime item) 5.

(** The longest stretch of short dwell times a sequence begins with. *)
Fixpoint shortPrefix (items : list DwellItem) : list DwellItem :=
  match items with
  | [] => []
  | x :: rest => if isShort x then x :: shortPrefix rest else []
  end.

(** The record of a run that begins at position [start]. *)
Definition burstOfRun (start : nat) (run : list DwellItem) : BingeBurst :=
  {| bb_startIndex := Z.of_nat start;
     bb_endIndex := Z.of_nat start + Z.of_nat (length run) - 1;
     bb_length := length run;
     bb_averageDwellTime :=
       (sumFloats (map di_dwellTime run) / nat2float (length run))%float;
     bb_timestamp := hd 0%float (map di_timestamp run) |}.

(** The bursts of a sequence whose first element has position [i] and comes
    after a short dwell time iff [prevShort]: a maximal run begins at every
    short element that does not follow a short one, it extends as far as the
    dwell times stay short, and it is a burst when it has 5 elements or
    more. *)
Fixpoint maximalBursts (prevShort : bool) (i : nat) (items : list DwellItem)
  : list BingeBurst :=
  match items with
  | [] => []
  | x :: rest =>
      (if isShort x && negb prevShort && (5 <=? length (shortPrefix items))%nat
       then [burstOfRun i (shortPrefix items)] else [])
      ++ maximalBursts (isShort x) (S i) rest
  end.

(** Nothing short comes right after: the rest is empty or begins with a dwell
    time that is not short. *)
Definition endsRun (post : list DwellItem) : Prop :=
  post = [] \/ exists y post', post = y :: post' /\ isShort y = false.

(** Nothing short comes right before, [prevShort] telling whether a short
    dwell time precedes the whole sequence. *)
Definition beginsRun (prevShort : bool) (pre : list DwellItem) : Prop :=
  (pre = [] /\ prevShort = false) \/
  exists pre' y, pre = pre' ++ [y] /\ isShort y = false.

(** [run], found at position [start] of [items], is a maximal run of short
    dwell times: every dwell time in it is short, and no short dwell time
    comes right before or right after it. *)
Definition isMaximalRun (items : list DwellItem) (start : nat) (run : list DwellItem)
  : Prop :=
  exists pre post,
    items = pre ++ run ++ post /\
    length pre = start /\
    Forall (fun x => isShort x = true) run /\
    beginsRun false pre /\
    endsRun post.

(** *** Engagement half-life *)

(** The mean of a window of three dwell times. *)
Definition mean3 (window : list float) : float := (sumFloats window / 3)%float.

(** The 3-point moving average of dwell time that ends at index [i]. *)
Definition movingAverage3 (points : list FatiguePoint) (i : nat) : float :=
  mean3 (map fp_dwellTime (take 3 (drop (i - 2) points))).

(** At the point of index [i], the fourth or a later one, the moving average
    is at most half the mean of the first three dwell times. *)
Definition halvedAt (points : list FatiguePoint) (i : nat) : Prop :=
  (3 <= i)%nat /\
  PrimFloat.leb (movingAverage3 points i)
                (mean3 (map fp_dwellTime (take 3 points)) / 2) = true.

(** [halfLife] is the engagement half-life of points that are in the order
    of their videos: 0 below 3 points; else the [videoOrder] field of the
    first point at which the average has halved, and that of the last point
    when there is none. *)
Definition halfLifeOf (points : list FatiguePoint) (halfLife : nat) : Prop :=
  if (length points <? 3)%nat then halfLife = 0%nat
  else
    (exists i point,
       points !! i = Some point /\
       halvedAt points i /\
       (forall j, (j < i)%nat -> ~ halvedAt points j) /\
       halfLife = fp_videoOrder point) \/
    ((forall j, (j < length points)%nat -> ~ halvedAt points j) /\
     exists point, last points = Some point /\ halfLife = fp_videoOrder point).

(** The points are in the order of their videos. *)
Definition byAscendingVideoOrder (points : list FatiguePoint) : Prop :=
  Sorted ascendingVideoOrder points.

(** *** Classifier *)

(** The model on which [classifySession] and [classifySessions] predict: the
    loaded one, or the one a call of [initialize] that returns leaves. *)
Definition modelInUse (host : TfHost) (st : AIClassifier) : option LayersModel :=
  if bool_decide (is_Some (model st)) then model st
  else
    let '(st1, returned) := initialize host st in
    if returned then model st1 else None.

(** The bands of a model output [p], as the specification lists them. *)
Definition inBand (p : float) (classification : HealthClassification) (confidence : float)
  : Prop :=
  let scaled := (PrimFloat.abs (p - 0.5) * 2)%float in
  (PrimFloat.ltb 0.7 p = true -> classification = doomscroll /\ confidence = scaled) /\
  (PrimFloat.ltb p 0.3 = true -> classification = healthy /\ confidence = scaled) /\
  (PrimFloat.ltb 0.7 p = false -> PrimFloat.ltb p 0.3 = false ->
   classification = unknown /\ confidence = 0.5%float).

(** *** Scheduler *)

Definition sessionIds (queue : list ScheduledAnalysis) : list string :=
  map sa_sessionId queue.

Definition inFlightIds (st : AIScheduler) : list string :=
  match inFlight st with Some batch => sessionIds batch | None => [] end.

(** The entry that [scheduleAnalysis] enqueues. *)
Definition newEntry (now : Z) (session : ViewingSession) (metrics : ComputedMetrics)
    (priority : Priority) : ScheduledAnalysis :=
  {| sa_sessionId := vs_id session; sa_session := session; sa_metrics := metrics;
     sa_priority := priority; sa_timestamp := now; sa_retryCount := 0 |}.

(** High before normal before low, then older first. *)
Definition queueOrder (a b : ScheduledAnalysis) : Prop :=
  priorityOrder (sa_priority a) < priorityOrder (sa_priority b) \/
  (priorityOrder (sa_priority a) = priorityOrder (sa_priority b) /\
   sa_timestamp a <= sa_timestamp b).

(** An operation that does not schedule a session whose entry is in the
    batch being classified. *)
Definition quiet (st : AIScheduler) (op : Op) : Prop :=
  match op with
  | OpSchedule _ session _ _ _ => vs_id session ∉ inFlightIds st
  | _ => True
  end.

Fixpoint quietRun (getHours : float -> float) (st : AIScheduler) (ops : list Op) : Prop :=
  match ops with
  | [] => True
  | op :: ops' => quiet st op /\ quietRun getHours (step getHours st op) ops'
  end.

(** The calls made to a scheduler when every [processQueue] runs to its end
    before the next call. *)
Inductive Call :=
  | CallSchedule (now : Z) (session : ViewingSession) (metrics : ComputedMetrics)
      (priority : Priority) (callback : option Callback)
  | CallProcessQueue (replies : ClassifierReplies) (clock : nat -> Z)
  | CallClearSession (sessionId : string)
  | CallClearQueue.

Definition callOps (call : Call) : list Op :=
  match call with
  | CallSchedule now session metrics priority callback =>
      [OpSchedule now session metrics priority callback]
  | CallProcessQueue replies clock => [OpTick; OpSettle replies clock]
  | CallClearSession sessionId => [OpClearSession sessionId]
  | CallClearQueue => [OpClearQueue]
  end.


(** Every classification of the batch fails. *)
Definition allFail (message : string) : ClassifierReplies :=
  {| batchReply := None; singleReply := fun _ => inr message |}.

(** A timer tick and the end of the [processQueue] it starts, every
    classification of the batch failing with [message]. *)
Definition failingTick (message : string) (clock : nat -> Z) : list Op :=
  [OpTick; OpSettle (allFail message) clock].

(** *** Auxiliary notions of the proofs *)

(** The table of video orders, over the bare list of entered video ids. *)
Definition trackIds (videos : list string) : gmap string nat * nat :=
  fold_left
    (fun (acc : gmap string nat * nat) video =>
       let '(videoSequence, videoOrder) := acc in
       match videoSequence !! video with
       | Some _ => acc
       | None => (<[video := videoOrder]> videoSequence, S videoOrder)
       end)
    videos (∅, 0%nat).

(** The order of a video among the entered video ids. *)
Definition orderIn (videos : list string) (video : string) : option nat :=
  match list_find (fun v => v = video) videos with
  | Some (k, _) => Some (size (list_to_set (take k videos) : gset string))
  | None => None
  end.

(** The entries of the queue and of the batch being classified belong to
    different sessions, one each. *)
Definition oneEntryPerSession (st : AIScheduler) : Prop :=
  NoDup (sessionIds (analysisQueue st) ++ inFlightIds st).

(** ** A concrete host: UTC clock, [Math.pow(x, 2)] computed as [x * x] *)

(** The integer part of a finite number. *)
Definition truncZ (x : float) : option Z :=
  match Prim2SF x with
  | S754_zero _ => Some 0
  | S754_finite neg m e =>
      let a := if 0 <=? e then Z.pos m * 2 ^ e else Z.pos m / 2 ^ (- e) in
      Some (if neg then - a else a)
  | S754_infinity _ | S754_nan => None
  end.

(** [new Date(t).getHours()] on a host whose local time zone is UTC. *)
Definition utcHours (t : float) : float :=
  match truncZ t with
  | Some tv =>
      if Z.abs tv <=? 8640000000000000
      then nat2float (Z.to_nat ((tv / 3600000) mod 24))
      else nan
  | None => nan
  end.

(** A [Math.pow] that is exact on the one exponent the engine uses. *)
Definition pow_square (x y : float) : float := (x * x)%float.

(** Builders for interactions, as the test suites write them. *)
Definition noMetadata : Metadata :=
  {| md_scrollSpeed := None; md_dwellTime := None; md_videoOrder := None;
     md_scrollDirection := None; md_scrollDistance := None |}.

Definition dwellMetadata (d : float) : Metadata :=
  {| md_scrollSpeed := None; md_dwellTime := Some d; md_videoOrder := None;
     md_scrollDirection := None; md_scrollDistance := None |}.

Definition mockInteraction (a : Action) (video : string) (ts : float) (md : Metadata)
  : VideoInteraction :=
  {| vi_id := "interaction"; vi_videoId := video; vi_sessionId := "test-session";
     vi_timestamp := ts; vi_action := a; vi_metadata := md |}.

Definition mockSession (startTime endTime : float) (interactions : list VideoInteraction)
  : ViewingSession :=
  {| vs_id := "test-session"; vs_startTime := startTime; vs_endTime := Some endTime;
     vs_isActive := false; vs_videoCount := 0; vs_totalDwellTime := 0;
     vs_interactions := interactions |}.


(** A session in which the videos are watched one after the other, each for
    the given dwell time (ms), as the test suites build them. *)
Fixpoint viewAll (t : float) (views : list (string * float)) : list VideoInteraction :=
  match views with
  | [] => []
  | (video, dwell) :: views' =>
      mockInteraction enter video t noMetadata
      :: mockInteraction leave video (t + dwell) (dwellMetadata dwell)
      :: viewAll (t + dwell + 500) views'
  end.

Definition afternoon : float := 50400000.

Definition watched (views : list (string * float)) : SessionArg :=
  SessionRecord (mockSession afternoon (afternoon + 600000) (viewAll afternoon views)).

Definition sampleClock : Clock := {| clk_length := 51000000; clk_stamp := 51000000 |}.

Definition decreasingViews : list (string * float) :=
  [("video1", 20000); ("video2", 16000); ("video3", 12000);
   ("video4", 8000); ("video5", 4000); ("video6", 2000)]%float.

Definition flatViews : list (string * float) :=
  [("video1", 10000); ("video2", 10000); ("video3", 10000); ("video4", 10000)]%float.

(** A model that answers the same probability for every row, one whose
    prediction throws, and a host on which no model can be loaded or built. *)
Definition constantModel (p : float) : LayersModel :=
  {| predictData := fun rows => Some (map (fun _ => p) rows) |}.

Definition throwingModel : LayersModel := {| predictData := fun _ => None |}.

Definition brokenHost : TfHost :=
  {| tf_loadLayersModel := None; tf_createAndTrain := BuildThrows;
     tf_createFallback := BuildThrows |}.

Definition sampleSession : ViewingSession :=
  mockSession afternoon (afternoon + 600000) (viewAll afternoon decreasingViews).

Definition sampleMetrics : ComputedMetrics :=
  computeMetrics utcHours pow_square sampleClock (SessionRecord sampleSession).

Definition sessionNamed (name : string) : ViewingSession :=
  {| vs_id := name; vs_startTime := afternoon; vs_endTime := Some (afternoon + 600000)%float;
     vs_isActive := false; vs_videoCount := 4; vs_totalDwellTime := 40000;
     vs_interactions := viewAll afternoon flatViews |}.

Definition metricsOf (session : ViewingSession) : ComputedMetrics :=
  computeMetrics utcHours pow_square sampleClock (SessionRecord session).

Definition emptySession : ViewingSession := mockSession afternoon (afternoon + 60000) [].

(** Six videos watched for 20, 16, 12, 8, 4 and 2 s, each after a video that
    is entered and left without a dwell time: the watched videos have the
    orders 0, 2, 4, 6, 8 and 10. *)
Fixpoint viewEverySecond (t : float) (views : list (string * string * float))
  : list VideoInteraction :=
  match views with
  | [] => []
  | (video, skipped, dwell) :: views' =>
      mockInteraction enter video t noMetadata
      :: mockInteraction leave video (t + dwell) (dwellMetadata dwell)
      :: mockInteraction enter skipped (t + dwell + 100) noMetadata
      :: mockInteraction leave skipped (t + dwell + 200) noMetadata
      :: viewEverySecond (t + dwell + 500) views'
  end.

Definition gapViews : list (string * string * float) :=
  [("video1", "skipped1", 20000); ("video2", "skipped2", 16000);
   ("video3", "skipped3", 12000); ("video4", "skipped4", 8000);
   ("video5", "skipped5", 4000); ("video6", "skipped6", 2000)]%float.

Definition gapSession : ViewingSession :=
  mockSession afternoon (afternoon + 600000) (viewEverySecond afternoon gapViews).

(** A session object whose array holds a [null] after an interaction, and
    one whose [leave] has no metadata. *)
Definition sessionWithNull : SessionObject :=
  {| so_id := "test-session"; so_startTime := afternoon;
     so_endTime := Some (afternoon + 60000)%float; so_isActive := false;
     so_videoCount := 0; so_totalDwellTime := 0;
     so_interactions :=
       [ InteractionObject "interaction" "video1" "test-session" afternoon enter
           (Some noMetadata);
         InteractionNullish ] |}.

Definition sessionWithBareLeave : SessionObject :=
  {| so_id := "test-session"; so_startTime := afternoon;
     so_endTime := Some (afternoon + 60000)%float; so_isActive := false;
     so_videoCount := 0; so_totalDwellTime := 0;
     so_interactions :=
       [ InteractionObject "interaction" "video1" "test-session" afternoon enter
           (Some noMetadata);
         InteractionObject "interaction" "video1" "test-session" (afternoon + 5000)
           leave None ] |}.

(** A session record whose times and dwell time are not finite numbers. *)
Definition nonFiniteSession : ViewingSession :=
  mockSession nan infinity
    [ mockInteraction enter "video1" afternoon noMetadata;
      mockInteraction leave "video1" infinity (dwellMetadata infinity) ].

(** A synthetic session: one long view, five skips of 2 s, one long view. *)
Definition burstSample : list VideoInteraction :=
  [ mockInteraction enter "video0" 1000 noMetadata;
    mockInteraction leave "video0" 11000 (dwellMetadata 10000);
    mockInteraction enter "video1" 11500 noMetadata;
    mockInteraction leave "video1" 13500 (dwellMetadata 2000);
    mockInteraction enter "video2" 14000 noMetadata;
    mockInteraction leave "video2" 16000 (dwellMetadata 2000);
    mockInteraction enter "video3" 16500 noMetadata;
    mockInteraction leave "video3" 18500 (dwellMetadata 2000);
    mockInteraction enter "video4" 19000 noMetadata;
    mockInteraction leave "video4" 21000 (dwellMetadata 2000);
    mockInteraction enter "video5" 21500 noMetadata;
    mockInteraction leave "video5" 23500 (dwellMetadata 2000);
    mockInteraction enter "video6" 24000 noMetadata;
    mockInteraction leave "video6" 32000 (dwellMetadata 8000) ].

(** ** Further functions: real-time metrics, queue status, session statistics *)

(** *** Ranges and indicators of the metrics *)

(** A value in the closed unit interval. *)
Definition inUnit (x : float) : Prop :=
  PrimFloat.leb 0 x = true /\ PrimFloat.leb x 1 = true.

(** The number of healthy indicators that [analyzeSessionHealth] counts. *)
Definition healthyIndicators (metrics : ComputedMetrics) : nat :=
  countTrue
    [ gtb (cm_attentionSpan metrics) 10 && PrimFloat.ltb (cm_attentionSpan metrics) 120;
      PrimFloat.ltb (cm_dopamineSpikeIndex metrics) 2;
      (cm_replaySensitivity metrics <? 5)%nat;
      PrimFloat.ltb (cm_sessionLength metrics) 60;
      negb (cm_circadianDrift metrics) ].

(** The number of doomscroll indicators that it counts. *)
Definition doomscrollIndicators (metrics : ComputedMetrics) : nat :=
  countTrue
    [ PrimFloat.ltb (cm_attentionSpan metrics) 5;
      gtb (cm_dopamineSpikeIndex metrics) 5;
      (10 <? cm_replaySensitivity metrics)%nat;
      gtb (cm_sessionLength metrics) 120;
      cm_circadianDrift metrics ].

(** *** [updateRealTimeMetrics] *)

(** What a caller can hand to [updateRealTimeMetrics]: as for
    [computeMetrics], with the two fields that the function reads itself; a
    missing [startTime] behaves as [NaN] in the subtraction it is used in. *)
Inductive RealTimeArg :=
  | RealTimeNullish
  | RealTimeNoArray (isActive : bool) (startTime : float)
  | RealTimeRecord (s : ViewingSession).

Definition withRealTime (sessionLength confidence : float) (m : ComputedMetrics)
  : ComputedMetrics :=
  {| cm_dopamineSpikeIndex := cm_dopamineSpikeIndex m;
     cm_attentionSpan := cm_attentionSpan m;
     cm_replaySensitivity := cm_replaySensitivity m;
     cm_sessionLength := sessionLength;
     cm_fatiguePoints := cm_fatiguePoints m;
     cm_circadianDrift := cm_circadianDrift m;
     cm_healthClassification := cm_healthClassification m;
     cm_confidence := confidence;
     cm_timestamp := cm_timestamp m;
     cm_scrollMomentum := cm_scrollMomentum m;
     cm_rewardVariability := cm_rewardVariability m;
     cm_bingeBursts := cm_bingeBursts m;
     cm_engagementHalfLife := cm_engagementHalfLife m;
     cm_cognitiveLoad := cm_cognitiveLoad m;
     cm_habitStrength := cm_habitStrength m;
     cm_noveltyBias := cm_noveltyBias m;
     cm_sessionArchetype := cm_sessionArchetype m |}.

(** The statements of [updateRealTimeMetrics] after its call of
    [computeMetrics]; [now] is the reading of [Date.now()] they take. *)
Definition adjustRealTime (now : float) (isActive : bool) (startTime : float)
    (metrics : ComputedMetrics) : ComputedMetrics :=
  let metrics :=
    if isActive
    then withRealTime ((now - startTime) / 60000)
                      (Math_max 0.3 (cm_confidence metrics - 0.2)) metrics
    else metrics in
  let metrics := withHealth (analyzeSessionHealth metrics) metrics in
  withArchetype (classifySessionArchetype metrics) metrics.

(** [updateRealTimeMetrics]; [None] is the [TypeError] of reading
    [session.isActive] on [null] or [undefined], which nothing catches. *)
Definition updateRealTimeMetrics (getHours : float -> float)
    (Math_pow : float -> float -> float) (clock : Clock) (now : float)
    (arg : RealTimeArg) : option ComputedMetrics :=
  match arg with
  | RealTimeNullish => None
  | RealTimeNoArray isActive startTime =>
      Some (adjustRealTime now isActive startTime
              (computeMetrics getHours Math_pow clock SessionNoArray))
  | RealTimeRecord session =>
      Some (adjustRealTime now (vs_isActive session) (vs_startTime session)
              (computeMetrics getHours Math_pow clock (SessionRecord session)))
  end.

(** *** [getQueueStatus] *)

(** The accumulator of the [reduce] in [getQueueStatus]. *)
Record PriorityCounts := {
  count_high : nat;
  count_normal : nat;
  count_low : nat
}.

Record QueueStatus := {
  qs_queueLength : nat;
  qs_isProcessing : bool;
  qs_highPriorityCount : nat;
  qs_normalPriorityCount : nat;
  qs_lowPriorityCount : nat
}.

(** [acc[analysis.priority]++] *)
Definition countPriority (acc : PriorityCounts) (analysis : ScheduledAnalysis)
  : PriorityCounts :=
  match sa_priority analysis with
  | high =>
      {| count_high := S (count_high acc); count_normal := count_normal acc;
         count_low := count_low acc |}
  | normal =>
      {| count_high := count_high acc; count_normal := S (count_normal acc);
         count_low := count_low acc |}
  | low =>
      {| count_high := count_high acc; count_normal := count_normal acc;
         count_low := S (count_low acc) |}
  end.

Definition getQueueStatus (st : AIScheduler) : QueueStatus :=
  let counts :=
    fold_left countPriority (analysisQueue st)
      {| count_high := 0; count_normal := 0; count_low := 0 |} in
  {| qs_queueLength := length (analysisQueue st);
     qs_isProcessing := isProcessing st;
     qs_highPriorityCount := count_high counts;
     qs_normalPriorityCount := count_normal counts;
     qs_lowPriorityCount := count_low counts |}.

(** An entry of priority [p]. *)
Definition hasPriority (p : Priority) (a : ScheduledAnalysis) : bool :=
  priorityOrder (sa_priority a) =? priorityOrder p.

(** *** Retries, batches and callbacks over a run *)

(** The entries a scheduler holds: those of the queue and those of the batch
    being classified. *)
Definition heldEntries (st : AIScheduler) : list ScheduledAnalysis :=
  analysisQueue st ++ match inFlight st with Some batch => batch | None => [] end.

(** An entry within the retry bound; one that has failed before is of low
    priority. *)
Definition withinRetries (a : ScheduledAnalysis) : Prop :=
  (sa_retryCount a <= maxRetries)%nat /\
  ((0 < sa_retryCount a)%nat -> sa_priority a = low).

(** A batch is being classified exactly while [isProcessing] is set, and it
    has between one and [batchSize] entries. *)
Definition batchInProgress (st : AIScheduler) : Prop :=
  match inFlight st with
  | Some batch =>
      isProcessing st = true /\ (1 <= length batch <= batchSize)%nat
  | None => isProcessing st = false
  end.

(** An operation that registers a callback for the session [sessionId]. *)
Definition registers (sessionId : string) (op : Op) : bool :=
  match op with
  | OpSchedule _ session _ _ (Some _) => String.eqb (vs_id session) sessionId
  | _ => false
  end.

(** The number of callbacks registered for [sessionId] by [ops]. *)
Definition registrations (sessionId : string) (ops : list Op) : nat :=
  length (List.filter (registers sessionId) ops).

Definition deliveredTo (sessionId : string) (d : Callback * AnalysisResult) : bool :=
  String.eqb (res_sessionId (snd d)) sessionId.

(** The number of results for [sessionId] handed to callbacks so far. *)
Definition deliveries (sessionId : string) (st : AIScheduler) : nat :=
  length (List.filter (deliveredTo sessionId) (delivered st)).

(** 1 when a callback is registered for [sessionId], else 0. *)
Definition pendingCallbacks (sessionId : string) (st : AIScheduler) : nat :=
  match callbacks st !! sessionId with Some _ => 1%nat | None => 0%nat end.

(** The call a successful classification makes to the callback registered
    for its entry, if there is one. *)
Definition successDelivery (cbs : gmap string Callback) (processingTime : float)
    (ac : ScheduledAnalysis * AIClassificationResult)
  : option (Callback * AnalysisResult) :=
  match cbs !! sa_sessionId (fst ac) with
  | Some callback =>
      Some (callback,
            {| res_sessionId := sa_sessionId (fst ac);
               res_result := snd ac;
               res_processingTime := processingTime;
               res_success := true;
               res_error := None |})
  | None => None
  end.

(** *** Session statistics of the background worker ([background.ts]) *)

(** The session [handleSessionStart] creates. *)
Definition startedSession (sessionId : string) (timestamp : float) : ViewingSession :=
  {| vs_id := sessionId;
     vs_startTime := timestamp;
     vs_endTime := None;
     vs_isActive := true;
     vs_videoCount := 0;
     vs_totalDwellTime := 0;
     vs_interactions := [] |}.

Definition updateSessionStats (session : ViewingSession) (interaction : VideoInteraction)
  : ViewingSession :=
  match vi_action interaction with
  | enter =>
      let uniqueVideos : gset string :=
        list_to_set (map vi_videoId (List.filter isEnter (vs_interactions session))) in
      {| vs_id := vs_id session;
         vs_startTime := vs_startTime session;
         vs_endTime := vs_endTime session;
         vs_isActive := vs_isActive session;
         vs_videoCount := nat2float (size uniqueVideos);
         vs_totalDwellTime := vs_totalDwellTime session;
         vs_interactions := vs_interactions session |}
  | leave =>
      if truthy_opt (md_dwellTime (vi_metadata interaction)) then
        {| vs_id := vs_id session;
           vs_startTime := vs_startTime session;
           vs_endTime := vs_endTime session;
           vs_isActive := vs_isActive session;
           vs_videoCount := vs_videoCount session;
           vs_totalDwellTime := (vs_totalDwellTime session + dwellOf interaction)%float;
           vs_interactions := vs_interactions session |}
      else session
  | _ => session
  end.

(** The two statements of [handleInteraction] that record an interaction:
    [session.interactions.push(interaction)] and
    [updateSessionStats(session, interaction)]. *)
Definition recordInteraction (session : ViewingSession) (interaction : VideoInteraction)
  : ViewingSession :=
  updateSessionStats
    {| vs_id := vs_id session;
       vs_startTime := vs_startTime session;
       vs_endTime := vs_endTime session;
       vs_isActive := vs_isActive session;
       vs_videoCount := vs_videoCount session;
       vs_totalDwellTime := vs_totalDwellTime session;
       vs_interactions := vs_interactions session ++ [interaction] |}
    interaction.

(** The sum, in milliseconds and in the order of arrival, of the dwell times
    the metrics engine reads from a session. *)
Definition totalDwell (interactions : list VideoInteraction) : float :=
  fold_left (fun total i => (total + dwellOf i)%float)
    (List.filter isLeaveWithDwell interactions) 0%float.

(** *** Further concrete values *)

(** A session that is still going on. *)
Definition activeSession : ViewingSession :=
  {| vs_id := "live"; vs_startTime := afternoon; vs_endTime := None;
     vs_isActive := true; vs_videoCount := 4; vs_totalDwellTime := 40000;
     vs_interactions := viewAll afternoon flatViews |}.

(** A session of skipped videos. *)
Definition skimmingSession : ViewingSession :=
  mockSession afternoon (afternoon + 600000) burstSample.

Definition entryNamed (name : string) (now : Z) : ScheduledAnalysis :=
  newEntry now (sessionNamed name) (metricsOf (sessionNamed name)) normal.

(** A scheduler that is classifying the entries of the sessions "a" and "b",
    with a callback registered for each. *)
Definition busyScheduler : AIScheduler :=
  {| analysisQueue := [];
     isProcessing := true;
     callbacks := <["a" := 1%nat]> (<["b" := 2%nat]> ∅);
     inFlight := Some [entryNamed "a" 1000; entryNamed "b" 1500];
     delivered := [] |}.

(** The classifier answers the whole batch at once. *)
Definition batchAnswered (results : list AIClassificationResult) (time : float)
  : ClassifierReplies :=
  {| batchReply := Some (results, time); singleReply := fun _ => inr "unused" |}.

Definition doomscrollResult (session : ViewingSession) : AIClassificationResult :=
  {| ar_classification := doomscroll;
     ar_confidence := 0.8;
     ar_features := extractFeatures utcHours session (metricsOf session);
     ar_modelVersion := modelVersion |}.

(** * Proofs *)

#[local] Arguments Nat.leb : simpl never.
#[local] Arguments Nat.ltb : simpl never.

(** ** Sorting *)

Section Sorting.
Context {A : Type} (cmp : A -> A -> Z).

Lemma sort_insert_perm x l : sort_insert cmp x l ≡ₚ x :: l.
Proof.
  induction l as [|y l IH]; simpl; [done|].
  destruct (0 <? cmp x y); [|done].
  rewrite IH. apply Permutation_swap.
Qed.

Lemma js_sort_perm l : js_sort cmp l ≡ₚ l.
Proof.
  induction l as [|x l IH]; simpl; [done|].
  rewrite sort_insert_perm. by rewrite IH.
Qed.

Lemma js_sort_length l : length (js_sort cmp l) = length l.
Proof. by rewrite js_sort_perm. Qed.

(** A comparator that never puts two elements strictly above each other. *)
Hypothesis cmp_asym : forall a b, 0 < cmp a b -> cmp b a <= 0.

Lemma sort_insert_sorted x l :
  Sorted (fun a b => cmp a b <= 0) l ->
  Sorted (fun a b => cmp a b <= 0) (sort_insert cmp x l).
Proof.
  induction l as [|y l IH]; intros Hs; simpl.
  - repeat constructor.
  - destruct (Z.ltb_spec 0 (cmp x y)) as [Hlt|Hge].
    + apply Sorted_inv in Hs as [Hs Hhd].
      constructor; [by apply IH|].
      destruct l as [|z l]; simpl.
      * constructor. by apply cmp_asym.
      * destruct (0 <? cmp x z); constructor.
        -- by inversion Hhd.
        -- by apply cmp_asym.
    + constructor; [done|]. constructor. lia.
Qed.

Lemma js_sort_sorted l : Sorted (fun a b => cmp a b <= 0) (js_sort cmp l).
Proof.
  induction l as [|x l IH]; simpl; [constructor|]. by apply sort_insert_sorted.
Qed.

End Sorting.

(** ** Metrics engine: sessions without [leave], fatigue points *)

Lemma no_leave_no_dwell interactions :
  Forall (fun i => vi_action i <> leave) interactions ->
  List.filter isLeaveWithDwell interactions = [].
Proof.
  induction 1 as [|i l Hi _ IH]; simpl; [done|].
  unfold isLeaveWithDwell at 1. destruct (vi_action i); simpl; congruence.
Qed.

Lemma trackVideoOrder_ids interactions :
  trackVideoOrder interactions
  = trackIds (map vi_videoId (List.filter isEnter interactions)).
Proof.
  unfold trackVideoOrder, trackIds.
  generalize (∅ : gmap string nat, 0%nat).
  induction (List.filter isEnter interactions) as [|i l IH]; intros acc; simpl; [done|].
  rewrite IH. by destruct acc.
Qed.

Lemma orderIn_snoc videos x video :
  orderIn (videos ++ [x]) video =
    match orderIn videos video with
    | Some n => Some n
    | None =>
        if decide (x = video)
        then Some (size (list_to_set videos : gset string)) else None
    end.
Proof.
  unfold orderIn.
  destruct (list_find (λ v, v = video) videos) as [[k v]|] eqn:Hfind.
  - rewrite (list_find_app_l _ _ _ _ _ Hfind).
    apply list_find_Some in Hfind as (Hk & _ & _).
    apply lookup_lt_Some in Hk. by rewrite take_app_le by lia.
  - rewrite list_find_app_r by done. simpl.
    case_decide as Hx; simpl; [|done].
    by rewrite ?Nat.add_0_l, take_app_length.
Qed.

Lemma orderIn_None videos video : orderIn videos video = None <-> video ∉ videos.
Proof.
  unfold orderIn. destruct (list_find _ videos) as [[k v]|] eqn:Hfind.
  - apply list_find_Some in Hfind as (Hk & -> & _).
    split; [done|]. intros []. by eapply list_elem_of_lookup_2.
  - split; [|done]. intros _ Hin.
    rewrite list_find_None, Forall_forall in Hfind. by eapply Hfind.
Qed.

Lemma trackIds_spec videos :
  snd (trackIds videos) = size (list_to_set videos : gset string) /\
  forall video, fst (trackIds videos) !! video = orderIn videos video.
Proof.
  induction videos as [|x videos [IHn IHm]] using rev_ind.
  - split; [done|]. intros video. unfold trackIds; simpl. by rewrite lookup_empty.
  - unfold trackIds in *. rewrite fold_left_app. simpl.
    destruct (fold_left _ videos _) as [m n]; simpl in *.
    destruct (m !! x) as [k|] eqn:Hmx; simpl.
    + assert (x ∈ videos) as Hin.
      { destruct (decide (x ∈ videos)) as [|Hn]; [done|].
        apply orderIn_None in Hn. rewrite <- IHm in Hn. congruence. }
      split.
      * rewrite list_to_set_snoc_L, IHn. f_equal.
        apply leibniz_equiv. intros y. rewrite elem_of_union, elem_of_singleton.
        rewrite !elem_of_list_to_set. split; [by left|]. by intros [?| ->].
      * intros video. rewrite orderIn_snoc, <- IHm.
        destruct (m !! video) eqn:Hv; [done|]. case_decide; [congruence|done].
    + assert (x ∉ videos) as Hnin.
      { apply orderIn_None. by rewrite <- IHm. }
      split.
      * rewrite list_to_set_snoc_L, size_union, size_singleton by set_solver. lia.
      * intros video. rewrite orderIn_snoc, <- IHm.
        destruct (decide (x = video)) as [->|Hne].
        -- by rewrite lookup_insert_eq, Hmx, IHn.
        -- rewrite lookup_insert_ne by done. by destruct (m !! video).
Qed.

Lemma trackVideoOrder_lookup interactions video :
  fst (trackVideoOrder interactions) !! video = firstEnterOrder interactions video.
Proof. rewrite trackVideoOrder_ids. apply trackIds_spec. Qed.

Lemma pushFatiguePoints_omap videoSequence l acc :
  fold_left (pushFatiguePoint videoSequence) l acc
  = acc ++ omap (fun i =>
                   match videoSequence !! vi_videoId i with
                   | Some order =>
                       Some {| fp_videoOrder := order;
                               fp_dwellTime := (dwellOf i / 1000)%float;
                               fp_timestamp := vi_timestamp i |}
                   | None => None
                   end) l.
Proof.
  revert acc. induction l as [|i l IH]; intros acc; simpl.
  - by rewrite app_nil_r.
  - rewrite IH. unfold pushFatiguePoint.
    destruct (videoSequence !! vi_videoId i); simpl; [|done].
    by rewrite <- app_assoc.
Qed.

Lemma generateFatiguePoints_sorted_omap interactions :
  generateFatiguePoints interactions
  = js_sort byVideoOrder
      (omap (fatiguePointOf interactions) (List.filter isLeaveWithDwell interactions)).
Proof.
  unfold generateFatiguePoints. rewrite pushFatiguePoints_omap. simpl. f_equal.
  induction (List.filter isLeaveWithDwell interactions) as [|i l IH]; [done|].
  cbn [omap list_omap]. unfold fatiguePointOf at 1. rewrite trackVideoOrder_lookup, IH.
  done.
Qed.

Lemma Sorted_weaken {A} (R1 R2 : A -> A -> Prop) l :
  (forall a b, R1 a b -> R2 a b) -> Sorted R1 l -> Sorted R2 l.
Proof.
  intros HR. induction 1 as [|x l _ IH Hhd]; constructor; [done|].
  destruct Hhd; constructor; auto.
Qed.

Lemma byVideoOrder_sorted points :
  Sorted ascendingVideoOrder (js_sort byVideoOrder points).
Proof.
  eapply Sorted_weaken; [|apply (js_sort_sorted byVideoOrder)].
  - intros a b. unfold byVideoOrder, ascendingVideoOrder. lia.
  - intros a b. unfold byVideoOrder. lia.
Qed.

(** C10.  A session without any [leave] interaction has a dopamine spike
    index of 0, an attention span of 0 and no fatigue points. *)
Theorem no_leave_zero_metrics getHours Math_pow clock session :
  Forall (fun i => vi_action i <> leave) (vs_interactions session) ->
  let metrics := computeMetrics getHours Math_pow clock (SessionRecord session) in
  cm_dopamineSpikeIndex metrics = 0%float /\
  cm_attentionSpan metrics = 0%float /\
  cm_fatiguePoints metrics = [].
Proof.
  intros Hno. simpl.
  unfold calculateDopamineSpikeIndex, calculateAttentionSpan, generateFatiguePoints.
  rewrite (no_leave_no_dwell _ Hno). simpl.
  split; [|split; [|done]].
  - destruct (length (vs_interactions session) =? 0)%nat; [done|].
    by rewrite orb_true_r.
  - by destruct (length (vs_interactions session) =? 0)%nat.
Qed.

Lemma no_leave_zero_metrics_witness :
  let session :=
    mockSession 50400000 50460000
      [ mockInteraction enter "video1" 50401000 noMetadata;
        mockInteraction scroll "video1" 50402000 noMetadata;
        mockInteraction replay "video1" 50403000 noMetadata ] in
  let metrics :=
    computeMetrics utcHours pow_square {| clk_length := 50460000; clk_stamp := 50460000 |}
      (SessionRecord session) in
  cm_dopamineSpikeIndex metrics = 0%float /\
  cm_attentionSpan metrics = 0%float /\
  cm_fatiguePoints metrics = [].
Proof.
  apply (no_leave_zero_metrics utcHours pow_square).
  repeat constructor; simpl; discriminate.
Defined.

(** C6, as the code has it.  The fatigue points of a session are the points
    of its [leave] interactions that carry a dwell time (a number other than
    0 and NaN) and whose video has an [enter] interaction in the session,
    one point each, annotated with the 0-based order in which the video was
    first entered; the list is sorted ascending by that order. *)
Theorem fatiguePoints_of_entered_leaves getHours Math_pow clock session :
  let interactions := vs_interactions session in
  let points :=
    cm_fatiguePoints (computeMetrics getHours Math_pow clock (SessionRecord session)) in
  points ≡ₚ omap (fatiguePointOf interactions) (List.filter isLeaveWithDwell interactions) /\
  Sorted ascendingVideoOrder points.
Proof.
  simpl. rewrite generateFatiguePoints_sorted_omap. split.
  - apply js_sort_perm.
  - apply byVideoOrder_sorted.
Qed.

(** C6 as stated fails: a [leave] with a recorded dwell time whose video was
    never entered gets no fatigue point. *)
Lemma fatiguePoints_unentered_video_counterexample :
  let interactions := [ mockInteraction leave "video1" 50405000 (dwellMetadata 5000) ] in
  let points :=
    cm_fatiguePoints
      (computeMetrics utcHours pow_square {| clk_length := 50460000; clk_stamp := 50460000 |}
         (SessionRecord (mockSession 50400000 50460000 interactions))) in
  length (List.filter isLeaveWithDwell interactions) = 1%nat /\
  points = [] /\
  length points <> length (List.filter isLeaveWithDwell interactions).
Proof. vm_compute. repeat split. discriminate. Qed.

(** ** Binge bursts *)

Lemma burstOfRun_mkBurst i run :
  mkBurst (Z.of_nat i) (map di_dwellTime run) (map di_timestamp run) = burstOfRun i run.
Proof. unfold mkBurst, burstOfRun. by rewrite !length_map. Qed.

Lemma started_not_idle (s : nat) : (Z.of_nat s =? -1) = false.
Proof. apply Z.eqb_neq. lia. Qed.

(** The loop, started outside a run or inside one, against the maximal runs
    of what is left to scan. *)
Lemma burstLoop_maximalBursts items : forall i B,
  closeBurst (burstLoop
      {| bursts := B; burstStart := -1; burstDwellTimes := []; burstTimestamps := [] |}
      i items)
  = B ++ maximalBursts false i items
  /\
  forall s ds ts,
    closeBurst (burstLoop
        {| bursts := B; burstStart := Z.of_nat s; burstDwellTimes := ds;
           burstTimestamps := ts |}
        i items)
    = B ++ (if (5 <=? length ds + length (shortPrefix items))%nat
            then [mkBurst (Z.of_nat s) (ds ++ map di_dwellTime (shortPrefix items))
                    (ts ++ map di_timestamp (shortPrefix items))]
            else [])
        ++ maximalBursts true i items.
Proof.
  induction items as [|x rest IH]; intros i B.
  - split.
    + unfold closeBurst; simpl. by rewrite app_nil_r.
    + intros s ds ts. unfold closeBurst; simpl.
      rewrite started_not_idle. simpl.
      rewrite Nat.add_0_r, !app_nil_r.
      destruct (5 <=? length ds)%nat; by rewrite ?app_nil_r.
  - split.
    + simpl. unfold burstStep. fold (isShort x). simpl.
      destruct (isShort x) eqn:Hx; simpl.
      * destruct (IH (S i) B) as [_ IHrun]. rewrite IHrun. simpl.
        by rewrite <- burstOfRun_mkBurst.
      * destruct (IH (S i) B) as [IHidle _]. unfold closeBurst at 2; simpl.
        by rewrite IHidle.
    + intros s ds ts. simpl. unfold burstStep. fold (isShort x). simpl.
      pose proof (started_not_idle s) as Hs. rewrite Hs.
      destruct (isShort x) eqn:Hx; simpl.
      * destruct (IH (S i) B) as [_ IHrun]. rewrite IHrun.
        rewrite length_app, <- !app_assoc. simpl.
        by replace (length ds + 1 + length (shortPrefix rest))%nat
          with (length ds + S (length (shortPrefix rest)))%nat by lia.
      * destruct (IH (S i) (closeBurst
          {| bursts := B; burstStart := Z.of_nat s; burstDwellTimes := ds;
             burstTimestamps := ts |})) as [IHidle _].
        rewrite IHidle. unfold closeBurst; simpl. rewrite Hs; simpl.
        rewrite Nat.add_0_r, !app_nil_r.
        destruct (5 <=? length ds)%nat; simpl; [|done]. by rewrite <- app_assoc.
Qed.

Lemma detectBingeBursts_maximalBursts interactions :
  detectBingeBursts interactions = maximalBursts false 0 (dwellItems interactions).
Proof.
  unfold detectBingeBursts, burstInit.
  by destruct (burstLoop_maximalBursts (dwellItems interactions) 0%nat []) as [-> _].
Qed.

Lemma maximalBursts_long b i l :
  Forall (fun x => isShort x = false) l -> maximalBursts b i l = [].
Proof.
  intros Hl. revert b i. induction Hl as [|x l Hx _ IH]; intros b i; simpl; [done|].
  rewrite Hx. simpl. apply IH.
Qed.

Lemma maximalBursts_skip_long i l rest :
  Forall (fun x => isShort x = false) l ->
  maximalBursts false i (l ++ rest) = maximalBursts false (i + length l) rest.
Proof.
  intros Hl. revert i. induction Hl as [|x l Hx _ IH]; intros i; simpl.
  - by rewrite Nat.add_0_r.
  - rewrite Hx. simpl. rewrite IH. f_equal. lia.
Qed.

Lemma shortPrefix_run run post :
  Forall (fun x => isShort x = true) run ->
  Forall (fun x => isShort x = false) post ->
  shortPrefix (run ++ post) = run.
Proof.
  intros Hrun Hpost. induction Hrun as [|x run Hx _ IH]; simpl.
  - destruct Hpost as [|y post Hy _]; simpl; [done|]. by rewrite Hy.
  - by rewrite Hx, IH.
Qed.

Lemma maximalBursts_inside_run i run post :
  Forall (fun x => isShort x = true) run ->
  Forall (fun x => isShort x = false) post ->
  maximalBursts true i (run ++ post) = [].
Proof.
  intros Hrun Hpost. revert i. induction Hrun as [|x run Hx _ IH]; intros i; simpl.
  - by apply maximalBursts_long.
  - rewrite Hx. simpl. apply IH.
Qed.

Lemma maximalBursts_single_run pre run post :
  Forall (fun x => isShort x = false) pre ->
  Forall (fun x => isShort x = true) run ->
  Forall (fun x => isShort x = false) post ->
  maximalBursts false 0 (pre ++ run ++ post)
  = if (5 <=? length run)%nat then [burstOfRun (length pre) run] else [].
Proof.
  intros Hpre Hrun Hpost. rewrite maximalBursts_skip_long by done. simpl.
  destruct Hrun as [|x run Hx Hrun].
  - simpl. by apply maximalBursts_long.
  - cbn [app maximalBursts]. rewrite Hx. cbn [negb andb].
    change (shortPrefix (x :: run ++ post)) with (shortPrefix ((x :: run) ++ post)).
    rewrite shortPrefix_run by (done || by constructor).
    rewrite maximalBursts_inside_run by done. by rewrite app_nil_r.
Qed.

Lemma shortPrefix_split items :
  exists post,
    items = shortPrefix items ++ post /\
    Forall (fun x => isShort x = true) (shortPrefix items) /\
    endsRun post.
Proof.
  induction items as [|x items (post & Hsplit & Hshort & Hend)]; simpl.
  - exists []. split; [done|]. split; [constructor|by left].
  - destruct (isShort x) eqn:Hx.
    + exists post. split; [simpl; congruence|]. split; [by constructor|done].
    + exists (x :: items). split; [done|]. split; [constructor|]. right. eauto.
Qed.

Lemma shortPrefix_until run post :
  Forall (fun x => isShort x = true) run -> endsRun post ->
  shortPrefix (run ++ post) = run.
Proof.
  intros Hrun Hend. induction Hrun as [|x run Hx _ IH]; simpl.
  - destruct Hend as [->|(y & post' & -> & Hy)]; simpl; [done|]. by rewrite Hy.
  - by rewrite Hx, IH.
Qed.

(** The bursts are the maximal runs of 5 elements or more, and only those. *)
Lemma maximalBursts_elem b items : forall prevShort i,
  b ∈ maximalBursts prevShort i items <->
  exists pre run post,
    items = pre ++ run ++ post /\
    beginsRun prevShort pre /\
    Forall (fun x => isShort x = true) run /\
    (5 <= length run)%nat /\
    endsRun post /\
    b = burstOfRun (i + length pre) run.
Proof.
  induction items as [|x items IH]; intros prevShort i.
  - simpl. split; [by intros ?%elem_of_nil|].
    intros (pre & run & post & Hitems & _ & _ & Hlen & _ & _).
    symmetry in Hitems. apply app_eq_nil in Hitems as [_ [-> _]%app_eq_nil].
    simpl in Hlen. lia.
  - cbn [maximalBursts]. rewrite elem_of_app. split.
    + intros [Hhere|Hlater].
      * destruct (isShort x) eqn:Hx; [|by apply elem_of_nil in Hhere].
        destruct prevShort; [by apply elem_of_nil in Hhere|]. cbn [negb andb] in Hhere.
        destruct (Nat.leb_spec 5 (length (shortPrefix (x :: items)))) as [Hlen|_];
          [|by apply elem_of_nil in Hhere].
        apply list_elem_of_singleton in Hhere as ->.
        destruct (shortPrefix_split (x :: items)) as (post & Hsplit & Hshort & Hend).
        exists [], (shortPrefix (x :: items)), post.
        rewrite Nat.add_0_r. repeat (split; [done|]). split; [by left|done].
      * apply IH in Hlater as (pre & run & post & -> & Hpre & Hrun & Hlen & Hend & ->).
        exists (x :: pre), run, post. split; [done|]. split.
        { right. destruct Hpre as [[-> Hx]|(pre' & y & -> & Hy)].
          - by exists [], x.
          - by exists (x :: pre'), y. }
        repeat (split; [done|]). simpl. f_equal. lia.
    + intros (pre & run & post & Hitems & Hpre & Hrun & Hlen & Hend & ->).
      destruct pre as [|p pre].
      * left. destruct Hpre as [[_ ->]|(pre' & y & Hnil & _)];
          [|by destruct pre'].
        simpl in Hitems. rewrite Hitems, shortPrefix_until by done.
        destruct Hrun as [|r run Hr Hrun]; [simpl in Hlen; lia|].
        simpl in Hitems. injection Hitems as -> _. rewrite Hr. cbn [negb andb].
        rewrite (proj2 (Nat.leb_le _ _) Hlen), Nat.add_0_r. by left.
      * right. simpl in Hitems. injection Hitems as -> ->. apply IH.
        exists pre, run, post. split; [done|]. split.
        { destruct Hpre as [[? _]|(pre' & y & Hpre & Hy)]; [done|].
          destruct pre' as [|p' pre']; simpl in Hpre; injection Hpre as -> Hpre.
          - left. split; [|done]. by destruct pre.
          - right. by exists pre', y. }
        repeat (split; [done|]). simpl. f_equal. lia.
Qed.

(** C7.  Binge-burst detection finds exactly the maximal runs of at least 5
    consecutive dwell times below 5 seconds: a record is in the result iff
    it is the record of such a run, and the records come in the order of the
    runs.  In particular, when the dwell times are a run of [N] short ones
    between dwell times that are not short, the result is that one run as a
    burst of length [N] if [N >= 5] and nothing otherwise; the record
    carries the run's average dwell time and the timestamp of its first
    element. *)
Theorem bingeBursts_are_maximal_runs interactions :
  (forall b,
     b ∈ detectBingeBursts interactions <->
     exists start run,
       isMaximalRun (dwellItems interactions) start run /\
       (5 <= length run)%nat /\
       b = burstOfRun start run) /\
  detectBingeBursts interactions = maximalBursts false 0 (dwellItems interactions) /\
  forall pre run post,
    dwellItems interactions = pre ++ run ++ post ->
    Forall (fun x => PrimFloat.ltb (di_dwellTime x) 5 = false) pre ->
    Forall (fun x => PrimFloat.ltb (di_dwellTime x) 5 = true) run ->
    Forall (fun x => PrimFloat.ltb (di_dwellTime x) 5 = false) post ->
    detectBingeBursts interactions
    = if (5 <=? length run)%nat
      then [ {| bb_startIndex := Z.of_nat (length pre);
                bb_endIndex := Z.of_nat (length pre) + Z.of_nat (length run) - 1;
                bb_length := length run;
                bb_averageDwellTime :=
                  (sumFloats (map di_dwellTime run) / nat2float (length run))%float;
                bb_timestamp := hd 0%float (map di_timestamp run) |} ]
      else [].
Proof.
  split; [|split; [apply detectBingeBursts_maximalBursts|]].
  - intros b. rewrite detectBingeBursts_maximalBursts, maximalBursts_elem. split.
    + intros (pre & run & post & Hitems & Hpre & Hrun & Hlen & Hend & ->).
      exists (length pre), run. split; [|done]. by exists pre, post.
    + intros (start & run & (pre & post & Hitems & <- & Hrun & Hpre & Hend) & Hlen & ->).
      by exists pre, run, post.
  - intros pre run post Hitems Hpre Hrun Hpost.
    rewrite detectBingeBursts_maximalBursts, Hitems.
    by rewrite maximalBursts_single_run.
Qed.

Lemma bingeBursts_are_maximal_runs_witness :
  detectBingeBursts burstSample
  = [ {| bb_startIndex := 1; bb_endIndex := 5; bb_length := 5;
         bb_averageDwellTime := 2; bb_timestamp := 13500 |} ].
Proof.
  apply (proj2 (proj2 (bingeBursts_are_maximal_runs burstSample))
           (take 1 (dwellItems burstSample))
           (take 5 (drop 1 (dwellItems burstSample)))
           (drop 6 (dwellItems burstSample))).
  - reflexivity.
  - vm_compute. repeat constructor.
  - vm_compute. repeat constructor.
  - vm_compute. repeat constructor.
Defined.

(** ** Engagement half-life *)

Lemma sumPointDwell_map points :
  sumPointDwell points = sumFloats (map fp_dwellTime points).
Proof.
  unfold sumPointDwell, sumFloats. generalize 0%float.
  induction points as [|p points IH]; intros acc; simpl; [done|]. apply IH.
Qed.

Lemma currentAttention_movingAverage3 points i :
  (2 <= i)%nat -> currentAttention points i = movingAverage3 points i.
Proof.
  intros Hi. unfold currentAttention, movingAverage3, mean3, slice.
  rewrite (Nat.min_l 3 (i + 1)) by lia. rewrite sumPointDwell_map.
  replace (Z.to_nat (Z.max 0 (Z.of_nat i - Z.of_nat 3 + 1))) with (i - 2)%nat by lia.
  by replace (i + 1 - (i - 2))%nat with 3%nat by lia.
Qed.

Lemma halfLifeLoop_find points half remaining : forall i,
  (2 <= i)%nat ->
  halfLifeLoop points half i remaining
  = match list_find (fun k => PrimFloat.leb (movingAverage3 points k) half = true)
                    (seq i remaining) with
    | Some (_, k) => Some (videoOrderAt points k)
    | None => None
    end.
Proof.
  induction remaining as [|remaining IH]; intros i Hi; [done|].
  cbn [halfLifeLoop seq list_find]. rewrite currentAttention_movingAverage3 by done.
  destruct (PrimFloat.leb (movingAverage3 points i) half) eqn:Hle.
  - by rewrite decide_True.
  - rewrite decide_False by congruence. rewrite IH by lia.
    by destruct (list_find _ (seq (S i) remaining)) as [[j k]|].
Qed.

Lemma lookup_seq_find (P : nat -> Prop) `{forall k, Decision (P k)} start len :
  match list_find P (seq start len) with
  | Some (_, k) =>
      (start <= k < start + len)%nat /\ P k /\
      forall j, (start <= j < k)%nat -> ~ P j
  | None => forall j, (start <= j < start + len)%nat -> ~ P j
  end.
Proof.
  destruct (list_find P (seq start len)) as [[n k]|] eqn:Hfind.
  - apply list_find_Some in Hfind as (Hk & HP & Hfirst).
    apply lookup_seq in Hk as [-> Hn]. split; [lia|]. split; [done|].
    intros j Hj. apply (Hfirst (j - start)%nat); [|lia].
    apply lookup_seq. split; lia.
  - intros j Hj. rewrite list_find_None, Forall_forall in Hfind.
    apply Hfind, elem_of_seq. lia.
Qed.

Lemma js_sort_sorted_id {A} (cmp : A -> A -> Z) l :
  Sorted (fun a b => cmp a b <= 0) l -> js_sort cmp l = l.
Proof.
  induction 1 as [|x l Hsorted IH Hhead]; [done|].
  unfold js_sort in *. simpl. rewrite IH.
  destruct Hhead as [|y l Hxy]; [done|]. simpl.
  by rewrite (proj2 (Z.ltb_ge 0 (cmp x y)) Hxy).
Qed.

Lemma halfLifeLoop_halfLifeOf points :
  (3 <= length points)%nat ->
  let half := (sumPointDwell (slice 0 3 points) / 3 / 2)%float in
  halfLifeOf points
    match halfLifeLoop points half 3 (length points - 3) with
    | Some order => order
    | None => videoOrderAt points (length points - 1)
    end.
Proof.
  intros Hlen half. unfold halfLifeOf.
  rewrite (proj2 (Nat.ltb_ge _ _) Hlen).
  assert (half = (mean3 (map fp_dwellTime (take 3 points)) / 2)%float) as Hhalf.
  { subst half. unfold slice, mean3. by rewrite sumPointDwell_map. }
  rewrite halfLifeLoop_find by lia.
  pose proof (lookup_seq_find
                (fun i => PrimFloat.leb (movingAverage3 points i) half = true)
                3 (length points - 3)) as Hfind.
  destruct (list_find _ (seq 3 (length points - 3))) as [[n i]|].
  - destruct Hfind as (Hi & Hle & Hfirst). left.
    destruct (lookup_lt_is_Some_2 points i) as [point Hpoint]; [lia|].
    exists i, point. unfold videoOrderAt. rewrite Hpoint.
    split; [done|]. split; [split; [lia|by rewrite <- Hhalf]|]. split; [|done].
    intros j Hj [Hj3 Hhalved]. apply (Hfirst j); [lia|]. by rewrite Hhalf.
  - right. split.
    + intros j Hj [Hj3 Hhalved]. apply (Hfind j); [lia|]. by rewrite Hhalf.
    + destruct (lookup_lt_is_Some_2 points (length points - 1)) as [point Hpoint];
        [lia|].
      exists point. unfold videoOrderAt. rewrite Hpoint. split; [|done].
      rewrite last_lookup. by replace (pred (length points)) with (length points - 1)%nat
        by lia.
Qed.

Lemma halfLifeOf_unique points h1 h2 :
  halfLifeOf points h1 -> halfLifeOf points h2 -> h1 = h2.
Proof.
  unfold halfLifeOf. destruct (length points <? 3)%nat; [congruence|].
  intros [(i1 & p1 & Hp1 & Hh1 & Hfirst1 & ->)|(Hnone1 & p1 & Hp1 & ->)]
         [(i2 & p2 & Hp2 & Hh2 & Hfirst2 & ->)|(Hnone2 & p2 & Hp2 & ->)].
  - destruct (Nat.lt_trichotomy i1 i2) as [Hlt|[->|Hlt]].
    + by destruct (Hfirst2 i1 Hlt).
    + congruence.
    + by destruct (Hfirst1 i2 Hlt).
  - destruct (Hnone2 i1); [by eapply lookup_lt_Some|done].
  - destruct (Hnone1 i2); [by eapply lookup_lt_Some|done].
  - congruence.
Qed.

Lemma calculateEngagementHalfLife_halfLifeOf fatiguePoints :
  halfLifeOf (js_sort byVideoOrder fatiguePoints)
    (calculateEngagementHalfLife fatiguePoints).
Proof.
  unfold calculateEngagementHalfLife.
  destruct (Nat.ltb_spec (length fatiguePoints) 3) as [Hlt|Hge].
  - unfold halfLifeOf. rewrite js_sort_length.
    by rewrite (proj2 (Nat.ltb_lt _ _) Hlt).
  - apply halfLifeLoop_halfLifeOf. by rewrite js_sort_length.
Qed.

(** C9.  Engagement half-life is 0 below 3 fatigue points; otherwise, with
    the points in the order of their videos, it is the video order of the
    first point, from the 4th on, at which the 3-point moving average of
    dwell time is at most half the mean of the first 3 points, and the last
    point's video order when no point is; no other number fits this
    description, and [computeMetrics] passes points that are in this order
    already.  Viewing six videos for 20, 16, 12, 8,
    4, 2 s gives 4, which is below 6; viewing four videos for 10 s each gives
    the last index, 3; and when the six videos have the orders 0, 2, 4, 6, 8
    and 10 the result is 8, the order of the fifth, not its index. *)
Theorem engagementHalfLife_first_halving :
  (forall fatiguePoints,
     (length fatiguePoints < 3)%nat -> calculateEngagementHalfLife fatiguePoints = 0%nat) /\
  (forall fatiguePoints,
     halfLifeOf (js_sort byVideoOrder fatiguePoints)
       (calculateEngagementHalfLife fatiguePoints)) /\
  (forall fatiguePoints,
     byAscendingVideoOrder fatiguePoints ->
     halfLifeOf fatiguePoints (calculateEngagementHalfLife fatiguePoints)) /\
  (forall points h1 h2, halfLifeOf points h1 -> halfLifeOf points h2 -> h1 = h2) /\
  (forall getHours Math_pow clock session,
     let metrics := computeMetrics getHours Math_pow clock (SessionRecord session) in
     byAscendingVideoOrder (cm_fatiguePoints metrics) /\
     halfLifeOf (cm_fatiguePoints metrics) (cm_engagementHalfLife metrics)) /\
  (let metrics := computeMetrics utcHours pow_square sampleClock (watched decreasingViews) in
   map fp_dwellTime (cm_fatiguePoints metrics) = [20; 16; 12; 8; 4; 2]%float /\
   cm_engagementHalfLife metrics = 4%nat /\
   (cm_engagementHalfLife metrics < length decreasingViews)%nat) /\
  (let metrics := computeMetrics utcHours pow_square sampleClock (watched flatViews) in
   map fp_dwellTime (cm_fatiguePoints metrics) = [10; 10; 10; 10]%float /\
   cm_engagementHalfLife metrics = (length flatViews - 1)%nat) /\
  (let metrics :=
     computeMetrics utcHours pow_square sampleClock (SessionRecord gapSession) in
   map fp_dwellTime (cm_fatiguePoints metrics) = [20; 16; 12; 8; 4; 2]%float /\
   map fp_videoOrder (cm_fatiguePoints metrics) = [0; 2; 4; 6; 8; 10]%nat /\
   cm_engagementHalfLife metrics = 8%nat).
Proof.
  assert (forall fatiguePoints,
            byAscendingVideoOrder fatiguePoints ->
            halfLifeOf fatiguePoints (calculateEngagementHalfLife fatiguePoints))
    as Hsorted.
  { intros fatiguePoints Hpoints.
    pose proof (calculateEngagementHalfLife_halfLifeOf fatiguePoints) as Hspec.
    rewrite js_sort_sorted_id in Hspec; [done|].
    revert Hpoints. apply Sorted_weaken. intros a b.
    unfold byVideoOrder, ascendingVideoOrder. lia. }
  split; [|split; [apply calculateEngagementHalfLife_halfLifeOf|
                   split; [done|split; [apply halfLifeOf_unique|split]]]].
  - intros fatiguePoints Hlen. unfold calculateEngagementHalfLife.
    by rewrite (proj2 (Nat.ltb_lt _ _) Hlen).
  - intros getHours Math_pow clock session metrics.
    assert (byAscendingVideoOrder (cm_fatiguePoints metrics)) as Hpoints.
    { subst metrics. simpl. unfold generateFatiguePoints. apply byVideoOrder_sorted. }
    split; [done|]. by apply Hsorted in Hpoints.
  - split; [|split].
    + vm_compute. split; [reflexivity|]. split; [reflexivity|]. lia.
    + vm_compute. split; reflexivity.
    + vm_compute. repeat split; reflexivity.
Qed.

Lemma engagementHalfLife_first_halving_witness :
  let points :=
    cm_fatiguePoints
      (computeMetrics utcHours pow_square sampleClock (SessionRecord gapSession)) in
  map fp_videoOrder points = [0; 2; 4; 6; 8; 10]%nat /\
  halfLifeOf points 8%nat.
Proof.
  intros points. split; [reflexivity|].
  exact (proj2 (proj1 (proj2 (proj2 (proj2 (proj2 engagementHalfLife_first_halving))))
                  utcHours pow_square sampleClock gapSession)).
Defined.

(** ** Classifier *)

(** A number below 0.3 is not above 0.7. *)
Lemma below_03_not_above_07 p :
  PrimFloat.ltb p 0.3 = true -> PrimFloat.ltb 0.7 p = false.
Proof.
  rewrite !FloatAxioms.ltb_spec.
  change (Prim2SF 0.3) with (S754_finite false 5404319552844595 (-54)).
  change (Prim2SF 0.7) with (S754_finite false 6305039478318694 (-53)).
  destruct (Prim2SF p) as [s|s| |s m e]; unfold SFltb, SFcompare;
    try done; try (by destruct s).
  destruct s; [done|].
  destruct (Z.compare_spec e (-54)), (Z.compare_spec (-53) e); try done; lia.
Qed.

Lemma bandOf_inBand p : inBand p (bandOf p) (bandConfidence (bandOf p) p).
Proof.
  unfold inBand, bandOf, bandConfidence, gtb, Math_abs.
  split; [|split].
  - by intros ->.
  - intros Hlow. by rewrite (below_03_not_above_07 _ Hlow), Hlow.
  - by intros -> ->.
Qed.

(** The state and the model on which the [try] block runs. *)
Lemma classifySession_unfold getHours host st session metrics :
  exists st1,
    model st1 = modelInUse host st /\
    snd (classifySession getHours host st session metrics)
    = match classifySession_try getHours st1 session metrics with
      | Some result => result
      | None => fallbackResult getHours session metrics
      end.
Proof.
  unfold classifySession, modelInUse.
  destruct (bool_decide (is_Some (model st))).
  - exists st. split; [done|]. by destruct (classifySession_try _ _ _ _).
  - destruct (initialize host st) as [st1 [|]].
    + exists st1. split; [done|]. by destruct (classifySession_try _ _ _ _).
    + exists {| model := None; isLoading := false |}. by split.
Qed.

(** C4.  A model output [p] above 0.7 is classified "doomscroll" and one
    below 0.3 "healthy", both with confidence |p - 0.5| * 2; any other output
    is classified "unknown" with confidence 0.5.  This holds for the single
    prediction of [classifySession] and for each element of the batch
    prediction of [classifySessions]. *)
Theorem classification_bands getHours host st :
  (forall session metrics m predictionData,
     modelInUse host st = Some m ->
     predictData m [normalizeFeatures (extractFeatures getHours session metrics)]
       = Some predictionData ->
     let result := snd (classifySession getHours host st session metrics) in
     inBand (nth 0 predictionData nan) (ar_classification result) (ar_confidence result)) /\
  (forall sessions m predictionData index session metrics,
     modelInUse host st = Some m ->
     predictData m
       (map (fun sm => normalizeFeatures (extractFeatures getHours (fst sm) (snd sm)))
            sessions) = Some predictionData ->
     sessions !! index = Some (session, metrics) ->
     exists results result,
       snd (classifySessions getHours host st sessions) = Some results /\
       results !! index = Some result /\
       inBand (nth index predictionData nan)
         (ar_classification result) (ar_confidence result)).
Proof.
  split.
  - intros session metrics m predictionData Hm Hp result. subst result.
    destruct (classifySession_unfold getHours host st session metrics)
      as (st1 & Hst1 & ->).
    unfold classifySession_try. rewrite Hst1, Hm, Hp. simpl. apply bandOf_inBand.
  - intros sessions m predictionData index session metrics Hm Hp Hlook.
    unfold classifySessions. unfold modelInUse in Hm.
    assert ((length sessions =? 0)%nat = false) as Hlen.
    { apply Nat.eqb_neq. apply lookup_lt_Some in Hlook. lia. }
    destruct (bool_decide (is_Some (model st))).
    + rewrite Hm, Hlen, Hp. simpl. eexists _, _. split; [done|].
      rewrite list_lookup_imap, Hlook. simpl. split; [done|]. apply bandOf_inBand.
    + destruct (initialize host st) as [st1 [|]]; [|done].
      rewrite Hm, Hlen, Hp. simpl. eexists _, _. split; [done|].
      rewrite list_lookup_imap, Hlook. simpl. split; [done|]. apply bandOf_inBand.
Qed.

(** C5.  When no model is available, or the prediction throws,
    [classifySession] returns the rule-based classification of the metrics
    with confidence 0.3 and model version "fallback". *)
Theorem classifySession_fallback getHours host st session metrics :
  (modelInUse host st = None \/
   exists m,
     modelInUse host st = Some m /\
     predictData m [normalizeFeatures (extractFeatures getHours session metrics)] = None) ->
  let result := snd (classifySession getHours host st session metrics) in
  ar_classification result = cm_healthClassification metrics /\
  ar_confidence result = 0.3%float /\
  ar_modelVersion result = "fallback".
Proof.
  intros Hfail result. subst result.
  destruct (classifySession_unfold getHours host st session metrics)
    as (st1 & Hst1 & ->).
  unfold classifySession_try. rewrite Hst1.
  destruct Hfail as [-> | (m & -> & ->)]; done.
Qed.

Lemma classification_bands_witness :
  let result :=
    snd (classifySession utcHours brokenHost
           {| model := Some (constantModel 0.9); isLoading := false |}
           sampleSession sampleMetrics) in
  ar_classification result = doomscroll /\
  ar_confidence result = (PrimFloat.abs (0.9 - 0.5) * 2)%float.
Proof.
  apply (proj1 (classification_bands utcHours brokenHost
                  {| model := Some (constantModel 0.9); isLoading := false |})
           sampleSession sampleMetrics (constantModel 0.9) [0.9%float]
           eq_refl eq_refl).
  reflexivity.
Defined.

Lemma classifySession_fallback_witness :
  let result :=
    snd (classifySession utcHours brokenHost
           {| model := Some throwingModel; isLoading := false |}
           sampleSession sampleMetrics) in
  ar_classification result = cm_healthClassification sampleMetrics /\
  ar_confidence result = 0.3%float /\
  ar_modelVersion result = "fallback".
Proof.
  apply (classifySession_fallback utcHours brokenHost
           {| model := Some throwingModel; isLoading := false |}
           sampleSession sampleMetrics).
  right. exists throwingModel. split; reflexivity.
Defined.

(** ** Scheduler: ordering of the queue *)

Lemma filter_Forall {A} (P : A -> Prop) (f : A -> bool) l :
  Forall P l -> Forall P (List.filter f l).
Proof.
  induction 1 as [|x l Hx _ IH]; simpl; [done|].
  destruct (f x); [by constructor|done].
Qed.

Lemma filter_StronglySorted {A} (R : A -> A -> Prop) (f : A -> bool) l :
  StronglySorted R l -> StronglySorted R (List.filter f l).
Proof.
  induction 1 as [|x l _ IH Hx]; simpl; [constructor|].
  destruct (f x); [|done]. constructor; [done|]. by apply filter_Forall.
Qed.

Lemma drop_StronglySorted {A} (R : A -> A -> Prop) n l :
  StronglySorted R l -> StronglySorted R (drop n l).
Proof.
  intros Hl. revert n. induction Hl as [|x l Hl IH Hx]; intros [|n]; simpl;
    try constructor; auto.
Qed.

Lemma filter_perm {A} (f : A -> bool) l l' :
  l ≡ₚ l' -> List.filter f l ≡ₚ List.filter f l'.
Proof.
  induction 1 as [|x l l' _ IH|x y l|l l' l'' _ IH1 _ IH2]; simpl.
  - done.
  - destruct (f x); [by constructor|done].
  - destruct (f x), (f y); try done. apply Permutation_swap.
  - by etrans.
Qed.

Lemma compareAnalyses_queueOrder a b : compareAnalyses a b <= 0 <-> queueOrder a b.
Proof.
  unfold compareAnalyses, queueOrder.
  destruct (Z.eqb_spec (priorityOrder (sa_priority a) - priorityOrder (sa_priority b)) 0);
    simpl; lia.
Qed.

Lemma compareAnalyses_asym a b : 0 < compareAnalyses a b -> compareAnalyses b a <= 0.
Proof.
  unfold compareAnalyses.
  destruct (Z.eqb_spec (priorityOrder (sa_priority a) - priorityOrder (sa_priority b)) 0),
    (Z.eqb_spec (priorityOrder (sa_priority b) - priorityOrder (sa_priority a)) 0);
    simpl; lia.
Qed.

#[local] Instance queueOrder_trans : Transitive queueOrder.
Proof. intros a b c. unfold queueOrder. lia. Qed.

Lemma sortQueue_ordered queue : StronglySorted queueOrder (sortQueue queue).
Proof.
  apply Sorted_StronglySorted; [apply _|].
  eapply Sorted_weaken; [|apply (js_sort_sorted compareAnalyses), compareAnalyses_asym].
  intros a b. apply compareAnalyses_queueOrder.
Qed.

Section SchedulerOrder.
Variable getHours : float -> float.

Lemma handleFailure_ordered now analysis error st :
  StronglySorted queueOrder (analysisQueue st) ->
  StronglySorted queueOrder (analysisQueue (handleFailure getHours now analysis error st)).
Proof.
  intros Hst. unfold handleFailure.
  destruct (S (sa_retryCount analysis) <=? maxRetries)%nat; simpl.
  - apply sortQueue_ordered.
  - by destruct (callbacks st !! sa_sessionId analysis).
Qed.

Lemma handleResult_ordered now analysis result st :
  StronglySorted queueOrder (analysisQueue st) ->
  StronglySorted queueOrder (analysisQueue (handleResult getHours now analysis result st)).
Proof.
  intros Hst. destruct result as [classification processingTime|error]; simpl.
  - by destruct (callbacks st !! sa_sessionId analysis).
  - by apply handleFailure_ordered.
Qed.

Lemma handleResults_ordered clock batch results : forall index st,
  StronglySorted queueOrder (analysisQueue st) ->
  StronglySorted queueOrder
    (analysisQueue (handleResults getHours clock batch index results st)).
Proof.
  induction results as [|result results IH]; intros index st Hst; simpl; [done|].
  destruct (batch !! index); [|done]. by apply IH, handleResult_ordered.
Qed.

Lemma step_ordered st op :
  StronglySorted queueOrder (analysisQueue st) ->
  StronglySorted queueOrder (analysisQueue (step getHours st op)).
Proof.
  intros Hst. destruct op as [now session metrics priority callback| |replies clock|sessionId|];
    simpl.
  - apply sortQueue_ordered.
  - unfold processQueue_begin.
    destruct (isProcessing st || (length (analysisQueue st) =? 0)%nat); simpl; [done|].
    by apply drop_StronglySorted.
  - unfold processQueue_resume. destruct (inFlight st); simpl; [|done].
    by apply handleResults_ordered.
  - by apply filter_StronglySorted.
  - constructor.
Qed.

Lemma run_ordered ops : forall st,
  StronglySorted queueOrder (analysisQueue st) ->
  StronglySorted queueOrder (analysisQueue (run getHours st ops)).
Proof.
  induction ops as [|op ops IH]; intros st Hst; simpl; [done|].
  by apply IH, step_ordered.
Qed.

End SchedulerOrder.

Lemma otherSession_ne (a : ScheduledAnalysis) sessionId :
  sa_sessionId a <> sessionId -> otherSession sessionId a = true.
Proof. intros Hne. unfold otherSession. by rewrite (proj2 (String.eqb_neq _ _) Hne). Qed.

Lemma otherSession_same (a : ScheduledAnalysis) sessionId :
  sa_sessionId a = sessionId -> otherSession sessionId a = false.
Proof. intros <-. unfold otherSession. by rewrite String.eqb_refl. Qed.

Lemma scheduleAnalysis_queue now session metrics priority callback st :
  analysisQueue (scheduleAnalysis now session metrics priority callback st)
  = sortQueue (List.filter (otherSession (vs_id session)) (analysisQueue st)
               ++ [newEntry now session metrics priority]).
Proof. reflexivity. Qed.

Lemma scheduleAnalysis_isProcessing now session metrics priority callback st :
  isProcessing (scheduleAnalysis now session metrics priority callback st) = isProcessing st.
Proof. reflexivity. Qed.

(** C8.  Every operation leaves the queue ordered by priority rank (high,
    normal, low) and then by ascending timestamp, so the queue is ordered in
    every state a fresh scheduler reaches; and after scheduling three
    sessions with priorities low, high, normal, the next batch is the high,
    the normal and the low entry, in this order. *)
Theorem queue_ordered_by_priority_then_time getHours :
  (forall st op,
     StronglySorted queueOrder (analysisQueue st) ->
     StronglySorted queueOrder (analysisQueue (step getHours st op))) /\
  (forall ops,
     StronglySorted queueOrder (analysisQueue (run getHours newScheduler ops))) /\
  (forall t1 t2 t3 s1 s2 s3 m1 m2 m3 c1 c2 c3,
     vs_id s1 <> vs_id s2 -> vs_id s1 <> vs_id s3 -> vs_id s2 <> vs_id s3 ->
     t1 < t2 -> t2 < t3 ->
     inFlight (run getHours newScheduler
                 [ OpSchedule t1 s1 m1 low c1; OpSchedule t2 s2 m2 high c2;
                   OpSchedule t3 s3 m3 normal c3; OpTick ])
     = Some [ newEntry t2 s2 m2 high; newEntry t3 s3 m3 normal; newEntry t1 s1 m1 low ]).
Proof.
  split; [apply step_ordered|]. split.
  - intros ops. apply run_ordered. constructor.
  - intros t1 t2 t3 s1 s2 s3 m1 m2 m3 c1 c2 c3 H12 H13 H23 _ _.
    unfold run. cbn [fold_left step]. unfold processQueue_begin.
    rewrite !scheduleAnalysis_isProcessing, !scheduleAnalysis_queue.
    cbn [newScheduler analysisQueue isProcessing List.filter app].
    assert (sortQueue [newEntry t1 s1 m1 low] = [newEntry t1 s1 m1 low]) as -> by done.
    cbn [List.filter]. rewrite (otherSession_ne (newEntry t1 s1 m1 low)) by done.
    assert (sortQueue ([newEntry t1 s1 m1 low] ++ [newEntry t2 s2 m2 high])
            = [newEntry t2 s2 m2 high; newEntry t1 s1 m1 low]) as -> by done.
    cbn [List.filter].
    rewrite (otherSession_ne (newEntry t2 s2 m2 high)) by done.
    rewrite (otherSession_ne (newEntry t1 s1 m1 low)) by done.
    assert (sortQueue ([newEntry t2 s2 m2 high; newEntry t1 s1 m1 low]
                       ++ [newEntry t3 s3 m3 normal])
            = [newEntry t2 s2 m2 high; newEntry t3 s3 m3 normal; newEntry t1 s1 m1 low])
      as -> by done.
    done.
Qed.

Lemma queue_ordered_by_priority_then_time_witness :
  StronglySorted queueOrder (analysisQueue (step utcHours newScheduler OpTick)) /\
  inFlight (run utcHours newScheduler
              [ OpSchedule 1000 (sessionNamed "a") (metricsOf (sessionNamed "a")) low None;
                OpSchedule 2000 (sessionNamed "b") (metricsOf (sessionNamed "b")) high None;
                OpSchedule 3000 (sessionNamed "c") (metricsOf (sessionNamed "c")) normal None;
                OpTick ])
  = Some [ newEntry 2000 (sessionNamed "b") (metricsOf (sessionNamed "b")) high;
           newEntry 3000 (sessionNamed "c") (metricsOf (sessionNamed "c")) normal;
           newEntry 1000 (sessionNamed "a") (metricsOf (sessionNamed "a")) low ].
Proof.
  split.
  - apply (proj1 (queue_ordered_by_priority_then_time utcHours) newScheduler OpTick).
    constructor.
  - apply (proj2 (proj2 (queue_ordered_by_priority_then_time utcHours))
             1000 2000 3000 (sessionNamed "a") (sessionNamed "b") (sessionNamed "c"));
      simpl; (discriminate || lia).
Defined.

(** ** Scheduler: one entry per session *)

Lemma sessionIds_sortQueue queue : sessionIds (sortQueue queue) ≡ₚ sessionIds queue.
Proof. unfold sessionIds, sortQueue. apply Permutation_map, js_sort_perm. Qed.

Lemma sessionIds_app q1 q2 : sessionIds (q1 ++ q2) = sessionIds q1 ++ sessionIds q2.
Proof. apply map_app. Qed.

Lemma sessionIds_filter_sublist f queue :
  sessionIds (List.filter f queue) `sublist_of` sessionIds queue.
Proof.
  induction queue as [|a queue IH]; simpl; [done|].
  destruct (f a); simpl; by constructor.
Qed.

Lemma sessionIds_filter_other sessionId queue :
  sessionId ∉ sessionIds (List.filter (otherSession sessionId) queue).
Proof.
  induction queue as [|a queue IH]; simpl; [by intros ?%elem_of_nil|].
  unfold otherSession at 1. destruct (String.eqb_spec (sa_sessionId a) sessionId); simpl.
  - done.
  - intros [?|?]%elem_of_cons; [congruence|done].
Qed.

Section SchedulerUnique.
Variable getHours : float -> float.

Lemma scheduleAnalysis_unique now session metrics priority callback st :
  oneEntryPerSession st ->
  vs_id session ∉ inFlightIds st ->
  oneEntryPerSession (scheduleAnalysis now session metrics priority callback st).
Proof.
  unfold oneEntryPerSession. intros Hst Hquiet.
  rewrite scheduleAnalysis_queue, sessionIds_sortQueue, sessionIds_app.
  change (inFlightIds (scheduleAnalysis now session metrics priority callback st))
    with (inFlightIds st).
  simpl. rewrite <- app_assoc. simpl.
  apply NoDup_app in Hst as (Hq & Hdisj & Hfl).
  pose proof (sessionIds_filter_sublist (otherSession (vs_id session)) (analysisQueue st))
    as Hsub.
  apply NoDup_app. split; [exact (sublist_NoDup _ _ Hq Hsub)|]. split.
  - intros x Hx [->|Hin]%elem_of_cons.
    + by apply sessionIds_filter_other in Hx.
    + eapply Hdisj; [|done]. exact (elem_of_sublist _ _ _ Hx Hsub).
  - by constructor.
Qed.

Lemma processQueue_begin_unique st :
  oneEntryPerSession st -> oneEntryPerSession (processQueue_begin st).
Proof.
  unfold oneEntryPerSession, processQueue_begin. intros Hst.
  destruct (isProcessing st || (length (analysisQueue st) =? 0)%nat); [done|].
  unfold inFlightIds; simpl. apply NoDup_app in Hst as (Hq & _ & _).
  rewrite Permutation_app_comm, <- sessionIds_app.
  unfold batchSize. by rewrite take_drop.
Qed.

(** While the results are handled, the queue and the part of the batch not
    yet handled belong to different sessions. *)
Lemma handleResults_unique clock batch results : forall index st,
  NoDup (sessionIds (analysisQueue st) ++ sessionIds (drop index batch)) ->
  NoDup (sessionIds (analysisQueue (handleResults getHours clock batch index results st))).
Proof.
  induction results as [|result results IH]; intros index st Hst; simpl.
  - by apply NoDup_app in Hst as (? & _ & _).
  - destruct (batch !! index) as [analysis|] eqn:Hlook.
    + apply IH. rewrite (drop_S _ _ _ Hlook) in Hst. simpl in Hst.
      assert (NoDup (sessionIds (analysisQueue st) ++ sessionIds (drop (S index) batch)))
        as Hrest.
      { rewrite <- Permutation_middle in Hst. by apply NoDup_cons in Hst as [_ ?]. }
      destruct result as [classification processingTime|error]; simpl.
      * by destruct (callbacks st !! sa_sessionId analysis).
      * unfold handleFailure.
        destruct (S (sa_retryCount analysis) <=? maxRetries)%nat; simpl.
        -- rewrite sessionIds_sortQueue, sessionIds_app. simpl.
           by rewrite <- app_assoc.
        -- by destruct (callbacks st !! sa_sessionId analysis).
    + by apply NoDup_app in Hst as (? & _ & _).
Qed.

Lemma processQueue_resume_unique replies clock st :
  oneEntryPerSession st -> oneEntryPerSession (processQueue_resume getHours replies clock st).
Proof.
  unfold oneEntryPerSession, processQueue_resume, inFlightIds. intros Hst.
  destruct (inFlight st) as [batch|] eqn:Hfl; simpl.
  - rewrite app_nil_r. by apply handleResults_unique.
  - by rewrite Hfl.
Qed.

Lemma step_unique st op :
  oneEntryPerSession st -> quiet st op -> oneEntryPerSession (step getHours st op).
Proof.
  intros Hst Hquiet.
  destruct op as [now session metrics priority callback| |replies clock|sessionId|];
    simpl in *.
  - by apply scheduleAnalysis_unique.
  - by apply processQueue_begin_unique.
  - by apply processQueue_resume_unique.
  - unfold oneEntryPerSession in *. simpl.
    change (inFlightIds (clearSessionAnalysis sessionId st)) with (inFlightIds st).
    eapply sublist_NoDup; [done|].
    apply sublist_app; [apply sessionIds_filter_sublist|done].
  - unfold oneEntryPerSession in *. simpl.
    change (inFlightIds (clearQueue st)) with (inFlightIds st).
    by apply NoDup_app in Hst as (_ & _ & ?).
Qed.

Lemma run_unique ops : forall st,
  oneEntryPerSession st -> quietRun getHours st ops ->
  oneEntryPerSession (run getHours st ops).
Proof.
  induction ops as [|op ops IH]; intros st Hst Hquiet; simpl; [done|].
  destruct Hquiet as [Hop Hops]. by apply IH; [apply step_unique|].
Qed.

End SchedulerUnique.

Section SchedulerCalls.
Variable getHours : float -> float.

Lemma quietRun_app ops1 ops2 : forall st,
  quietRun getHours st ops1 ->
  quietRun getHours (run getHours st ops1) ops2 ->
  quietRun getHours st (ops1 ++ ops2).
Proof.
  induction ops1 as [|op ops1 IH]; intros st H1 H2; simpl in *; [done|].
  destruct H1 as [Hop H1]. split; [done|]. by apply IH.
Qed.

Lemma run_app ops1 ops2 st :
  run getHours st (ops1 ++ ops2) = run getHours (run getHours st ops1) ops2.
Proof. apply fold_left_app. Qed.

Lemma call_quiet call st :
  inFlight st = None ->
  quietRun getHours st (callOps call) /\ inFlight (run getHours st (callOps call)) = None.
Proof.
  intros Hidle.
  destruct call as [now session metrics priority callback|replies clock|sessionId|]; simpl.
  - unfold inFlightIds. rewrite Hidle. split; [|done]. split; [|done]. by intros ?%elem_of_nil.
  - split; [done|]. unfold processQueue_resume.
    by destruct (inFlight (processQueue_begin st)) eqn:Hbegin.
  - done.
  - done.
Qed.

Lemma calls_quiet calls : forall st,
  inFlight st = None ->
  quietRun getHours st (flat_map callOps calls) /\
  inFlight (run getHours st (flat_map callOps calls)) = None.
Proof.
  induction calls as [|call calls IH]; intros st Hidle; simpl; [done|].
  destruct (call_quiet call st Hidle) as [Hq Hidle'].
  destruct (IH _ Hidle') as [Hqs Hidle''].
  rewrite run_app. split; [|done]. by apply quietRun_app.
Qed.

End SchedulerCalls.

Lemma scheduleAnalysis_replaces now session metrics priority callback st :
  List.filter (fun a => String.eqb (sa_sessionId a) (vs_id session))
    (analysisQueue (scheduleAnalysis now session metrics priority callback st))
  = [newEntry now session metrics priority].
Proof.
  rewrite scheduleAnalysis_queue. apply Permutation_singleton_r.
  unfold sortQueue. rewrite (filter_perm _ _ _ (js_sort_perm _ _)).
  rewrite List.filter_app. simpl. rewrite String.eqb_refl.
  assert (List.filter (fun a => String.eqb (sa_sessionId a) (vs_id session))
            (List.filter (otherSession (vs_id session)) (analysisQueue st)) = []) as ->; [|done].
  induction (analysisQueue st) as [|a queue IH]; simpl; [done|].
  unfold otherSession at 1.
  destruct (String.eqb (sa_sessionId a) (vs_id session)) eqn:Ha; simpl; [done|].
  by rewrite Ha.
Qed.

(** C2, as the code has it.  The queue holds at most one entry per session
    in every state reached by operations among which no [scheduleAnalysis]
    for a session of the batch being classified falls between the start of
    a [processQueue] and its end; in particular in every state reached by
    calls of which each [processQueue] has ended before the next call.
    [scheduleAnalysis] leaves exactly one entry for its session in the
    queue, the new one. *)
Theorem one_queue_entry_per_session getHours :
  (forall ops,
     quietRun getHours newScheduler ops ->
     NoDup (sessionIds (analysisQueue (run getHours newScheduler ops)))) /\
  (forall calls,
     NoDup (sessionIds (analysisQueue
                          (run getHours newScheduler (flat_map callOps calls))))) /\
  (forall now session metrics priority callback st,
     List.filter (fun a => String.eqb (sa_sessionId a) (vs_id session))
       (analysisQueue (scheduleAnalysis now session metrics priority callback st))
     = [newEntry now session metrics priority]).
Proof.
  assert (forall ops,
            quietRun getHours newScheduler ops ->
            NoDup (sessionIds (analysisQueue (run getHours newScheduler ops)))) as Hquiet.
  { intros ops Hops.
    assert (oneEntryPerSession (run getHours newScheduler ops)) as Hinv.
    { apply run_unique; [|done]. unfold oneEntryPerSession. simpl. constructor. }
    unfold oneEntryPerSession in Hinv. by apply NoDup_app in Hinv as (? & _ & _). }
  split; [done|]. split.
  - intros calls. apply Hquiet. by apply calls_quiet.
  - apply scheduleAnalysis_replaces.
Qed.

Lemma one_queue_entry_per_session_witness :
  NoDup (sessionIds (analysisQueue
    (run utcHours newScheduler
       [ OpSchedule 1000 (sessionNamed "a") (metricsOf (sessionNamed "a")) normal (Some 1%nat);
         OpTick;
         OpSchedule 1500 (sessionNamed "b") (metricsOf (sessionNamed "b")) high (Some 2%nat);
         OpSettle (allFail "Model not loaded") (fun _ => 2000) ]))).
Proof.
  apply (proj1 (one_queue_entry_per_session utcHours)).
  simpl. repeat split; unfold inFlightIds; simpl; intros H;
    repeat (apply elem_of_cons in H as [H|H]; [discriminate|]);
    by apply elem_of_nil in H.
Defined.

(** C2 as stated fails: a session is scheduled again while its entry is
    being classified, the classification fails, and the retry puts the old
    entry back next to the new one. *)
Lemma retry_duplicates_session_counterexample :
  sessionIds (analysisQueue
    (run utcHours newScheduler
       [ OpSchedule 1000 (sessionNamed "a") (metricsOf (sessionNamed "a")) normal (Some 1%nat);
         OpTick;
         OpSchedule 1500 (sessionNamed "a") (metricsOf (sessionNamed "a")) normal (Some 2%nat);
         OpSettle (allFail "Model not loaded") (fun _ => 2000) ]))
  = ["a"; "a"]
  /\ ~ NoDup (sessionIds (analysisQueue
    (run utcHours newScheduler
       [ OpSchedule 1000 (sessionNamed "a") (metricsOf (sessionNamed "a")) normal (Some 1%nat);
         OpTick;
         OpSchedule 1500 (sessionNamed "a") (metricsOf (sessionNamed "a")) normal (Some 2%nat);
         OpSettle (allFail "Model not loaded") (fun _ => 2000) ]))).
Proof.
  assert (sessionIds (analysisQueue
    (run utcHours newScheduler
       [ OpSchedule 1000 (sessionNamed "a") (metricsOf (sessionNamed "a")) normal (Some 1%nat);
         OpTick;
         OpSchedule 1500 (sessionNamed "a") (metricsOf (sessionNamed "a")) normal (Some 2%nat);
         OpSettle (allFail "Model not loaded") (fun _ => 2000) ]))
    = ["a"; "a"]) as Hids by (vm_compute; reflexivity).
  split; [done|]. rewrite Hids. intros [Hnotin _]%NoDup_cons. apply Hnotin. by left.
Qed.

(** ** Scheduler: retries *)


Section SchedulerRetry.
Variable getHours : float -> float.


Lemma handleFailure_exhausted now analysis error st :
  (3 < S (sa_retryCount analysis))%nat ->
  handleFailure getHours now analysis error st
  = match callbacks st !! sa_sessionId analysis with
    | Some callback =>
        {| analysisQueue := analysisQueue st;
           isProcessing := isProcessing st;
           callbacks := delete (sa_sessionId analysis) (callbacks st);
           inFlight := inFlight st;
           delivered := delivered st ++ [(callback, failedResult getHours analysis error)] |}
    | None => st
    end.
Proof.
  intros Hlt. unfold handleFailure, maxRetries.
  by rewrite (proj2 (Nat.leb_gt _ _) Hlt).
Qed.

(** A failing tick on a queue of one entry. *)
Lemma failingTick_single message clock analysis cbs log :
  run getHours
    {| analysisQueue := [analysis]; isProcessing := false; callbacks := cbs;
       inFlight := None; delivered := log |}
    (failingTick message clock)
  = let st' :=
      handleFailure getHours (clock 0%nat) analysis (Some message)
        {| analysisQueue := []; isProcessing := true; callbacks := cbs;
           inFlight := Some [analysis]; delivered := log |} in
    {| analysisQueue := analysisQueue st'; isProcessing := false;
       callbacks := callbacks st'; inFlight := None; delivered := delivered st' |}.
Proof. reflexivity. Qed.



Lemma failingTick_exhausted_silent message clock analysis cbs log :
  (3 < S (sa_retryCount analysis))%nat ->
  cbs !! sa_sessionId analysis = None ->
  run getHours
    {| analysisQueue := [analysis]; isProcessing := false; callbacks := cbs;
       inFlight := None; delivered := log |}
    (failingTick message clock)
  = {| analysisQueue := []; isProcessing := false; callbacks := cbs; inFlight := None;
       delivered := log |}.
Proof.
  intros Hlt Hcb. rewrite failingTick_single. rewrite handleFailure_exhausted by done.
  simpl. by rewrite Hcb.
Qed.


End SchedulerRetry.



(** ** Metrics engine: defaults and guarded metrics *)

Lemma finite_not_nan x : isFinite x = true -> PrimFloat.is_nan x = false.
Proof.
  unfold isFinite, is_finite. destruct (PrimFloat.is_nan x); [done|done].
Qed.

Lemma Math_max_0_finite x : isFinite x = true -> isFinite (Math_max 0 x) = true.
Proof.
  intros Hx. unfold Math_max. rewrite (finite_not_nan _ Hx).
  change (PrimFloat.is_nan 0) with false. change (is_neg_zero 0) with false. simpl.
  destruct (PrimFloat.ltb 0 x); [done|]. by destruct (PrimFloat.ltb x 0).
Qed.

Lemma Math_min_1_finite x : isFinite x = true -> isFinite (Math_min 1 x) = true.
Proof.
  intros Hx. unfold Math_min. rewrite (finite_not_nan _ Hx).
  change (PrimFloat.is_nan 1) with false. change (is_neg_zero 1) with false. simpl.
  destruct (PrimFloat.ltb 1 x); [done|]. by destruct (PrimFloat.ltb x 1).
Qed.

Lemma clamp01_finite x : isFinite x = true -> isFinite (clamp01 x) = true.
Proof. intros Hx. by apply Math_max_0_finite, Math_min_1_finite. Qed.

Lemma guarded_finite (x : float) (f : float -> float) :
  (isFinite x = true -> isFinite (f x) = true) ->
  isFinite (if isFinite x then f x else 0%float) = true.
Proof. intros Hf. destruct (isFinite x) eqn:Hx; [by apply Hf|done]. Qed.

Section MetricsGuards.
Variable getHours : float -> float.
Variable Math_pow : float -> float -> float.

Lemma calculateDopamineSpikeIndex_finite interactions :
  isFinite (calculateDopamineSpikeIndex interactions) = true.
Proof.
  unfold calculateDopamineSpikeIndex.
  repeat match goal with |- context [if ?b then 0%float else _] => destruct b; [done|] end.
  apply (guarded_finite _ (Math_max 0)), Math_max_0_finite.
Qed.

Lemma calculateAttentionSpan_finite interactions :
  isFinite (calculateAttentionSpan interactions) = true.
Proof.
  unfold calculateAttentionSpan.
  destruct (length interactions =? 0)%nat; [done|].
  destruct (List.filter positiveFinite _) as [|first rest]; [done|].
  destruct (ewma_loop _ _ _); [|done].
  apply (guarded_finite _ (Math_max 0)), Math_max_0_finite.
Qed.

Lemma calculateScrollMomentum_finite interactions :
  isFinite (calculateScrollMomentum interactions) = true.
Proof.
  unfold calculateScrollMomentum.
  destruct (length (extractDwellTimes interactions) =? 0)%nat; [done|].
  apply (guarded_finite _ clamp01), clamp01_finite.
Qed.

Lemma calculateRewardVariability_finite dwellTimes :
  isFinite (calculateRewardVariability Math_pow dwellTimes) = true.
Proof.
  unfold calculateRewardVariability.
  destruct (length dwellTimes <? 2)%nat; [done|].
  by apply (guarded_finite _ (fun x => x)).
Qed.

Lemma calculateCognitiveLoad_finite interactions :
  isFinite (calculateCognitiveLoad interactions) = true.
Proof.
  unfold calculateCognitiveLoad.
  destruct (length interactions =? 0)%nat; [done|].
  apply (guarded_finite _ clamp01), clamp01_finite.
Qed.

Lemma calculateHabitStrength_finite interactions :
  isFinite (calculateHabitStrength Math_pow interactions) = true.
Proof.
  unfold calculateHabitStrength.
  destruct (length (extractDwellTimes interactions) <? 3)%nat; [done|].
  destruct (PrimFloat.eqb _ 0); [done|].
  apply (guarded_finite _ (Math_min 1)), Math_min_1_finite.
Qed.

Lemma calculateNoveltyBias_finite interactions :
  isFinite (calculateNoveltyBias interactions) = true.
Proof.
  unfold calculateNoveltyBias.
  destruct (length (List.filter isEnter interactions) =? 0)%nat; [done|].
  apply (guarded_finite _ clamp01), clamp01_finite.
Qed.

End MetricsGuards.

Lemma analyzeSessionHealth_empty metrics :
  cm_attentionSpan metrics = 0%float ->
  cm_dopamineSpikeIndex metrics = 0%float ->
  cm_replaySensitivity metrics = 0%nat ->
  analyzeSessionHealth metrics
  = emptySessionHealth (cm_sessionLength metrics) (cm_circadianDrift metrics).
Proof.
  intros Ha Hd Hr. unfold analyzeSessionHealth, emptySessionHealth, gtb.
  rewrite Ha, Hd, Hr.
  change (PrimFloat.ltb 10 0) with false. change (PrimFloat.ltb 0 2) with true.
  change (PrimFloat.ltb 0 5) with true. change (PrimFloat.ltb 5 0) with false.
  by destruct (PrimFloat.ltb (cm_sessionLength metrics) 60),
    (cm_circadianDrift metrics), (PrimFloat.ltb 120 (cm_sessionLength metrics)).
Qed.

Section MetricsDefaults.
Variable getHours : float -> float.
Variable Math_pow : float -> float -> float.

Lemma Exists_weaken {A} (P Q : A -> Prop) l :
  (forall x, P x -> Q x) -> Exists P l -> Exists Q l.
Proof. intros HPQ H. by eapply Exists_impl. Qed.

Lemma filterOrThrow_None {A} (test : A -> option bool) l :
  filterOrThrow test l = None <-> Exists (fun x => test x = None) l.
Proof.
  induction l as [|x l IH]; simpl.
  - split; [done|]. by intros H%Exists_nil.
  - rewrite Exists_cons. destruct (test x) as [keep|].
    + destruct (filterOrThrow test l) as [kept|].
      * split; [done|]. intros [?|H]; [done|]. by apply IH in H.
      * split; [|done]. intros _. right. by apply IH.
    + split; [|done]. intros _. by left.
Qed.

Lemma leaveWithDwell_None element :
  leaveWithDwell element = None <-> malformedElement element.
Proof.
  destruct element as [|id videoId sessionId timestamp action metadata]; simpl; [done|].
  destruct action, metadata; simpl; split; try done; by intros [? ?].
Qed.

Lemma actionIs_None a element :
  actionIs a element = None -> malformedElement element.
Proof. by destruct element. Qed.

Lemma typedInteraction_None element :
  typedInteraction element = None -> malformedElement element.
Proof. by destruct element. Qed.

Lemma computeMetrics_try_untyped clock s :
  computeMetrics_try getHours Math_pow clock (SessionUntyped s) = None
  <-> Exists malformedElement (so_interactions s).
Proof.
  assert (filterOrThrow leaveWithDwell (so_interactions s) = None
          <-> Exists malformedElement (so_interactions s)) as Hleave.
  { rewrite filterOrThrow_None. split; apply Exists_weaken; intros element;
      apply leaveWithDwell_None. }
  simpl.
  destruct (filterOrThrow (actionIs enter) (so_interactions s)) as [entered|] eqn:Henter.
  - destruct (filterOrThrow leaveWithDwell (so_interactions s)) as [left|] eqn:Hleft;
      [|split; [intros _; by apply Hleave|done]].
    destruct (mapM typedInteraction (so_interactions s)) as [interactions|] eqn:Htyped.
    + split; [done|]. intros Hex. apply Hleave in Hex. congruence.
    + split; [|done]. intros _. apply mapM_None in Htyped.
      revert Htyped. apply Exists_weaken. intros element. apply typedInteraction_None.
  - split; [|done]. intros _. apply filterOrThrow_None in Henter.
    revert Henter. apply Exists_weaken. intros element. apply actionIs_None.
Qed.

Lemma computeMetrics_try_malformed clock arg :
  computeMetrics_try getHours Math_pow clock arg = None <-> malformed arg.
Proof.
  destruct arg as [| |session|s]; try done. apply computeMetrics_try_untyped.
Qed.

(** The result of [computeMetrics] is the object of its [catch] block, or
    what the [try] block computes for a session of the declared type. *)
Lemma computeMetrics_cases clock arg :
  (computeMetrics_try getHours Math_pow clock arg = None /\
   computeMetrics getHours Math_pow clock arg = safeDefaultMetrics (clk_stamp clock)) \/
  (exists session,
     computeMetrics_try getHours Math_pow clock arg
       = Some (computeMetrics_record getHours Math_pow clock session) /\
     computeMetrics getHours Math_pow clock arg
       = computeMetrics_record getHours Math_pow clock session).
Proof.
  unfold computeMetrics. destruct arg as [| |session|s]; simpl; eauto.
  destruct (filterOrThrow (actionIs enter) (so_interactions s)); [|by left].
  destruct (filterOrThrow leaveWithDwell (so_interactions s)); [|by left].
  destruct (mapM typedInteraction (so_interactions s)); [|by left]. eauto.
Qed.

Lemma computeMetrics_asObject clock session :
  computeMetrics getHours Math_pow clock (SessionUntyped (asObject session))
  = computeMetrics getHours Math_pow clock (SessionRecord session).
Proof.
  assert (forall (test : InteractionArg -> option bool) l,
            (forall i, is_Some (test (asElement i))) ->
            is_Some (filterOrThrow test (map asElement l))) as Hfilter.
  { intros test l Htest. induction l as [|i l [kept IH]]; simpl; [eauto|].
    destruct (Htest i) as [keep ->]. rewrite IH. eauto. }
  assert (forall l, mapM typedInteraction (map asElement l) = Some l) as Htyped.
  { induction l as [|i l IH]; [done|]. cbn. rewrite IH. by destruct i. }
  unfold computeMetrics. simpl.
  destruct (Hfilter (actionIs enter) (vs_interactions session)) as [entered ->];
    [by eauto|].
  destruct (Hfilter leaveWithDwell (vs_interactions session)) as [left ->].
  { intros i. unfold asElement. simpl. destruct (Action_eqb (vi_action i) leave); eauto. }
  rewrite Htyped. by destruct session.
Qed.

End MetricsDefaults.

Lemma confidence_not_zero : 0.8%float <> 0%float.
Proof. intros H. apply (f_equal PrimFloat.is_zero) in H. vm_compute in H. discriminate. Qed.

(** C1, as the code has it.  [computeMetrics] returns a metrics object for
    every argument.  Its [try] block throws, and the result is the all-zero
    object with health classification unknown, exactly for a null or
    undefined session, for a session whose [interactions] is not an array,
    and for a session whose array holds a null or undefined element or a
    [leave] without metadata.  A typed session gives the same result whether
    seen as a record or as an untyped object.  For a session with an empty
    interaction list the result is not the all-zero object: the metrics
    derived from interactions are 0 or empty and the archetype is unknown,
    but the session length and the circadian drift are computed from the
    session's times, the confidence is 0.8, and the health classification is
    that of the rule table: healthy when the session is shorter than 60
    minutes or shows no circadian drift, else doomscroll when it is longer
    than 120 minutes, else unknown.  Whatever the argument and whatever
    numbers it holds, the guarded metrics are finite numbers. *)
Theorem computeMetrics_defaults getHours Math_pow clock :
  (forall arg,
     (computeMetrics_try getHours Math_pow clock arg = None <-> malformed arg) /\
     (computeMetrics getHours Math_pow clock arg = allZeroMetrics (clk_stamp clock)
      <-> malformed arg)) /\
  (forall session,
     computeMetrics getHours Math_pow clock (SessionUntyped (asObject session))
     = computeMetrics getHours Math_pow clock (SessionRecord session)) /\
  (forall session,
     vs_interactions session = [] ->
     let sessionLength := calculateSessionLength (clk_length clock) session in
     let circadianDrift :=
       detectCircadianDrift getHours (vs_startTime session) sessionLength in
     computeMetrics getHours Math_pow clock (SessionRecord session)
     = {| cm_dopamineSpikeIndex := 0;
          cm_attentionSpan := 0;
          cm_replaySensitivity := 0;
          cm_sessionLength := sessionLength;
          cm_fatiguePoints := [];
          cm_circadianDrift := circadianDrift;
          cm_healthClassification := emptySessionHealth sessionLength circadianDrift;
          cm_confidence := 0.8;
          cm_timestamp := clk_stamp clock;
          cm_scrollMomentum := 0;
          cm_rewardVariability := 0;
          cm_bingeBursts := [];
          cm_engagementHalfLife := 0;
          cm_cognitiveLoad := 0;
          cm_habitStrength := 0;
          cm_noveltyBias := 0;
          cm_sessionArchetype := unknown_archetype |}) /\
  (forall arg,
     let metrics := computeMetrics getHours Math_pow clock arg in
     isFinite (cm_dopamineSpikeIndex metrics) = true /\
     isFinite (cm_attentionSpan metrics) = true /\
     isFinite (cm_scrollMomentum metrics) = true /\
     isFinite (cm_rewardVariability metrics) = true /\
     isFinite (cm_cognitiveLoad metrics) = true /\
     isFinite (cm_habitStrength metrics) = true /\
     isFinite (cm_noveltyBias metrics) = true).
Proof.
  split; [|split; [apply computeMetrics_asObject|split]].
  - intros arg. split; [apply computeMetrics_try_malformed|].
    rewrite <- (computeMetrics_try_malformed getHours Math_pow clock arg).
    destruct (computeMetrics_cases getHours Math_pow clock arg)
      as [[Htry ->]|(session & Htry & ->)].
    + done.
    + rewrite Htry. split; [|done]. intros Hzero.
      apply (f_equal cm_confidence) in Hzero. by apply confidence_not_zero in Hzero.
  - intros session Hempty sessionLength circadianDrift.
    unfold computeMetrics, computeMetrics_try, computeMetrics_record. rewrite Hempty.
    fold sessionLength. fold circadianDrift.
    change (calculateDopamineSpikeIndex []) with 0%float.
    change (calculateAttentionSpan []) with 0%float.
    change (calculateReplaySensitivity []) with 0%nat.
    change (generateFatiguePoints []) with (@nil FatiguePoint).
    change (calculateScrollMomentum []) with 0%float.
    change (calculateRewardVariability Math_pow (extractDwellTimes [])) with 0%float.
    change (detectBingeBursts []) with (@nil BingeBurst).
    change (calculateEngagementHalfLife []) with 0%nat.
    change (calculateCognitiveLoad []) with 0%float.
    change (calculateHabitStrength Math_pow []) with 0%float.
    change (calculateNoveltyBias []) with 0%float.
    rewrite analyzeSessionHealth_empty by done.
    unfold withArchetype, withHealth, classifySessionArchetype. simpl.
    change (PrimFloat.eqb 0 0) with true. by rewrite orb_true_r.
  - intros arg.
    destruct (computeMetrics_cases getHours Math_pow clock arg)
      as [[_ ->]|(session & _ & ->)]; simpl.
    + by repeat split.
    + repeat split;
        auto using calculateDopamineSpikeIndex_finite, calculateAttentionSpan_finite,
          calculateScrollMomentum_finite, calculateRewardVariability_finite,
          calculateCognitiveLoad_finite, calculateHabitStrength_finite,
          calculateNoveltyBias_finite.
Qed.

Lemma computeMetrics_defaults_witness :
  computeMetrics utcHours pow_square sampleClock (SessionUntyped sessionWithNull)
    = allZeroMetrics (clk_stamp sampleClock) /\
  computeMetrics utcHours pow_square sampleClock (SessionUntyped sessionWithBareLeave)
    = allZeroMetrics (clk_stamp sampleClock).
Proof.
  split.
  - apply (proj2 (proj2 (proj1 (computeMetrics_defaults utcHours pow_square sampleClock)
                           (SessionUntyped sessionWithNull)))).
    simpl. apply Exists_cons_tl, Exists_cons_hd. exact I.
  - apply (proj2 (proj2 (proj1 (computeMetrics_defaults utcHours pow_square sampleClock)
                           (SessionUntyped sessionWithBareLeave)))).
    simpl. apply Exists_cons_tl, Exists_cons_hd. split; reflexivity.
Defined.

(** C1 as stated fails twice.  A one-minute afternoon session with an empty
    interaction list is classified healthy with confidence 0.8 and session
    length 1; a session whose start time is NaN and whose end time and dwell
    time are infinite is classified healthy with confidence 0.8 and a session
    length that is NaN.  Neither result is the all-zero object. *)
Lemma empty_or_nonfinite_session_not_default_counterexample :
  let empty :=
    computeMetrics utcHours pow_square sampleClock (SessionRecord emptySession) in
  let nonFinite :=
    computeMetrics utcHours pow_square sampleClock (SessionRecord nonFiniteSession) in
  (vs_interactions emptySession = [] /\
   cm_healthClassification empty = healthy /\
   cm_healthClassification empty <> unknown /\
   cm_sessionLength empty = 1%float /\
   empty <> allZeroMetrics (clk_stamp sampleClock)) /\
  (isFinite (vs_startTime nonFiniteSession) = false /\
   cm_healthClassification nonFinite = healthy /\
   cm_healthClassification nonFinite <> unknown /\
   cm_confidence nonFinite = 0.8%float /\
   PrimFloat.is_nan (cm_sessionLength nonFinite) = true /\
   nonFinite <> allZeroMetrics (clk_stamp sampleClock)).
Proof.
  vm_compute. repeat split; try discriminate.
Qed.

(** * Further properties of the code *)

(** ** Order of binary64 numbers *)

Ltac sf_cases :=
  repeat match goal with s : bool |- _ => destruct s end;
  simpl in *; try congruence;
  repeat match goal with
  | |- context [Pos.compare_cont Eq ?a ?b] =>
      change (Pos.compare_cont Eq a b) with (Pos.compare a b)
  | H : context [Pos.compare_cont Eq ?a ?b] |- _ =>
      change (Pos.compare_cont Eq a b) with (Pos.compare a b) in H
  end;
  repeat match goal with
  | |- context [Z.compare ?a ?b] => destruct (Z.compare_spec a b)
  | H : context [Z.compare ?a ?b] |- _ => destruct (Z.compare_spec a b)
  end;
  simpl in *; try congruence; try lia;
  repeat match goal with
  | |- context [Pos.compare ?a ?b] => destruct (Pos.compare_spec a b)
  | H : context [Pos.compare ?a ?b] |- _ => destruct (Pos.compare_spec a b)
  end;
  simpl in *; try congruence; try lia.

Lemma SFcompare_le_lt c x y z :
  SFcompare x y = Some c -> c = Lt \/ c = Eq ->
  SFcompare y z = Some Lt -> SFcompare x z = Some Lt.
Proof.
  intros Hxy Hc Hyz.
  destruct x as [sx|sx| |sx mx ex], y as [sy|sy| |sy my ey], z as [sz|sz| |sz mz ez];
    simpl in *; try congruence; destruct Hc; subst c; sf_cases.
Qed.

Lemma SFcompare_antisym x y : SFcompare y x = option_map CompOpp (SFcompare x y).
Proof.
  destruct x as [sx|sx| |sx mx ex], y as [sy|sy| |sy my ey]; simpl; try reflexivity;
    sf_cases.
Qed.

Lemma SFcompare_nan x y :
  SFcompare x y = None -> x = S754_nan \/ y = S754_nan.
Proof. destruct x, y; simpl; try discriminate; auto. Qed.

Lemma float_lt_le x y : PrimFloat.ltb x y = true -> PrimFloat.leb x y = true.
Proof.
  rewrite FloatAxioms.ltb_spec, FloatAxioms.leb_spec. unfold SFltb, SFleb.
  by destruct (SFcompare _ _) as [[]|].
Qed.

Lemma float_le_not_lt x y : PrimFloat.leb x y = true -> PrimFloat.ltb y x = false.
Proof.
  rewrite FloatAxioms.ltb_spec, FloatAxioms.leb_spec. unfold SFltb, SFleb.
  rewrite (SFcompare_antisym (Prim2SF x) (Prim2SF y)).
  by destruct (SFcompare _ _) as [[]|].
Qed.

Lemma float_lt_not_lt x y : PrimFloat.ltb x y = true -> PrimFloat.ltb y x = false.
Proof. intros H. by apply float_le_not_lt, float_lt_le. Qed.

Lemma float_le_lt_trans x y z :
  PrimFloat.leb x y = true -> PrimFloat.ltb y z = true -> PrimFloat.ltb x z = true.
Proof.
  rewrite !FloatAxioms.ltb_spec, FloatAxioms.leb_spec. unfold SFltb, SFleb.
  destruct (SFcompare (Prim2SF x) (Prim2SF y)) as [c|] eqn:Hxy; [|done].
  destruct (SFcompare (Prim2SF y) (Prim2SF z)) as [[]|] eqn:Hyz; try done.
  intros Hc _. rewrite (SFcompare_le_lt c _ _ _ Hxy); [done| |done].
  destruct c; auto; done.
Qed.

Lemma float_lt_trans x y z :
  PrimFloat.ltb x y = true -> PrimFloat.ltb y z = true -> PrimFloat.ltb x z = true.
Proof. intros Hxy. by apply float_le_lt_trans, float_lt_le. Qed.

Lemma float_not_nan x : PrimFloat.is_nan x = false -> Prim2SF x <> S754_nan.
Proof.
  unfold PrimFloat.is_nan. rewrite FloatAxioms.eqb_spec. intros Heq Hnan.
  rewrite Hnan in Heq. done.
Qed.

Lemma float_not_lt_ge x y :
  PrimFloat.is_nan x = false -> PrimFloat.is_nan y = false ->
  PrimFloat.ltb x y = false -> PrimFloat.leb y x = true.
Proof.
  intros Hx%float_not_nan Hy%float_not_nan.
  rewrite FloatAxioms.ltb_spec, FloatAxioms.leb_spec. unfold SFltb, SFleb.
  rewrite (SFcompare_antisym (Prim2SF x) (Prim2SF y)).
  destruct (SFcompare (Prim2SF x) (Prim2SF y)) as [[]|] eqn:Hc; try done.
  by apply SFcompare_nan in Hc as [?|?].
Qed.

(** ** Metrics engine: ranges *)

Lemma isFinite_not_nan x : isFinite x = true -> PrimFloat.is_nan x = false.
Proof. unfold isFinite, is_finite. by destruct (PrimFloat.is_nan x). Qed.

Lemma Math_max_0_nonneg x :
  PrimFloat.is_nan x = false -> PrimFloat.leb 0 (Math_max 0 x) = true.
Proof.
  intros Hx. unfold Math_max. rewrite Hx.
  change (PrimFloat.is_nan 0) with false. change (is_neg_zero 0) with false. simpl.
  destruct (PrimFloat.ltb 0 x) eqn:Hpos; [by apply float_lt_le|].
  by destruct (PrimFloat.ltb x 0).
Qed.

Lemma Math_max_0_le_1 x :
  PrimFloat.is_nan x = false -> PrimFloat.leb x 1 = true ->
  PrimFloat.leb (Math_max 0 x) 1 = true.
Proof.
  intros Hx Hle. unfold Math_max. rewrite Hx.
  change (PrimFloat.is_nan 0) with false. change (is_neg_zero 0) with false. simpl.
  destruct (PrimFloat.ltb 0 x); [done|]. by destruct (PrimFloat.ltb x 0).
Qed.

Lemma Math_min_1_cases x :
  PrimFloat.is_nan x = false -> Math_min 1 x = 1%float \/ Math_min 1 x = x.
Proof.
  intros Hx. unfold Math_min. rewrite Hx.
  change (PrimFloat.is_nan 1) with false. change (is_neg_zero 1) with false. simpl.
  destruct (PrimFloat.ltb 1 x); [by left|].
  destruct (PrimFloat.ltb x 1); auto.
Qed.

Lemma Math_min_1_le_1 x :
  PrimFloat.is_nan x = false -> PrimFloat.leb (Math_min 1 x) 1 = true.
Proof.
  intros Hx. unfold Math_min. rewrite Hx.
  change (PrimFloat.is_nan 1) with false. change (is_neg_zero 1) with false. simpl.
  destruct (PrimFloat.ltb 1 x) eqn:Hgt; [done|].
  assert (PrimFloat.leb x 1 = true) by (by apply float_not_lt_ge).
  by destruct (PrimFloat.ltb x 1).
Qed.

Lemma clamp01_range x :
  isFinite x = true ->
  PrimFloat.leb 0 (clamp01 x) = true /\ PrimFloat.leb (clamp01 x) 1 = true.
Proof.
  intros Hx%isFinite_not_nan. unfold clamp01.
  assert (PrimFloat.is_nan (Math_min 1 x) = false) as Hmin.
  { by destruct (Math_min_1_cases x Hx) as [-> | ->]. }
  split; [by apply Math_max_0_nonneg|].
  by apply Math_max_0_le_1, Math_min_1_le_1.
Qed.

Lemma guarded_clamp01_unit x : inUnit (if isFinite x then clamp01 x else 0%float).
Proof. destruct (isFinite x) eqn:Hx; [by apply clamp01_range|done]. Qed.

Lemma guarded_max_nonneg x :
  PrimFloat.leb 0 (if isFinite x then Math_max 0 x else 0%float) = true.
Proof.
  destruct (isFinite x) eqn:Hx; [|done]. by apply Math_max_0_nonneg, isFinite_not_nan.
Qed.

Section MetricsRanges.
Variable getHours : float -> float.
Variable Math_pow : float -> float -> float.

Lemma calculateScrollMomentum_unit interactions :
  inUnit (calculateScrollMomentum interactions).
Proof.
  unfold calculateScrollMomentum.
  destruct (length (extractDwellTimes interactions) =? 0)%nat; [done|].
  apply guarded_clamp01_unit.
Qed.

Lemma calculateCognitiveLoad_unit interactions :
  inUnit (calculateCognitiveLoad interactions).
Proof.
  unfold calculateCognitiveLoad.
  destruct (length interactions =? 0)%nat; [done|]. apply guarded_clamp01_unit.
Qed.

Lemma calculateNoveltyBias_unit interactions :
  inUnit (calculateNoveltyBias interactions).
Proof.
  unfold calculateNoveltyBias.
  destruct (length (List.filter isEnter interactions) =? 0)%nat; [done|].
  apply guarded_clamp01_unit.
Qed.

Lemma calculateHabitStrength_unit interactions :
  inUnit (calculateHabitStrength Math_pow interactions).
Proof.
  unfold calculateHabitStrength.
  destruct (length (extractDwellTimes interactions) <? 3)%nat; [done|].
  destruct (PrimFloat.eqb _ 0); [done|].
  match goal with |- inUnit (if isFinite (Math_max 0 ?z) then _ else _) =>
    set (spread := z) end.
  destruct (isFinite (Math_max 0 spread)) eqn:Hfin; [|done].
  assert (PrimFloat.is_nan spread = false) as Hnan.
  { destruct (PrimFloat.is_nan spread) eqn:Hs; [|done].
    unfold Math_max in Hfin. rewrite Hs, orb_true_r in Hfin. done. }
  pose proof (Math_max_0_nonneg spread Hnan) as Hpos.
  apply isFinite_not_nan in Hfin.
  split; [|by apply Math_min_1_le_1].
  by destruct (Math_min_1_cases _ Hfin) as [-> | ->].
Qed.

Lemma calculateDopamineSpikeIndex_nonneg interactions :
  PrimFloat.leb 0 (calculateDopamineSpikeIndex interactions) = true.
Proof.
  unfold calculateDopamineSpikeIndex.
  repeat match goal with |- context [if ?b then 0%float else _] => destruct b; [done|] end.
  apply guarded_max_nonneg.
Qed.

Lemma calculateAttentionSpan_nonneg interactions :
  PrimFloat.leb 0 (calculateAttentionSpan interactions) = true.
Proof.
  unfold calculateAttentionSpan.
  destruct (length interactions =? 0)%nat; [done|].
  destruct (List.filter positiveFinite _) as [|first rest]; [done|].
  destruct (ewma_loop _ _ _); [|done]. apply guarded_max_nonneg.
Qed.

(** X1.  Whatever is passed to [computeMetrics], scroll momentum, cognitive
    load, habit strength and novelty bias lie between 0 and 1, and the
    dopamine spike index and the attention span are not negative. *)
Theorem computeMetrics_ranges clock arg :
  let metrics := computeMetrics getHours Math_pow clock arg in
  inUnit (cm_scrollMomentum metrics) /\
  inUnit (cm_cognitiveLoad metrics) /\
  inUnit (cm_habitStrength metrics) /\
  inUnit (cm_noveltyBias metrics) /\
  PrimFloat.leb 0 (cm_dopamineSpikeIndex metrics) = true /\
  PrimFloat.leb 0 (cm_attentionSpan metrics) = true.
Proof.
  intros metrics. subst metrics.
  destruct (computeMetrics_cases getHours Math_pow clock arg)
    as [[_ ->]|(session & _ & ->)]; simpl; [by repeat split|].
  repeat split;
    first [ apply calculateScrollMomentum_unit | apply calculateCognitiveLoad_unit
          | apply calculateHabitStrength_unit | apply calculateNoveltyBias_unit
          | apply calculateDopamineSpikeIndex_nonneg | apply calculateAttentionSpan_nonneg ].
Qed.

End MetricsRanges.

(** ** Metrics engine: health rule table *)

(** Two numbers [lo < hi]: nothing is below [lo] and above [hi]. *)
Lemma float_gap lo hi x :
  PrimFloat.ltb hi lo = false ->
  PrimFloat.ltb x lo = true -> PrimFloat.ltb hi x = true -> False.
Proof.
  intros Hgap Hlow Hhigh.
  by rewrite (float_lt_trans hi x lo Hhigh Hlow) in Hgap.
Qed.

Lemma indicators_exclusive metrics :
  (healthyIndicators metrics + doomscrollIndicators metrics <= 5)%nat.
Proof.
  unfold healthyIndicators, doomscrollIndicators, gtb.
  destruct (PrimFloat.ltb 10 (cm_attentionSpan metrics)) eqn:Ha1,
    (PrimFloat.ltb (cm_attentionSpan metrics) 5) eqn:Ha2;
    try (exfalso; by apply (float_gap 5 10 (cm_attentionSpan metrics))).
  all: destruct (PrimFloat.ltb (cm_dopamineSpikeIndex metrics) 2) eqn:Hd1,
    (PrimFloat.ltb 5 (cm_dopamineSpikeIndex metrics)) eqn:Hd2;
    try (exfalso; by apply (float_gap 2 5 (cm_dopamineSpikeIndex metrics))).
  all: destruct (PrimFloat.ltb (cm_sessionLength metrics) 60) eqn:Hl1,
    (PrimFloat.ltb 120 (cm_sessionLength metrics)) eqn:Hl2;
    try (exfalso; by apply (float_gap 60 120 (cm_sessionLength metrics))).
  all: destruct (Nat.ltb_spec (cm_replaySensitivity metrics) 5),
    (Nat.ltb_spec 10 (cm_replaySensitivity metrics)); try lia.
  all: destruct (cm_circadianDrift metrics),
    (PrimFloat.ltb (cm_attentionSpan metrics) 120); simpl; unfold countTrue; simpl; lia.
Qed.

Lemma analyzeSessionHealth_counts metrics :
  analyzeSessionHealth metrics
  = if (3 <=? healthyIndicators metrics)%nat then healthy
    else if (3 <=? doomscrollIndicators metrics)%nat then doomscroll
    else unknown.
Proof. reflexivity. Qed.

(** X2.  A healthy indicator and the doomscroll indicator on the same metric
    never hold together, so at most one of the two thresholds of 3 is
    reached: the classification is healthy iff at least 3 healthy indicators
    hold, doomscroll iff at least 3 doomscroll indicators hold, and unknown
    iff neither count reaches 3. *)
Theorem analyzeSessionHealth_by_majority metrics :
  (healthyIndicators metrics + doomscrollIndicators metrics <= 5)%nat /\
  (analyzeSessionHealth metrics = healthy <-> (3 <= healthyIndicators metrics)%nat) /\
  (analyzeSessionHealth metrics = doomscroll <-> (3 <= doomscrollIndicators metrics)%nat) /\
  (analyzeSessionHealth metrics = unknown <->
     (healthyIndicators metrics < 3)%nat /\ (doomscrollIndicators metrics < 3)%nat).
Proof.
  pose proof (indicators_exclusive metrics) as Hsum.
  rewrite analyzeSessionHealth_counts.
  destruct (Nat.leb_spec 3 (healthyIndicators metrics)),
    (Nat.leb_spec 3 (doomscrollIndicators metrics));
    repeat split; intros; try done; try lia.
Qed.

(** ** Metrics engine: circadian drift, archetype, real-time update *)

(** X3.  Circadian drift holds iff the local hour of the start or of the end
    of the session is 23 or later, or earlier than 6: the third test of the
    function, for a session that spans the window, never decides. *)
Theorem detectCircadianDrift_start_or_end getHours startTime sessionLengthMinutes :
  detectCircadianDrift getHours startTime sessionLengthMinutes
  = inDriftWindow (getHours startTime)
    || inDriftWindow (getHours (startTime + sessionLengthMinutes * 60000)%float).
Proof.
  unfold detectCircadianDrift, inDriftWindow.
  destruct (geb (getHours startTime) 23); simpl; [done|].
  by rewrite orb_false_r.
Qed.

(** X4.  The archetype is unknown exactly when the session is shorter than
    half a minute or the attention span is 0; and with enough data, a scroll
    momentum of 0.6 or more always gives doomscroller. *)
Theorem classifySessionArchetype_unknown_and_momentum metrics :
  (classifySessionArchetype metrics = unknown_archetype <->
     PrimFloat.ltb (cm_sessionLength metrics) 0.5
     || PrimFloat.eqb (cm_attentionSpan metrics) 0 = true) /\
  (PrimFloat.ltb (cm_sessionLength metrics) 0.5 = false ->
   PrimFloat.eqb (cm_attentionSpan metrics) 0 = false ->
   PrimFloat.leb 0.6 (cm_scrollMomentum metrics) = true ->
   classifySessionArchetype metrics = doomscroller).
Proof.
  unfold classifySessionArchetype, gtb, geb. split.
  - destruct (PrimFloat.ltb (cm_sessionLength metrics) 0.5
              || PrimFloat.eqb (cm_attentionSpan metrics) 0); [done|].
    split; [|done].
    repeat match goal with |- context [if ?b then _ else _] => destruct b end; done.
  - intros -> -> Hhigh. simpl. rewrite Hhigh.
    assert (PrimFloat.ltb (cm_scrollMomentum metrics) 0.3 = false) as ->.
    { destruct (PrimFloat.ltb (cm_scrollMomentum metrics) 0.3) eqn:Hlow; [|done].
      by pose proof (float_le_lt_trans _ _ _ Hhigh Hlow). }
    rewrite (float_le_not_lt _ _ Hhigh), !andb_false_r. simpl.
    by destruct (PrimFloat.leb (cm_attentionSpan metrics) 8).
Qed.

(** X5.  For a session record that is not active, [updateRealTimeMetrics]
    returns what [computeMetrics] returns: applying the health and archetype
    rules a second time changes nothing. *)
Theorem updateRealTimeMetrics_inactive getHours Math_pow clock now session :
  vs_isActive session = false ->
  updateRealTimeMetrics getHours Math_pow clock now (RealTimeRecord session)
  = Some (computeMetrics getHours Math_pow clock (SessionRecord session)).
Proof.
  intros Hinactive. unfold updateRealTimeMetrics, adjustRealTime. rewrite Hinactive.
  f_equal.
Qed.

(** X6.  For an active session record, [updateRealTimeMetrics] reports the
    time elapsed since the start as session length and lowers the confidence
    from 0.8 to 0.8 - 0.2, keeps every other field that [computeMetrics]
    computed apart from health and archetype, and derives these two from the
    adjusted metrics. *)
Theorem updateRealTimeMetrics_active getHours Math_pow clock now session :
  vs_isActive session = true ->
  exists metrics,
    updateRealTimeMetrics getHours Math_pow clock now (RealTimeRecord session)
      = Some metrics /\
    let computed := computeMetrics getHours Math_pow clock (SessionRecord session) in
    cm_sessionLength metrics = ((now - vs_startTime session) / 60000)%float /\
    cm_confidence metrics = (0.8 - 0.2)%float /\
    cm_dopamineSpikeIndex metrics = cm_dopamineSpikeIndex computed /\
    cm_attentionSpan metrics = cm_attentionSpan computed /\
    cm_replaySensitivity metrics = cm_replaySensitivity computed /\
    cm_fatiguePoints metrics = cm_fatiguePoints computed /\
    cm_circadianDrift metrics = cm_circadianDrift computed /\
    cm_bingeBursts metrics = cm_bingeBursts computed /\
    cm_timestamp metrics = cm_timestamp computed /\
    cm_scrollMomentum metrics = cm_scrollMomentum computed /\
    cm_rewardVariability metrics = cm_rewardVariability computed /\
    cm_engagementHalfLife metrics = cm_engagementHalfLife computed /\
    cm_cognitiveLoad metrics = cm_cognitiveLoad computed /\
    cm_habitStrength metrics = cm_habitStrength computed /\
    cm_noveltyBias metrics = cm_noveltyBias computed /\
    cm_healthClassification metrics = analyzeSessionHealth metrics /\
    cm_sessionArchetype metrics = classifySessionArchetype metrics.
Proof.
  intros Hactive. eexists. split.
  - unfold updateRealTimeMetrics, adjustRealTime. rewrite Hactive. reflexivity.
  - simpl. repeat split; reflexivity.
Qed.

(** X7.  On an object whose [interactions] is not an array,
    [updateRealTimeMetrics] returns the zero metrics of [computeMetrics] but
    classifies them healthy, not unknown, and with a confidence of 0.3 when
    the object is active; on [null] or [undefined] it throws. *)
Theorem updateRealTimeMetrics_malformed getHours Math_pow clock now :
  updateRealTimeMetrics getHours Math_pow clock now RealTimeNullish = None /\
  (forall isActive startTime,
     exists metrics,
       updateRealTimeMetrics getHours Math_pow clock now
         (RealTimeNoArray isActive startTime) = Some metrics /\
       cm_healthClassification metrics = healthy /\
       cm_healthClassification
         (computeMetrics getHours Math_pow clock SessionNoArray) = unknown /\
       cm_dopamineSpikeIndex metrics = 0%float /\
       cm_attentionSpan metrics = 0%float /\
       cm_fatiguePoints metrics = [] /\
       cm_confidence metrics = if isActive then 0.3%float else 0%float).
Proof.
  split; [done|]. intros isActive startTime. eexists. split; [reflexivity|].
  destruct isActive; simpl.
  - repeat split; try reflexivity.
    unfold analyzeSessionHealth. simpl.
    by destruct (PrimFloat.ltb ((now - startTime) / 60000) 60).
  - repeat split; reflexivity.
Qed.

(** ** Classifier: initialisation and batches *)

Lemma lookup_map {A B} (f : A -> B) (l : list A) i : map f l !! i = f <$> l !! i.
Proof.
  revert i. induction l as [|x l IH]; intros [|i]; simpl; by try apply IH.
Qed.

(** X8.  Started while no other initialisation is under way, [initialize]
    never leaves the loading flag set; if it returns, a model is available;
    and with a model already loaded it changes nothing. *)
Theorem initialize_outcome host st :
  isLoading st = false ->
  isLoading (fst (initialize host st)) = false /\
  (snd (initialize host st) = true -> is_Some (model (fst (initialize host st)))) /\
  (is_Some (model st) -> initialize host st = (st, true)).
Proof.
  intros Hidle. unfold initialize, createFallbackModel. rewrite Hidle, orb_false_r.
  destruct (model st) as [m|] eqn:Hm.
  - rewrite bool_decide_eq_true_2 by eauto. simpl. rewrite Hm. eauto.
  - rewrite bool_decide_eq_false_2 by (by intros [? ?]).
    split; [|split].
    + by destruct (tf_loadLayersModel host), (tf_createAndTrain host),
        (tf_createFallback host).
    + by destruct (tf_loadLayersModel host), (tf_createAndTrain host),
        (tf_createFallback host); simpl; eauto.
    + by intros [? ?].
Qed.

(** X9.  When [classifySessions] resolves, it gives one result per session,
    in the order of the sessions, each with the features of its session; and
    with a model loaded it always resolves. *)
Theorem classifySessions_same_length_and_order getHours host st sessions :
  (forall results,
     snd (classifySessions getHours host st sessions) = Some results ->
     length results = length sessions /\
     forall i session metrics,
       sessions !! i = Some (session, metrics) ->
       exists result,
         results !! i = Some result /\
         ar_features result = extractFeatures getHours session metrics) /\
  (is_Some (model st) -> is_Some (snd (classifySessions getHours host st sessions))).
Proof.
  assert (forall results,
    results = map (fun sm => fallbackResult getHours (fst sm) (snd sm)) sessions ->
    length results = length sessions /\
    forall i session metrics,
      sessions !! i = Some (session, metrics) ->
      exists result,
        results !! i = Some result /\
        ar_features result = extractFeatures getHours session metrics) as Hfallback.
  { intros results ->. split; [apply length_map|].
    intros i session metrics Hi. rewrite lookup_map, Hi. simpl. eauto. }
  unfold classifySessions. split.
  - intros results.
    destruct (if bool_decide (is_Some (model st)) then (st, true) else initialize host st)
      as [st1 [|]]; [|done].
    destruct (model st1) as [m|]; [|intros [= <-]; by apply Hfallback].
    destruct (length sessions =? 0)%nat; [intros [= <-]; by apply Hfallback|].
    destruct (predictData m _); [|intros [= <-]; by apply Hfallback].
    intros [= <-]. split; [apply length_imap|].
    intros i session metrics Hi. rewrite list_lookup_imap, Hi. simpl. eauto.
  - intros Hmodel. rewrite bool_decide_eq_true_2 by done.
    destruct Hmodel as [m ->].
    destruct (length sessions =? 0)%nat; [eauto|]. destruct (predictData m _); eauto.
Qed.

(** X10.  With a loaded model that predicts row by row, the batch
    classification gives for every session the result that classifying it
    alone gives. *)
Theorem classifySessions_as_classifySession getHours host st m f sessions :
  model st = Some m ->
  (forall rows, predictData m rows = Some (map f rows)) ->
  snd (classifySessions getHours host st sessions)
  = Some (map (fun sm => snd (classifySession getHours host st (fst sm) (snd sm))) sessions).
Proof.
  intros Hm Hrows. unfold classifySessions, classifySession, classifySession_try.
  rewrite bool_decide_eq_true_2 by (rewrite Hm; eauto). rewrite Hm.
  destruct (Nat.eqb_spec (length sessions) 0) as [Hlen|_].
  - by destruct sessions.
  - rewrite Hrows. simpl. f_equal. apply list_eq. intros i.
    rewrite list_lookup_imap, lookup_map.
    destruct (sessions !! i) as [[session metrics]|] eqn:Hi; simpl; [|done].
    rewrite Hrows. simpl. f_equal.
    rewrite (nth_lookup_Some _ _ _
               (f (normalizeFeatures (extractFeatures getHours session metrics)))); [done|].
    by rewrite !lookup_map, Hi.
Qed.

Lemma Math_min_x_1_not_above x : gtb (Math_min x 1) 1 = false.
Proof.
  unfold gtb, Math_min. destruct (PrimFloat.is_nan x || PrimFloat.is_nan 1); [done|].
  destruct (PrimFloat.ltb x 1) eqn:Hlt; [by apply float_lt_not_lt|].
  destruct (PrimFloat.ltb 1 x) eqn:Hgt; [done|].
  by destruct (is_neg_zero x).
Qed.

Lemma Math_max_0_not_above x : gtb x 1 = false -> gtb (Math_max 0 x) 1 = false.
Proof.
  unfold gtb, Math_max. intros Hx.
  destruct (PrimFloat.is_nan 0 || PrimFloat.is_nan x); [done|].
  destruct (PrimFloat.ltb 0 x); [done|]. by destruct (PrimFloat.ltb x 0).
Qed.

(** X20.  [normalizeFeatures] hands the model twelve numbers, and none of
    them except the circadian flag and the hour of the day, which are not
    clamped, is ever above 1. *)
Theorem normalizeFeatures_never_above_one features :
  length (normalizeFeatures features) = 12%nat /\
  forall i c,
    normalizeFeatures features !! i = Some c ->
    i <> 5%nat -> i <> 7%nat ->
    gtb c 1 = false.
Proof.
  split; [done|]. intros i c Hi H5 H7. unfold normalizeFeatures in Hi.
  do 12 (destruct i as [|i]; [simpl in Hi; injection Hi as <-;
    first [ done | apply Math_min_x_1_not_above
          | apply Math_max_0_not_above, Math_min_x_1_not_above ] |]).
  done.
Qed.

(** ** Scheduler: status, retries, batches, callbacks *)

Lemma countPriority_fold queue : forall acc,
  let counts := fold_left countPriority queue acc in
  count_high counts
    = (count_high acc + length (List.filter (hasPriority high) queue))%nat /\
  count_normal counts
    = (count_normal acc + length (List.filter (hasPriority normal) queue))%nat /\
  count_low counts
    = (count_low acc + length (List.filter (hasPriority low) queue))%nat.
Proof.
  induction queue as [|a queue IH]; intros acc; simpl; [lia|].
  destruct (IH (countPriority acc a)) as (-> & -> & ->).
  unfold countPriority, hasPriority. destruct (sa_priority a); simpl; lia.
Qed.

Lemma sorted_priorities queue :
  StronglySorted queueOrder queue ->
  map sa_priority queue
  = replicate (length (List.filter (hasPriority high) queue)) high
    ++ replicate (length (List.filter (hasPriority normal) queue)) normal
    ++ replicate (length (List.filter (hasPriority low) queue)) low.
Proof.
  induction 1 as [|a queue _ IH Hall]; [done|].
  assert (forall p, priorityOrder (sa_priority a) > priorityOrder p ->
            List.filter (hasPriority p) queue = []) as Hnone.
  { intros p Hp. clear IH. induction Hall as [|b queue Hb _ IHq]; simpl; [done|].
    unfold hasPriority at 1.
    destruct (Z.eqb_spec (priorityOrder (sa_priority b)) (priorityOrder p)) as [Heq|_];
      [|done].
    unfold queueOrder in Hb. lia. }
  assert (forall p, hasPriority p a = (priorityOrder (sa_priority a) =? priorityOrder p))
    as Ha by done.
  cbn [map List.filter]. rewrite IH, !Ha.
  destruct (sa_priority a) eqn:Hp; simpl.
  - done.
  - by rewrite (Hnone high) by (simpl; lia).
  - by rewrite (Hnone high), (Hnone normal) by (simpl; lia).
Qed.

(** X11.  In every state a scheduler reaches, the three priority counts of
    [getQueueStatus] add up to the queue length, and the queue consists of
    that many high entries, then that many normal ones, then that many low
    ones. *)
Theorem getQueueStatus_counts_and_layout getHours ops :
  let st := run getHours newScheduler ops in
  let status := getQueueStatus st in
  (qs_highPriorityCount status + qs_normalPriorityCount status
     + qs_lowPriorityCount status = qs_queueLength status)%nat /\
  map sa_priority (analysisQueue st)
  = replicate (qs_highPriorityCount status) high
    ++ replicate (qs_normalPriorityCount status) normal
    ++ replicate (qs_lowPriorityCount status) low.
Proof.
  intros st status.
  assert (map sa_priority (analysisQueue st)
          = replicate (qs_highPriorityCount status) high
            ++ replicate (qs_normalPriorityCount status) normal
            ++ replicate (qs_lowPriorityCount status) low) as Hlayout.
  { subst status. unfold getQueueStatus. simpl.
    destruct (countPriority_fold (analysisQueue st)
                {| count_high := 0; count_normal := 0; count_low := 0 |})
      as (-> & -> & ->).
    simpl. apply sorted_priorities. subst st. apply run_ordered. constructor. }
  split; [|done].
  apply (f_equal length) in Hlayout.
  rewrite length_map, !length_app, !length_replicate in Hlayout.
  subst status. unfold getQueueStatus in *. simpl in *. lia.
Qed.

Section SchedulerInvariants.

Variable getHours : float -> float.

Lemma handleResults_preserves (P : AIScheduler -> Prop) (Q : BatchResult -> Prop)
    clock batch :
  (forall now analysis result st,
     analysis ∈ batch -> Q result -> P st ->
     P (handleResult getHours now analysis result st)) ->
  forall results index st,
    Forall Q results -> P st ->
    P (handleResults getHours clock batch index results st).
Proof.
  intros Hstep results.
  induction results as [|r results IH]; intros index st Hresults Hst; simpl; [done|].
  destruct (batch !! index) as [a|] eqn:Ha; [|done].
  apply Forall_cons in Hresults as [Hr Hresults].
  apply IH; [done|]. apply Hstep; [by eapply list_elem_of_lookup_2|done..].
Qed.

Lemma Forall_any {A} (l : list A) : Forall (fun _ => True) l.
Proof. by apply Forall_forall. Qed.

Lemma handleResult_withinRetries now analysis result st :
  withinRetries analysis ->
  Forall withinRetries (analysisQueue st) ->
  Forall withinRetries (analysisQueue (handleResult getHours now analysis result st)).
Proof.
  intros Ha Hst. destruct result as [classification processingTime|error]; simpl.
  - by destruct (callbacks st !! sa_sessionId analysis).
  - unfold handleFailure.
    destruct (Nat.leb_spec (S (sa_retryCount analysis)) maxRetries) as [Hle|_]; simpl.
    + unfold sortQueue. rewrite js_sort_perm. apply Forall_app. split; [done|].
      apply Forall_singleton. by split.
    + by destruct (callbacks st !! sa_sessionId analysis).
Qed.

Lemma step_withinRetries st op :
  Forall withinRetries (heldEntries st) ->
  Forall withinRetries (heldEntries (step getHours st op)).
Proof.
  unfold heldEntries. intros [Hqueue Hflight]%Forall_app.
  destruct op as [now session metrics priority callback| |replies clock|sessionId|];
    simpl.
  - apply Forall_app. split; [|done].
    unfold sortQueue. rewrite js_sort_perm. apply Forall_app. split.
    + by apply filter_Forall.
    + apply Forall_singleton. split; simpl; [unfold maxRetries|]; lia.
  - unfold processQueue_begin.
    destruct (isProcessing st || (length (analysisQueue st) =? 0)%nat); simpl.
    + by apply Forall_app.
    + apply Forall_app. split; [by apply Forall_drop | by apply Forall_take].
  - unfold processQueue_resume. destruct (inFlight st) as [batch|] eqn:Hfl; simpl.
    + apply Forall_app. split; [|done].
      apply (handleResults_preserves
               (fun st => Forall withinRetries (analysisQueue st)) (fun _ => True));
        [|apply Forall_any|done].
      intros now analysis result st' Hin _ Hst'.
      apply handleResult_withinRetries; [|done].
      rewrite Forall_forall in Hflight. by apply Hflight.
    + rewrite Hfl. by apply Forall_app.
  - apply Forall_app. split; [by apply filter_Forall|done].
  - done.
Qed.

Lemma step_batchInProgress st op :
  batchInProgress st -> batchInProgress (step getHours st op).
Proof.
  unfold batchInProgress.
  destruct op as [now session metrics priority callback| |replies clock|sessionId|];
    simpl; try done.
  - unfold processQueue_begin.
    destruct (isProcessing st) eqn:Hp; simpl; [by rewrite Hp|].
    destruct (analysisQueue st) as [|a queue]; simpl; [by rewrite Hp|].
    intros _. split; [done|]. rewrite length_take. unfold batchSize. lia.
  - unfold processQueue_resume.
    destruct (inFlight st) as [batch|] eqn:Hfl; simpl; [done|]. by rewrite Hfl.
Qed.

Lemma newEntry_not_delivered sessionId (d : Callback * AnalysisResult) log :
  res_sessionId (snd d) <> sessionId ->
  length (List.filter (deliveredTo sessionId) (log ++ [d]))
  = length (List.filter (deliveredTo sessionId) log).
Proof.
  intros Hne. rewrite List.filter_app, length_app. simpl. unfold deliveredTo at 2.
  destruct (String.eqb_spec (res_sessionId (snd d)) sessionId); [done|]. simpl. lia.
Qed.

Lemma newEntry_delivered sessionId (d : Callback * AnalysisResult) log :
  res_sessionId (snd d) = sessionId ->
  length (List.filter (deliveredTo sessionId) (log ++ [d]))
  = S (length (List.filter (deliveredTo sessionId) log)).
Proof.
  intros Heq. rewrite List.filter_app, length_app. simpl. unfold deliveredTo at 2.
  rewrite Heq, String.eqb_refl. simpl. lia.
Qed.

(** Calling the callback of an entry and unregistering it. *)
Lemma deliver_counts sessionId analysis callback result st :
  callbacks st !! sa_sessionId analysis = Some callback ->
  res_sessionId result = sa_sessionId analysis ->
  let st' :=
    {| analysisQueue := analysisQueue st;
       isProcessing := isProcessing st;
       callbacks := delete (sa_sessionId analysis) (callbacks st);
       inFlight := inFlight st;
       delivered := delivered st ++ [(callback, result)] |} in
  (deliveries sessionId st' + pendingCallbacks sessionId st'
   = deliveries sessionId st + pendingCallbacks sessionId st)%nat /\
  (deliveries sessionId st <= deliveries sessionId st')%nat.
Proof.
  intros Hcb Hid. unfold deliveries, pendingCallbacks. simpl.
  destruct (decide (sa_sessionId analysis = sessionId)) as [<-|Hne].
  - rewrite newEntry_delivered by done. rewrite lookup_delete_eq, Hcb. lia.
  - rewrite newEntry_not_delivered by (simpl; congruence).
    rewrite lookup_delete_ne by done. lia.
Qed.

Lemma handleResult_counts sessionId now analysis result st :
  let st' := handleResult getHours now analysis result st in
  (deliveries sessionId st' + pendingCallbacks sessionId st'
   = deliveries sessionId st + pendingCallbacks sessionId st)%nat /\
  (deliveries sessionId st <= deliveries sessionId st')%nat.
Proof.
  destruct result as [classification processingTime|error]; simpl.
  - destruct (callbacks st !! sa_sessionId analysis) as [callback|] eqn:Hcb; [|lia].
    by apply deliver_counts.
  - unfold handleFailure.
    destruct (S (sa_retryCount analysis) <=? maxRetries)%nat; [done|].
    destruct (callbacks st !! sa_sessionId analysis) as [callback|] eqn:Hcb; [|lia].
    by apply deliver_counts.
Qed.

Lemma step_counts sessionId st op :
  let st' := step getHours st op in
  (deliveries sessionId st' + pendingCallbacks sessionId st'
   <= deliveries sessionId st + pendingCallbacks sessionId st
      + registrations sessionId [op])%nat /\
  (deliveries sessionId st <= deliveries sessionId st')%nat.
Proof.
  destruct op as [now session metrics priority callback| |replies clock|id|]; simpl.
  - unfold deliveries, pendingCallbacks, registrations. simpl.
    destruct callback as [cb|]; simpl; [|lia].
    destruct (String.eqb_spec (vs_id session) sessionId) as [->|Hne]; simpl.
    + rewrite lookup_insert_eq. destruct (callbacks st !! sessionId); lia.
    + rewrite lookup_insert_ne by done. lia.
  - unfold processQueue_begin.
    destruct (isProcessing st || (length (analysisQueue st) =? 0)%nat); simpl;
      unfold deliveries, pendingCallbacks; simpl; lia.
  - unfold processQueue_resume. destruct (inFlight st) as [batch|]; [|lia].
    unfold registrations. simpl.
    assert (forall st1 st2,
              callbacks st2 = callbacks st1 -> delivered st2 = delivered st1 ->
              deliveries sessionId st2 = deliveries sessionId st1 /\
              pendingCallbacks sessionId st2 = pendingCallbacks sessionId st1) as Hsame.
    { intros st1 st2 Hc Hd. unfold deliveries, pendingCallbacks. by rewrite Hc, Hd. }
    match goal with |- (deliveries _ ?s2 + _ <= _)%nat /\ _ =>
      destruct (Hsame (handleResults getHours clock batch 0
                         (processBatch replies batch) st) s2) as [-> ->]; [done..|]
    end.
    cut ((deliveries sessionId
            (handleResults getHours clock batch 0 (processBatch replies batch) st)
          + pendingCallbacks sessionId
              (handleResults getHours clock batch 0 (processBatch replies batch) st)
          = deliveries sessionId st + pendingCallbacks sessionId st)%nat /\
         (deliveries sessionId st
          <= deliveries sessionId
               (handleResults getHours clock batch 0 (processBatch replies batch) st))%nat);
      [lia|].
    apply (handleResults_preserves
             (fun st' =>
                (deliveries sessionId st' + pendingCallbacks sessionId st'
                 = deliveries sessionId st + pendingCallbacks sessionId st)%nat /\
                (deliveries sessionId st <= deliveries sessionId st')%nat)
             (fun _ => True)); [|apply Forall_any|lia].
    intros now analysis result st' _ _ [Hsum Hmono].
    destruct (handleResult_counts sessionId now analysis result st') as [Hsum' Hmono'].
    simpl in Hsum', Hmono'. lia.
  - unfold deliveries, pendingCallbacks, registrations. simpl.
    destruct (decide (id = sessionId)) as [->|Hne].
    + rewrite lookup_delete_eq. lia.
    + rewrite lookup_delete_ne by done. lia.
  - unfold deliveries, pendingCallbacks, registrations. simpl.
    rewrite lookup_empty. lia.
Qed.

Lemma registrations_cons sessionId op ops :
  registrations sessionId (op :: ops)
  = (registrations sessionId [op] + registrations sessionId ops)%nat.
Proof. unfold registrations. simpl. by destruct (registers sessionId op). Qed.

Lemma run_counts sessionId ops : forall st,
  let st' := run getHours st ops in
  (deliveries sessionId st' + pendingCallbacks sessionId st'
   <= deliveries sessionId st + pendingCallbacks sessionId st
      + registrations sessionId ops)%nat /\
  (deliveries sessionId st <= deliveries sessionId st')%nat.
Proof.
  induction ops as [|op ops IH]; intros st; simpl.
  - unfold registrations. simpl. lia.
  - destruct (IH (step getHours st op)) as [Hsum Hmono].
    destruct (step_counts sessionId st op) as [Hsum' Hmono'].
    rewrite registrations_cons. simpl in *. lia.
Qed.

End SchedulerInvariants.

(** X12.  In every state a scheduler reaches, each entry it holds, queued or
    being classified, has failed at most [maxRetries] times, and an entry
    that has failed before has low priority. *)
Theorem retries_bounded_in_every_state getHours ops :
  Forall withinRetries (heldEntries (run getHours newScheduler ops)).
Proof.
  assert (forall st, Forall withinRetries (heldEntries st) ->
            Forall withinRetries (heldEntries (run getHours st ops))) as Hrun.
  { induction ops as [|op ops IH]; intros st Hst; simpl; [done|].
    by apply IH, step_withinRetries. }
  apply Hrun. constructor.
Qed.

(** X13.  In every state a scheduler reaches, a batch is being classified
    exactly while [isProcessing] is set, and that batch has at least one and
    at most [batchSize] entries. *)
Theorem batch_between_one_and_batchSize getHours ops :
  batchInProgress (run getHours newScheduler ops).
Proof.
  assert (forall st, batchInProgress st -> batchInProgress (run getHours st ops)) as Hrun.
  { induction ops as [|op ops IH]; intros st Hst; simpl; [done|].
    by apply IH, step_batchInProgress. }
  by apply Hrun.
Qed.

(** X14.  For every session, the results handed to callbacks, plus the
    callback still registered if there is one, never outnumber the calls of
    [scheduleAnalysis] that registered a callback for the session. *)
Theorem deliveries_bounded_by_registrations getHours sessionId ops :
  let st := run getHours newScheduler ops in
  (deliveries sessionId st + pendingCallbacks sessionId st
   <= registrations sessionId ops)%nat.
Proof.
  intros st. destruct (run_counts getHours sessionId ops newScheduler) as [Hsum _].
  assert (pendingCallbacks sessionId newScheduler = 0%nat) as Hpending.
  { unfold pendingCallbacks. simpl. by rewrite lookup_empty. }
  assert (deliveries sessionId newScheduler = 0%nat) as Hdelivered by done.
  subst st. simpl in Hsum. lia.
Qed.

(** X15.  After [clearSessionAnalysis] for a session, or [clearQueue], and
    as long as no callback is registered for the session again, no result is
    delivered for it, whatever the scheduler does, even when its entry was in
    the batch being classified. *)
Theorem cleared_session_gets_no_result getHours sessionId st cleared ops :
  cleared = clearSessionAnalysis sessionId st \/ cleared = clearQueue st ->
  registrations sessionId ops = 0%nat ->
  deliveries sessionId (run getHours cleared ops) = deliveries sessionId st.
Proof.
  intros Hcleared Hnone.
  destruct (run_counts getHours sessionId ops cleared) as [Hsum Hmono].
  assert (pendingCallbacks sessionId cleared = 0%nat) as Hpending.
  { unfold pendingCallbacks. destruct Hcleared as [-> | ->]; simpl.
    - by rewrite lookup_delete_eq.
    - by rewrite lookup_empty. }
  assert (deliveries sessionId cleared = deliveries sessionId st) as Hdelivered
    by (by destruct Hcleared as [-> | ->]).
  simpl in Hsum, Hmono. lia.
Qed.

Section SchedulerBatches.

Variable getHours : float -> float.

Lemma handleResults_keeps_queued sessionId clock batch results index st :
  sessionId ∈ sessionIds (analysisQueue st) ->
  sessionId ∈ sessionIds
    (analysisQueue (handleResults getHours clock batch index results st)).
Proof.
  apply (handleResults_preserves getHours
           (fun st => sessionId ∈ sessionIds (analysisQueue st)) (fun _ => True));
    [|apply Forall_any].
  clear st. intros now analysis result st _ _ Hin.
  destruct result as [classification processingTime|error]; simpl.
  - by destruct (callbacks st !! sa_sessionId analysis).
  - unfold handleFailure.
    destruct (S (sa_retryCount analysis) <=? maxRetries)%nat; simpl.
    + rewrite sessionIds_sortQueue, sessionIds_app. apply elem_of_app. by left.
    + by destruct (callbacks st !! sa_sessionId analysis).
Qed.

Lemma handleResults_requeues clock batch analysis error k :
  (sa_retryCount analysis < maxRetries)%nat ->
  forall results index st,
    results !! k = Some (BatchFailure error) ->
    batch !! (index + k)%nat = Some analysis ->
    sa_sessionId analysis ∈ sessionIds
      (analysisQueue (handleResults getHours clock batch index results st)).
Proof.
  intros Hretry. induction k as [|k IH]; intros results index st Hk Ha.
  - destruct results as [|r results]; [done|]. simpl in Hk. injection Hk as ->.
    rewrite Nat.add_0_r in Ha. simpl. rewrite Ha.
    apply handleResults_keeps_queued. simpl. unfold handleFailure.
    destruct (Nat.leb_spec (S (sa_retryCount analysis)) maxRetries) as [_|Hgt]; [|lia].
    simpl. rewrite sessionIds_sortQueue, sessionIds_app. apply elem_of_app. right.
    simpl. apply list_elem_of_here.
  - destruct results as [|r results]; [done|]. simpl in Hk. simpl.
    destruct (batch !! index) as [a0|] eqn:Ha0.
    + apply IH; [done|]. by replace (S index + k)%nat with (index + S k)%nat by lia.
    + apply lookup_ge_None in Ha0. apply lookup_lt_Some in Ha. lia.
Qed.

Lemma successDelivery_ext cbs1 cbs2 processingTime
    (l : list (ScheduledAnalysis * AIClassificationResult)) :
  (forall ac, ac ∈ l -> cbs1 !! sa_sessionId (fst ac) = cbs2 !! sa_sessionId (fst ac)) ->
  omap (successDelivery cbs1 processingTime) l
  = omap (successDelivery cbs2 processingTime) l.
Proof.
  induction l as [|ac l IH]; intros Hsame; [done|].
  cbn [omap list_omap].
  assert (successDelivery cbs1 processingTime ac = successDelivery cbs2 processingTime ac)
    as ->.
  { unfold successDelivery. by rewrite Hsame by apply list_elem_of_here. }
  assert (omap (successDelivery cbs1 processingTime) l
          = omap (successDelivery cbs2 processingTime) l) as Htail.
  { apply IH. intros ac' Hin. apply Hsame. by apply list_elem_of_further. }
  destruct (successDelivery cbs2 processingTime ac); [f_equal|]; exact Htail.
Qed.

Lemma handleResults_success clock batch processingTime classifications :
  forall index st,
    NoDup (sessionIds (drop index batch)) ->
    let st' :=
      handleResults getHours clock batch index
        (map (fun c => BatchSuccess c processingTime) classifications) st in
    analysisQueue st' = analysisQueue st /\
    delivered st'
    = delivered st
      ++ omap (successDelivery (callbacks st) processingTime)
           (zip (drop index batch) classifications).
Proof.
  induction classifications as [|c classifications IH]; intros index st Hnodup; simpl.
  - split; [done|]. destruct (drop index batch); simpl; by rewrite app_nil_r.
  - destruct (batch !! index) as [a|] eqn:Ha.
    + rewrite (drop_S _ _ _ Ha) in *. simpl in Hnodup.
      apply NoDup_cons in Hnodup as [Hfresh Hnodup].
      destruct (IH (S index)
                  (handleResult getHours (clock index) a (BatchSuccess c processingTime) st)
                  Hnodup) as [Hqueue Hdelivered].
      simpl in Hqueue, Hdelivered. rewrite Hqueue, Hdelivered. clear Hqueue Hdelivered.
      assert (forall cbs,
                (forall ac, ac ∈ zip (drop (S index) batch) classifications ->
                            cbs !! sa_sessionId (fst ac)
                            = callbacks st !! sa_sessionId (fst ac)) ->
                omap (successDelivery cbs processingTime)
                  (zip (drop (S index) batch) classifications)
                = omap (successDelivery (callbacks st) processingTime)
                    (zip (drop (S index) batch) classifications)) as Hext.
      { intros cbs Hsame. by apply successDelivery_ext. }
      cbn [zip zip_with omap list_omap].
      assert (successDelivery (callbacks st) processingTime (a, c)
              = match callbacks st !! sa_sessionId a with
                | Some callback =>
                    Some (callback,
                          {| res_sessionId := sa_sessionId a;
                             res_result := c;
                             res_processingTime := processingTime;
                             res_success := true;
                             res_error := None |})
                | None => None
                end) as -> by done.
      destruct (callbacks st !! sa_sessionId a) as [callback|] eqn:Hcb;
        cbn [analysisQueue delivered callbacks].
      * split; [done|]. rewrite <- app_assoc. cbn [app]. do 2 f_equal.
        apply Hext. intros [a' c'] Hin. cbn [fst].
        apply lookup_delete_ne. intros Heq. apply Hfresh. rewrite Heq.
        apply elem_of_zip_l in Hin. unfold sessionIds.
        apply list_elem_of_fmap. by exists a'.
      * done.
    + rewrite drop_ge by (by apply lookup_ge_None). simpl.
      by rewrite app_nil_r.
Qed.

End SchedulerBatches.

(** X16.  An entry of the batch being classified whose classification fails
    before its last retry is put back into the queue, even if
    [clearSessionAnalysis] was called for its session in the meantime; no
    result is delivered for it. *)
Theorem cleared_in_flight_entry_is_requeued getHours replies clock st batch index
    analysis error :
  inFlight st = Some batch ->
  batch !! index = Some analysis ->
  batchReply replies = None ->
  singleReply replies analysis = inr error ->
  (sa_retryCount analysis < maxRetries)%nat ->
  let st' :=
    processQueue_resume getHours replies clock
      (clearSessionAnalysis (sa_sessionId analysis) st) in
  sa_sessionId analysis ∈ sessionIds (analysisQueue st') /\
  deliveries (sa_sessionId analysis) st' = deliveries (sa_sessionId analysis) st.
Proof.
  intros Hfl Ha Hbatch Hsingle Hretry st'. split.
  - subst st'. unfold processQueue_resume. simpl. rewrite Hfl. simpl.
    apply (handleResults_requeues getHours clock batch analysis error index Hretry).
    + unfold processBatch. rewrite Hbatch, lookup_map, Ha. simpl. by rewrite Hsingle.
    + done.
  - subst st'.
    destruct (run_counts getHours (sa_sessionId analysis) [OpSettle replies clock]
                (clearSessionAnalysis (sa_sessionId analysis) st)) as [Hsum Hmono].
    assert (pendingCallbacks (sa_sessionId analysis)
              (clearSessionAnalysis (sa_sessionId analysis) st) = 0%nat) as Hpending.
    { unfold pendingCallbacks. simpl. by rewrite lookup_delete_eq. }
    assert (deliveries (sa_sessionId analysis)
              (clearSessionAnalysis (sa_sessionId analysis) st)
            = deliveries (sa_sessionId analysis) st) as Hdelivered by done.
    unfold registrations in Hsum. simpl in Hsum, Hmono. lia.
Qed.

(** X17.  When the batch classification succeeds for a batch of entries of
    different sessions, the queue is left as it is, and the callbacks
    registered for the entries are called in the order of the batch, the
    callback of the i-th entry with the i-th classification, marked as a
    success, and with the batch time divided by the batch length. *)
Theorem successful_batch_delivers_in_order getHours replies clock st batch
    classifications totalProcessingTime :
  inFlight st = Some batch ->
  batchReply replies = Some (classifications, totalProcessingTime) ->
  NoDup (sessionIds batch) ->
  let st' := processQueue_resume getHours replies clock st in
  analysisQueue st' = analysisQueue st /\
  isProcessing st' = false /\
  delivered st'
  = delivered st
    ++ omap (successDelivery (callbacks st)
               (totalProcessingTime / nat2float (length batch)))
         (zip batch classifications).
Proof.
  intros Hfl Hbatch Hnodup st'. subst st'. unfold processQueue_resume. rewrite Hfl.
  simpl. unfold processBatch. rewrite Hbatch.
  destruct (handleResults_success getHours clock batch
              (totalProcessingTime / nat2float (length batch)) classifications 0 st)
    as [Hqueue Hdelivered]; [done|].
  simpl in Hqueue, Hdelivered. by rewrite Hqueue, Hdelivered.
Qed.

(** ** Background worker: the statistics of a recorded session *)

Lemma recordInteraction_stats session interaction :
  let session' := recordInteraction session interaction in
  vs_id session' = vs_id session /\
  vs_startTime session' = vs_startTime session /\
  vs_isActive session' = vs_isActive session /\
  vs_interactions session' = vs_interactions session ++ [interaction] /\
  vs_videoCount session'
  = (if isEnter interaction
     then nat2float (snd (trackVideoOrder (vs_interactions session ++ [interaction])))
     else vs_videoCount session) /\
  vs_totalDwellTime session'
  = (if isLeaveWithDwell interaction
     then (vs_totalDwellTime session + dwellOf interaction)%float
     else vs_totalDwellTime session).
Proof.
  unfold recordInteraction, updateSessionStats, isEnter, isLeaveWithDwell.
  destruct (vi_action interaction) eqn:Haction; simpl.
  - repeat split; try done.
    rewrite trackVideoOrder_ids. by destruct (trackIds_spec
      (map vi_videoId (List.filter isEnter (vs_interactions session ++ [interaction]))))
      as [-> _].
  - by destruct (truthy_opt (md_dwellTime (vi_metadata interaction))).
  - done.
  - done.
Qed.

(** X18.  After the background worker has recorded a list of interactions
    into a session it started, the session holds exactly these interactions,
    its video count is the number of videos the metrics engine numbers in
    them, and its total dwell time is the sum of the dwell times the engine
    reads from them. *)
Theorem recorded_session_statistics sessionId timestamp interactions :
  let session := fold_left recordInteraction interactions
                   (startedSession sessionId timestamp) in
  vs_id session = sessionId /\
  vs_startTime session = timestamp /\
  vs_isActive session = true /\
  vs_interactions session = interactions /\
  vs_videoCount session = nat2float (snd (trackVideoOrder interactions)) /\
  vs_totalDwellTime session = totalDwell interactions.
Proof.
  induction interactions as [|i l IH] using rev_ind; [done|].
  rewrite fold_left_app. simpl in *.
  destruct IH as (Hid & Hstart & Hactive & Hl & Hcount & Hdwell).
  destruct (recordInteraction_stats
              (fold_left recordInteraction l (startedSession sessionId timestamp)) i)
    as (-> & -> & -> & -> & -> & ->).
  rewrite Hl, Hcount, Hdwell. repeat split; try done.
  - destruct (isEnter i) eqn:Henter; [done|].
    unfold trackVideoOrder. by rewrite List.filter_app; simpl; rewrite Henter, app_nil_r.
  - unfold totalDwell. rewrite List.filter_app, fold_left_app. simpl.
    by destruct (isLeaveWithDwell i).
Qed.

(** ** Scheduler: real-time analyses *)

Lemma queueOrder_high a b :
  queueOrder a b -> sa_priority b = high -> hasPriority high a = true.
Proof.
  unfold queueOrder, hasPriority. intros Horder Hb. rewrite Hb in Horder.
  apply Z.eqb_eq. destruct (sa_priority a); simpl in *; lia.
Qed.

Lemma filter_all {A} (f : A -> bool) l :
  Forall (fun x => f x = true) l -> List.filter f l = l.
Proof. induction 1 as [|x l Hx _ IH]; simpl; [done|]. by rewrite Hx, IH. Qed.

(** X19.  An analysis scheduled with [scheduleRealTimeAnalysis] while fewer
    than [batchSize] high-priority entries of other sessions are queued and
    no batch is being classified is part of the batch the next [processQueue]
    takes. *)
Theorem realTime_analysis_joins_next_batch now session metrics callback st :
  isProcessing st = false ->
  (length (List.filter (hasPriority high)
             (List.filter (otherSession (vs_id session)) (analysisQueue st)))
   < batchSize)%nat ->
  exists batch,
    inFlight (processQueue_begin
                (scheduleRealTimeAnalysis now session metrics callback st))
    = Some batch /\
    newEntry now session metrics high ∈ batch.
Proof.
  intros Hidle Hfew.
  set (others := List.filter (otherSession (vs_id session)) (analysisQueue st)) in *.
  set (entry := newEntry now session metrics high).
  set (queue := sortQueue (others ++ [entry])).
  assert (queue ≡ₚ entry :: others) as Hperm.
  { unfold queue, sortQueue. rewrite js_sort_perm. apply Permutation_app_comm. }
  assert (entry ∈ queue) as Hin by (rewrite Hperm; apply list_elem_of_here).
  apply list_elem_of_split in Hin as (pre & post & Hsplit).
  assert (StronglySorted queueOrder (pre ++ entry :: post)) as Hsorted.
  { rewrite <- Hsplit. apply sortQueue_ordered. }
  assert (Forall (fun a => hasPriority high a = true) pre) as Hhigh.
  { apply Forall_forall. intros a Ha. apply (queueOrder_high a entry); [|done].
    apply (StronglySorted_app_1_elem_of _ _ _ _ _ Hsorted Ha), list_elem_of_here. }
  assert (length pre < batchSize)%nat as Hpre.
  { assert (others ≡ₚ pre ++ post) as Hothers.
    { apply Permutation_cons_app_inv with entry. by rewrite <- Hsplit, Hperm. }
    apply (filter_perm (hasPriority high)) in Hothers.
    apply Permutation_length in Hothers.
    rewrite List.filter_app, length_app, (filter_all _ _ Hhigh) in Hothers. lia. }
  exists (take batchSize queue). split.
  - assert (analysisQueue (scheduleRealTimeAnalysis now session metrics callback st)
            = queue) as Hqueue by done.
    assert (isProcessing (scheduleRealTimeAnalysis now session metrics callback st)
            = false) as Hstill by done.
    unfold processQueue_begin. rewrite Hstill, Hqueue, Hsplit, length_app. simpl.
    by replace (length pre + S (length post) =? 0)%nat with false
      by (symmetry; apply Nat.eqb_neq; lia).
  - apply (list_elem_of_lookup_2 _ (length pre)).
    rewrite lookup_take_lt by done. rewrite Hsplit. apply list_lookup_middle. done.
Qed.

(** ** The theorems at concrete sessions and schedulers *)

Lemma classifySessionArchetype_unknown_and_momentum_witness :
  classifySessionArchetype (metricsOf skimmingSession) = doomscroller.
Proof.
  apply (proj2 (classifySessionArchetype_unknown_and_momentum (metricsOf skimmingSession)));
    reflexivity.
Defined.

Lemma updateRealTimeMetrics_inactive_witness :
  updateRealTimeMetrics utcHours pow_square sampleClock 51000000
    (RealTimeRecord sampleSession)
  = Some sampleMetrics.
Proof.
  apply (updateRealTimeMetrics_inactive utcHours pow_square sampleClock 51000000
           sampleSession).
  reflexivity.
Defined.

Lemma updateRealTimeMetrics_active_witness :
  exists metrics,
    updateRealTimeMetrics utcHours pow_square sampleClock 51000000
      (RealTimeRecord activeSession) = Some metrics /\
    cm_sessionLength metrics = 10%float /\
    cm_confidence metrics = (0.8 - 0.2)%float.
Proof.
  destruct (updateRealTimeMetrics_active utcHours pow_square sampleClock 51000000
              activeSession eq_refl) as (metrics & Hsome & Hlength & Hconfidence & _).
  exists metrics. split; [exact Hsome|]. split; [|exact Hconfidence].
  rewrite Hlength. reflexivity.
Defined.

Lemma initialize_outcome_witness :
  isLoading (fst (initialize brokenHost {| model := None; isLoading := false |})) = false.
Proof.
  apply (proj1 (initialize_outcome brokenHost {| model := None; isLoading := false |}
                  eq_refl)).
Defined.

Lemma classifySessions_as_classifySession_witness :
  let st := {| model := Some (constantModel 0.9); isLoading := false |} in
  let sessions :=
    [(sampleSession, sampleMetrics); (sessionNamed "a", metricsOf (sessionNamed "a"))] in
  snd (classifySessions utcHours brokenHost st sessions)
  = Some (map (fun sm => snd (classifySession utcHours brokenHost st (fst sm) (snd sm)))
            sessions).
Proof.
  intros st sessions.
  apply (classifySessions_as_classifySession utcHours brokenHost st (constantModel 0.9)
           (fun _ => 0.9%float) sessions eq_refl).
  intros rows. reflexivity.
Defined.

Lemma cleared_session_gets_no_result_witness :
  deliveries "a"
    (run utcHours (clearSessionAnalysis "a" busyScheduler)
       [OpSettle (batchAnswered [doomscrollResult (sessionNamed "a");
                                 doomscrollResult (sessionNamed "b")] 10)
          (fun _ => 2000)])
  = deliveries "a" busyScheduler.
Proof.
  apply (cleared_session_gets_no_result utcHours "a" busyScheduler).
  - left. reflexivity.
  - reflexivity.
Defined.

Lemma cleared_in_flight_entry_is_requeued_witness :
  let st' :=
    processQueue_resume utcHours (allFail "Model not loaded") (fun _ => 2000)
      (clearSessionAnalysis "a" busyScheduler) in
  "a" ∈ sessionIds (analysisQueue st') /\
  deliveries "a" st' = deliveries "a" busyScheduler.
Proof.
  apply (cleared_in_flight_entry_is_requeued utcHours (allFail "Model not loaded")
           (fun _ => 2000) busyScheduler
           [entryNamed "a" 1000; entryNamed "b" 1500] 0 (entryNamed "a" 1000)
           "Model not loaded").
  - reflexivity.
  - reflexivity.
  - reflexivity.
  - reflexivity.
  - simpl. unfold maxRetries. lia.
Defined.

Lemma successful_batch_delivers_in_order_witness :
  let results := [doomscrollResult (sessionNamed "a"); doomscrollResult (sessionNamed "b")] in
  let st' :=
    processQueue_resume utcHours (batchAnswered results 10) (fun _ => 2000) busyScheduler in
  analysisQueue st' = [] /\
  isProcessing st' = false /\
  delivered st'
  = omap (successDelivery (callbacks busyScheduler) (10 / nat2float 2))
      (zip [entryNamed "a" 1000; entryNamed "b" 1500] results).
Proof.
  intros results.
  apply (successful_batch_delivers_in_order utcHours (batchAnswered results 10)
           (fun _ => 2000) busyScheduler
           [entryNamed "a" 1000; entryNamed "b" 1500] results 10).
  - reflexivity.
  - reflexivity.
  - simpl. apply NoDup_cons. split; [|apply NoDup_singleton].
    intros H. apply elem_of_cons in H as [H|H]; [discriminate|].
    by apply elem_of_nil in H.
Defined.

Lemma realTime_analysis_joins_next_batch_witness :
  let st :=
    scheduleAnalysis 1000 (sessionNamed "a") (metricsOf (sessionNamed "a")) normal None
      newScheduler in
  exists batch,
    inFlight (processQueue_begin
                (scheduleRealTimeAnalysis 1500 (sessionNamed "b")
                   (metricsOf (sessionNamed "b")) (Some 2%nat) st))
    = Some batch /\
    newEntry 1500 (sessionNamed "b") (metricsOf (sessionNamed "b")) high ∈ batch.
Proof.
  intros st.
  apply (realTime_analysis_joins_next_batch 1500 (sessionNamed "b")
           (metricsOf (sessionNamed "b")) (Some 2%nat) st).
  - reflexivity.
  - simpl. unfold batchSize. lia.
Defined.
